(** * NFTopia analytics service: derived-metrics pipeline

    A shallow embedding of the parts of [analytics/models.py] and
    [analytics/tasks.py] that the behaviour-profile engine, the retention
    cohort calculator, the webhook notification pipeline, the cleanup sweep
    and the scheduled-report orchestrator are made of, together with the
    properties the specification states about them.

    Conventions of the embedding
    - Python [int] is [Z]; Python [float] is a binary64 primitive float.
    - [datetime] carries the attributes of Python's [datetime.datetime];
      arithmetic with a [timedelta] goes through proleptic Gregorian
      ordinals exactly as [datetime.py] does and raises [OverflowError]
      outside years 1..9999.
    - A task runs in a state-and-exception monad over the database tables;
      an exception keeps the writes made before it (autocommit).
    - The bodies of the functions are embedded as written. A name a task
      uses that [tasks.py] does not bind ([models], [os]) raises
      [NameError] where the body evaluates it; the annotations of the
      signatures ([List], [Dict], [Any]) are not part of a body. *)

From Stdlib Require Import ZArith Lia Bool List.
From Stdlib Require Import PrimFloat Uint63.
From stdpp Require Import gmap strings list.

Set Default Proof Using "Type".
#[local] Set Warnings "-inexact-float".

(** ** Calendar arithmetic of Python's [datetime] module *)

Module Calendar.
Local Open Scope Z_scope.

Definition _MAXORDINAL : Z := 3652059.

Definition _DAYS_IN_MONTH : list Z :=
  [-1; 31; 28; 31; 30; 31; 30; 31; 31; 30; 31; 30; 31].

Definition _DAYS_BEFORE_MONTH : list Z :=
  [-1; 0; 31; 59; 90; 120; 151; 181; 212; 243; 273; 304; 334].

(** [t[i]] for an index within the table. *)
Definition table (t : list Z) (i : Z) : Z := nth (Z.to_nat i) t 0.

Definition _is_leap (year : Z) : bool :=
  (year mod 4 =? 0) && (negb (year mod 100 =? 0) || (year mod 400 =? 0)).

Definition _days_before_year (year : Z) : Z :=
  let y := year - 1 in
  y * 365 + y / 4 - y / 100 + y / 400.

Definition _days_in_month (year month : Z) : Z :=
  if (month =? 2) && _is_leap year then 29 else table _DAYS_IN_MONTH month.

Definition _days_before_month (year month : Z) : Z :=
  table _DAYS_BEFORE_MONTH month
  + (if (month >? 2) && _is_leap year then 1 else 0).

Definition _ymd2ord (year month day : Z) : Z :=
  _days_before_year year + _days_before_month year month + day.

Definition _DI400Y : Z := 146097.
Definition _DI100Y : Z := 36524.
Definition _DI4Y : Z := 1461.

(** The part of [_ord2ymd] that follows the division by 400-year cycles:
    [n] is the zero-based day within the cycle that starts at [year]. *)
Definition _ord2ymd_in_cycle (year n : Z) : Z * Z * Z :=
  let n100 := n / _DI100Y in
  let n := n mod _DI100Y in
  let n4 := n / _DI4Y in
  let n := n mod _DI4Y in
  let n1 := n / 365 in
  let n := n mod 365 in
  let year := year + (n100 * 100 + n4 * 4 + n1) in
  if (n1 =? 4) || (n100 =? 4) then (year - 1, 12, 31)
  else
    let leapyear := (n1 =? 3) && (negb (n4 =? 24) || (n100 =? 3)) in
    let month := Z.shiftr (n + 50) 5 in
    let preceding :=
      table _DAYS_BEFORE_MONTH month
      + (if (month >? 2) && leapyear then 1 else 0) in
    if preceding >? n then
      let month := month - 1 in
      let preceding :=
        preceding
        - (table _DAYS_IN_MONTH month
           + (if (month =? 2) && leapyear then 1 else 0)) in
      (year, month, n - preceding + 1)
    else (year, month, n - preceding + 1).

Definition _ord2ymd (n : Z) : Z * Z * Z :=
  let n := n - 1 in
  let n400 := n / _DI400Y in
  let n := n mod _DI400Y in
  _ord2ymd_in_cycle (n400 * 400 + 1) n.

(** [datetime.datetime], without the time zone. *)
Record datetime := mk_datetime {
  year : Z;
  month : Z;
  day : Z;
  hour : Z;
  minute : Z;
  second : Z;
  microsecond : Z
}.

(** [datetime.timedelta], as its total number of microseconds. *)
Definition timedelta := Z.

Definition US_PER_SECOND : Z := 1000000.
Definition US_PER_DAY : Z := 86400 * US_PER_SECOND.

Definition timedelta_days (d : Z) : timedelta := d * US_PER_DAY.
Definition timedelta_weeks (w : Z) : timedelta := timedelta_days (7 * w).
Definition timedelta_minutes (m : Z) : timedelta := m * 60 * US_PER_SECOND.

(** [td.days]: Python normalises a timedelta so that the seconds and the
    microseconds are non-negative, hence the floor. *)
Definition td_days (td : timedelta) : Z := td / US_PER_DAY.

Definition toordinal (d : datetime) : Z :=
  _ymd2ord (year d) (month d) (day d).

Definition seconds_of_day (d : datetime) : Z :=
  second d + minute d * 60 + hour d * 3600.

(** The timedelta [datetime.__add__] builds from the receiver. *)
Definition as_timedelta (d : datetime) : timedelta :=
  toordinal d * US_PER_DAY + seconds_of_day d * US_PER_SECOND + microsecond d.

Definition replace_day (d : datetime) (new_day : Z) : datetime :=
  mk_datetime (year d) (month d) new_day
              (hour d) (minute d) (second d) (microsecond d).

(** [d + td]; [None] is [OverflowError]. *)
Definition dt_add (d : datetime) (td : timedelta) : option datetime :=
  let delta := as_timedelta d + td in
  let days := delta / US_PER_DAY in
  let rest := delta mod US_PER_DAY in
  let seconds := rest / US_PER_SECOND in
  let us := rest mod US_PER_SECOND in
  let hour := seconds / 3600 in
  let rem := seconds mod 3600 in
  let minute := rem / 60 in
  let second := rem mod 60 in
  if (0 <? days) && (days <=? _MAXORDINAL) then
    let '(y, m, dd) := _ord2ymd days in
    Some (mk_datetime y m dd hour minute second us)
  else None.

Definition dt_sub (d : datetime) (td : timedelta) : option datetime :=
  dt_add d (- td).

(** [d1 - d2] for two datetimes. *)
Definition dt_diff (d1 d2 : datetime) : timedelta :=
  (toordinal d1 - toordinal d2) * US_PER_DAY
  + (seconds_of_day d1 - seconds_of_day d2) * US_PER_SECOND
  + (microsecond d1 - microsecond d2).

(** Comparison is the comparison of the attribute tuples. *)
Definition dt_fields (d : datetime) : list Z :=
  [year d; month d; day d; hour d; minute d; second d; microsecond d].

Fixpoint cmp_fields (a b : list Z) : comparison :=
  match a, b with
  | x :: a', y :: b' =>
      match x ?= y with
      | Eq => cmp_fields a' b'
      | c => c
      end
  | [], [] => Eq
  | [], _ :: _ => Lt
  | _ :: _, [] => Gt
  end.

Definition dt_cmp (a b : datetime) : comparison :=
  cmp_fields (dt_fields a) (dt_fields b).

Definition dt_ltb (a b : datetime) : bool :=
  match dt_cmp a b with Lt => true | _ => false end.
Definition dt_leb (a b : datetime) : bool :=
  match dt_cmp a b with Gt => false | _ => true end.
Definition dt_geb (a b : datetime) : bool := dt_leb b a.

(** *** Notions the statements about the calendar use *)

Definition shift_year (c : Z) (ymd : Z * Z * Z) : Z * Z * Z :=
  let '(y, m, d) := ymd in (y + c, m, d).

Definition first_of_next_month (y m : Z) : Z * Z * Z :=
  if m =? 12 then (y + 1, 1, 1) else (y, m + 1, 1).

(** What the two steps of the monthly branch do to the date, as a check
    that can be run on one year and one month. *)
Definition monthly_steps_ok (y m : Z) : bool :=
  let '(y', m', d') := _ord2ymd (_ymd2ord y m 28 + 4) in
  let '(y2, m2, d2) := _ord2ymd (_ymd2ord y' m' d' - (d' - 1)) in
  let '(ye, me, de) := first_of_next_month y m in
  (y' =? ye) && (m' =? me) && (1 <=? d') && (d' <=? 4)
  && (y2 =? ye) && (m2 =? me) && (d2 =? de).

Definition valid_time (d : datetime) : Prop :=
  0 <= hour d < 24 /\ 0 <= minute d < 60 /\ 0 <= second d < 60
  /\ 0 <= microsecond d < 1000000.

Definition with_date (ymd : Z * Z * Z) (d : datetime) : datetime :=
  let '(y, m, dd) := ymd in
  mk_datetime y m dd (hour d) (minute d) (second d) (microsecond d).

End Calendar.

Import Calendar.


(** ** Python numbers *)

Module PyNum.

(** [float(n)] for an [int]; exact for [|n| < 2^53], which covers Django's
    32-bit [IntegerField] and every row count. *)
Definition float_of_Z (n : Z) : float :=
  if (n <? 0)%Z then PrimFloat.opp (PrimFloat.of_uint63 (Uint63.of_Z (- n)))
  else PrimFloat.of_uint63 (Uint63.of_Z n).

(** [a / b] on two [int]s (true division); [None] is [ZeroDivisionError]. *)
Definition int_truediv (a b : Z) : option float :=
  if (b =? 0)%Z then None
  else Some (PrimFloat.div (float_of_Z a) (float_of_Z b)).

(** [x / n] for a [float] and an [int]. *)
Definition float_div_int (x : float) (n : Z) : option float :=
  if (n =? 0)%Z then None else Some (PrimFloat.div x (float_of_Z n)).

(** [x > n] for a [float] and an [int] literal. *)
Definition float_gt_int (x : float) (n : Z) : bool :=
  PrimFloat.ltb (float_of_Z n) x.

(** The builtin [min(a, b)]: the first of the smallest. *)
Definition py_min (a b : float) : float :=
  if PrimFloat.ltb b a then b else a.

(** The builtin [sum] over floats, added left to right from [0]. (CPython
    3.12 and later compensate the rounding error of the additions; no
    statement below depends on how the sum is rounded.) *)
Definition py_sum (xs : list float) : float :=
  fold_left PrimFloat.add xs (float_of_Z 0).

End PyNum.

Import PyNum.

(** ** Rows of the tables *)

(** [analytics.models.RetentionCohort]. *)
Record RetentionCohort := mk_RetentionCohort {
  total_users : Z;
  retained_users : Z;
  retention_rate : float
}.

(** [analytics.models.AutomatedReport]. *)
Record AutomatedReport := mk_AutomatedReport {
  report_id : Z;
  report_type : string;
  frequency : string;
  last_run : option datetime;
  next_run : datetime;
  is_active : bool
}.

(** [analytics.models.ReportExecution], as far as the tasks read it. *)
Record ReportExecution := mk_ReportExecution {
  execution_id : Z;
  execution_report : Z;
  execution_status : string
}.

(** Modelled from the spec: the class [AnomalyDetection] is imported by
    [tasks.py] but its declaration is not in the source; the spec gives it
    [detected_at], a [status] and a payload. *)
Record AnomalyDetection := mk_AnomalyDetection {
  anomaly_id : Z;
  detected_at : datetime;
  status : string;
  payload : string
}.

(** Modelled from the spec: the class [WebhookLog] is not in the source;
    the spec gives a delivery log an anomaly, an outcome and the time it
    was sent. *)
Record WebhookLog := mk_WebhookLog {
  log_id : Z;
  log_anomaly : Z;
  outcome : string;
  sent_at : datetime
}.

(** Modelled from the spec: the class [NFTTransaction] is not in the
    source; these are the attributes [tasks.py] reads. [price] is a
    nullable [DecimalField]; a value is represented by the float that
    [float(tx.price)] gives. *)
Record NFTTransaction := mk_NFTTransaction {
  tx_hash : string;
  buyer_address : string;
  seller_address : string;
  price : option float;
  timestamp : datetime;
  nft_contract : string
}.

(** Modelled from the spec: the class [UserBehaviorProfile] is not in the
    source; these are the fields of the spec's BehaviorProfile, which are
    the attributes [tasks.py] writes. *)
Record UserBehaviorProfile := mk_UserBehaviorProfile {
  wallet_address : string;
  avg_transaction_value : float;
  transaction_frequency : float;
  total_transactions : Z;
  total_volume : float;
  preferred_collections : list string;
  risk_score : float;
  first_seen : datetime;
  last_activity : datetime
}.

(** ** The world a task runs in *)

Record Db := mk_Db {
  anomalies : list AnomalyDetection;
  webhook_logs : list WebhookLog;
  transactions : list NFTTransaction;
  profiles : gmap string UserBehaviorProfile;
  reports : list AutomatedReport
}.

Inductive exn :=
  | OverflowError
  | ZeroDivisionError
  | NameError (name : string)
  | ExternalError (msg : string).

Inductive log_arg := arg_int (n : Z) | arg_str (s : string) | arg_exn (e : exn).

(** A record of the module logger: the level, the fixed text of the
    message and the values interpolated into it. *)
Inductive log_record :=
  | log_info (text : string) (args : list log_arg)
  | log_error (text : string) (args : list log_arg).

(** Calls made to the collaborators that are not part of the source. *)
Inductive call :=
  | call_send_anomaly_alert (a : AnomalyDetection)
  | call_generate_report (r : AutomatedReport).

Record World := mk_World {
  db : Db;
  ticks : nat;
  logged : list log_record;
  calls : list call
}.

Inductive result (A : Type) :=
  | Ok (a : A)
  | Raise (e : exn).
Arguments Ok {A} a.
Arguments Raise {A} e.

(** State and exceptions: an exception keeps the state reached. *)
Definition M (A : Type) : Type := World -> result A * World.

Definition ret {A} (a : A) : M A := fun w => (Ok a, w).
Definition raise {A} (e : exn) : M A := fun w => (Raise e, w).
Definition bind {A B} (m : M A) (k : A -> M B) : M B :=
  fun w => match m w with
           | (Ok a, w') => k a w'
           | (Raise e, w') => (Raise e, w')
           end.
(** [try: m except Exception as e: h e]. *)
Definition try_except {A} (m : M A) (h : exn -> M A) : M A :=
  fun w => match m w with
           | (Ok a, w') => (Ok a, w')
           | (Raise e, w') => h e w'
           end.

Declare Scope task_scope.
Delimit Scope task_scope with task.
Notation "x <- m ;; k" := (bind m (fun x => k))
  (at level 100, m at next level, right associativity) : task_scope.
Notation "m ;;; k" := (bind m (fun _ => k))
  (at level 100, right associativity) : task_scope.
Local Open Scope task_scope.

Definition of_option {A} (e : exn) (o : option A) : M A :=
  match o with Some a => ret a | None => raise e end.

Definition of_result {A} (r : result A) : M A := fun w => (r, w).

Definition get_db : M Db := fun w => (Ok (db w), w).
Definition put_db (d : Db) : M unit :=
  fun w => (Ok tt, mk_World d (ticks w) (logged w) (calls w)).
Definition logger (r : log_record) : M unit :=
  fun w => (Ok tt, mk_World (db w) (ticks w) (logged w ++ [r]) (calls w)).
Definition record_call (c : call) : M unit :=
  fun w => (Ok tt, mk_World (db w) (ticks w) (logged w) (calls w ++ [c])).

(** [for x in xs: body], threading the local variables [acc]. *)
Fixpoint for_each {A S} (xs : list A) (acc : S) (body : S -> A -> M S) : M S :=
  match xs with
  | [] => ret acc
  | x :: xs' => acc' <- body acc x ;; for_each xs' acc' body
  end.

(** ** [analytics/models.py] *)

Definition set_retention_rate (c : RetentionCohort) (r : float) : RetentionCohort :=
  mk_RetentionCohort (total_users c) (retained_users c) r.

(** [RetentionCohort.calculate_retention_rate]: the cohort after the call
    and the value returned. *)
Definition calculate_retention_rate (self : RetentionCohort)
  : result (RetentionCohort * float) :=
  if (total_users self >? 0)%Z then
    match int_truediv (retained_users self) (total_users self) with
    | Some q =>
        let r := PrimFloat.mul q (float_of_Z 100) in
        Ok (set_retention_rate self r, r)
    | None => Raise ZeroDivisionError
    end
  else Ok (set_retention_rate self 0%float, 0%float).

Definition set_next_run (r : AutomatedReport) (t : datetime) : AutomatedReport :=
  mk_AutomatedReport (report_id r) (report_type r) (frequency r)
                     (last_run r) t (is_active r).

Definition set_last_run (r : AutomatedReport) (t : datetime) : AutomatedReport :=
  mk_AutomatedReport (report_id r) (report_type r) (frequency r)
                     (Some t) (next_run r) (is_active r).

(** The arithmetic of the ['monthly'] branch of [calculate_next_run]. *)
Definition monthly_next_run (last : datetime) : option datetime :=
  match dt_add (replace_day last 28) (timedelta_days 4) with
  | Some next_month =>
      dt_sub next_month (timedelta_days (day next_month - 1))
  | None => None
  end.

Section Tasks.

(** [timezone.now()]: the [n]-th reading of the clock. *)
Variable clock : nat -> datetime.

(** [WebhookService.send_anomaly_alert] and
    [ReportGenerator.generate_report] are collaborators outside the
    source; they may read and write the tables, and they may raise. *)
Variable send_anomaly_alert : AnomalyDetection -> Db -> result unit * Db.
Variable generate_report : AutomatedReport -> Db -> result ReportExecution * Db.

Definition timezone_now : M datetime :=
  fun w => (Ok (clock (ticks w)),
            mk_World (db w) (S (ticks w)) (logged w) (calls w)).

Definition external {A} (f : Db -> result A * Db) : M A :=
  fun w => let '(r, d) := f (db w) in
           (r, mk_World d (ticks w) (logged w) (calls w)).

(** [AutomatedReport.calculate_next_run]. *)
Definition calculate_next_run (self : AutomatedReport) : M AutomatedReport :=
  match last_run self with
  | None =>
      now <- timezone_now ;;
      ret (set_next_run self now)
  | Some last =>
      if String.eqb (frequency self) "daily" then
        t <- of_option OverflowError (dt_add last (timedelta_days 1)) ;;
        ret (set_next_run self t)
      else if String.eqb (frequency self) "weekly" then
        t <- of_option OverflowError (dt_add last (timedelta_weeks 1)) ;;
        ret (set_next_run self t)
      else if String.eqb (frequency self) "monthly" then
        t <- of_option OverflowError (monthly_next_run last) ;;
        ret (set_next_run self t)
      else ret self
  end.

(** ** [analytics/tasks.py] *)

(** The names the module [tasks.py] binds: what its import statements
    (lines 1-16) bring in, [logger] (line 18) and the tasks it defines.
    The names [models] and [os], which two of the tasks use, are not among
    them, and they are no builtins either. *)
Definition tasks_globals : list string :=
  ["shared_task"; "timezone"; "timedelta"; "AnomalyDetectionEngine";
   "AnomalyDetection"; "AlertWebhook"; "WebhookLog"; "UserBehaviorProfile";
   "NFTTransaction"; "WebhookService"; "logging"; "connection"; "Redis";
   "ReportGenerator"; "DistributionService"; "AutomatedReport";
   "ReportExecution"; "NFTMetadata"; "IPFSClient"; "check_authenticity";
   "detect_copyright_issues"; "check_standardization";
   "determine_content_type"; "logger";
   "analyze_nft_metadata"; "run_anomaly_detection_task";
   "trigger_webhooks_task"; "update_user_behavior_profiles_task";
   "cleanup_old_data_task"; "generate_scheduled_reports_task";
   "generate_single_report_task"; "cleanup_temp_files";
   "generate_adhoc_report"; "aggregate_mints"; "aggregate_sales";
   "aggregate_user_activity"].

Definition global_bound (name : string) : bool :=
  existsb (String.eqb name) tasks_globals.

(** Evaluating a global name in a task: [NameError] when the module does
    not bind it. *)
Definition load_global (name : string) : M unit :=
  if global_bound name then ret tt else raise (NameError name).

(** The dictionary a task returns. *)
Inductive task_result :=
  | task_success (counts : list (string * Z))
  | task_error (message : exn).

Definition len {A} (l : list A) : Z := Z.of_nat (length l).

(** *** [trigger_webhooks_task] *)

Definition is_recent_pending (cutoff : datetime) (a : AnomalyDetection) : bool :=
  dt_geb (detected_at a) cutoff && String.eqb (status a) "pending".

(** The queryset [recent_anomalies], as the [for] statement fetches it. *)
Definition select_recent_anomalies : M (list AnomalyDetection) :=
  now <- timezone_now ;;
  cutoff <- of_option OverflowError (dt_sub now (timedelta_minutes 5)) ;;
  d <- get_db ;;
  ret (List.filter (is_recent_pending cutoff) (anomalies d)).

(** The body of [for anomaly in recent_anomalies]. *)
Definition alert_anomaly (_ : unit) (anomaly : AnomalyDetection) : M unit :=
  record_call (call_send_anomaly_alert anomaly) ;;;
  external (send_anomaly_alert anomaly).

Definition dispatch_anomalies (recent_anomalies : list AnomalyDetection) : M unit :=
  for_each recent_anomalies tt alert_anomaly ;;;
  logger (log_info "Webhook processing completed for {} anomalies."
                   [arg_int (len recent_anomalies)]).

Definition webhook_task_failed (e : exn) : M unit :=
  logger (log_error "Webhook task failed: {}" [arg_exn e]).

Definition trigger_webhooks_task : M unit :=
  try_except
    (recent_anomalies <- select_recent_anomalies ;;
     dispatch_anomalies recent_anomalies)
    webhook_task_failed.

(** Two runs of [trigger_webhooks_task] as two workers execute them at
    the same time: a run first fetches its queryset and later sends; the
    schedule below lets both runs fetch before either sends. Each run keeps
    its own [try]. *)
Definition webhook_run_observe : M (option (list AnomalyDetection)) :=
  try_except
    (recent_anomalies <- select_recent_anomalies ;; ret (Some recent_anomalies))
    (fun e => webhook_task_failed e ;;; ret None).

Definition webhook_run_deliver (observed : option (list AnomalyDetection)) : M unit :=
  match observed with
  | Some recent_anomalies =>
      try_except (dispatch_anomalies recent_anomalies) webhook_task_failed
  | None => ret tt
  end.

Definition two_concurrent_webhook_runs : M unit :=
  observed1 <- webhook_run_observe ;;
  observed2 <- webhook_run_observe ;;
  webhook_run_deliver observed1 ;;;
  webhook_run_deliver observed2.

(** *** [cleanup_old_data_task] *)

Definition set_anomalies (d : Db) (l : list AnomalyDetection) : Db :=
  mk_Db l (webhook_logs d) (transactions d) (profiles d) (reports d).
Definition set_webhook_logs (d : Db) (l : list WebhookLog) : Db :=
  mk_Db (anomalies d) l (transactions d) (profiles d) (reports d).
Definition set_profiles (d : Db) (p : gmap string UserBehaviorProfile) : Db :=
  mk_Db (anomalies d) (webhook_logs d) (transactions d) p (reports d).
Definition set_reports (d : Db) (l : list AutomatedReport) : Db :=
  mk_Db (anomalies d) (webhook_logs d) (transactions d) (profiles d) l.

Definition is_old_anomaly (cutoff : datetime) (a : AnomalyDetection) : bool :=
  dt_ltb (detected_at a) cutoff.
Definition is_old_log (cutoff : datetime) (l : WebhookLog) : bool :=
  dt_ltb (sent_at l) cutoff.

Definition cleanup_old_data_task : M task_result :=
  try_except
    (now <- timezone_now ;;
     cutoff_date <- of_option OverflowError (dt_sub now (timedelta_days 90)) ;;
     d <- get_db ;;
     let deleted_anomalies := len (List.filter (is_old_anomaly cutoff_date) (anomalies d)) in
     put_db (set_anomalies d
               (List.filter (fun a => negb (is_old_anomaly cutoff_date a)) (anomalies d))) ;;;
     now <- timezone_now ;;
     log_cutoff <- of_option OverflowError (dt_sub now (timedelta_days 30)) ;;
     d <- get_db ;;
     let deleted_logs := len (List.filter (is_old_log log_cutoff) (webhook_logs d)) in
     put_db (set_webhook_logs d
               (List.filter (fun l => negb (is_old_log log_cutoff l)) (webhook_logs d))) ;;;
     logger (log_info "Cleanup completed. Deleted {} anomalies and {} webhook logs."
                      [arg_int deleted_anomalies; arg_int deleted_logs]) ;;;
     ret (task_success [("deleted_anomalies", deleted_anomalies);
                        ("deleted_logs", deleted_logs)]))
    (fun e =>
       logger (log_error "Cleanup task failed: {}" [arg_exn e]) ;;;
       ret (task_error e)).

(** *** [update_user_behavior_profiles_task] *)

(** [float(tx.price or 0)]: a missing or zero price counts as [0]. *)
Definition price_or_0 (tx : NFTTransaction) : float :=
  match price tx with
  | Some p => if PrimFloat.eqb p 0 then float_of_Z 0 else p
  | None => float_of_Z 0
  end.

Definition truthy (s : string) : bool := negb (String.eqb s "").

(** The loop that fills the set [recent_addresses]. *)
Definition collect_addresses (recent_txs : list NFTTransaction) : gset string :=
  fold_left
    (fun (s : gset string) tx =>
       let s := if truthy (buyer_address tx) then s ∪ {[buyer_address tx]} else s in
       if truthy (seller_address tx) then s ∪ {[seller_address tx]} else s)
    recent_txs ∅.

(** [Q(buyer_address=address) | Q(seller_address=address)]. *)
Definition involves (address : string) (tx : NFTTransaction) : bool :=
  String.eqb (buyer_address tx) address || String.eqb (seller_address tx) address.

(** [order_by('timestamp')]: a stable sort by ascending timestamp. *)
Fixpoint insert_by_timestamp (tx : NFTTransaction) (l : list NFTTransaction)
  : list NFTTransaction :=
  match l with
  | [] => [tx]
  | y :: l' =>
      if dt_ltb (timestamp y) (timestamp tx) then y :: insert_by_timestamp tx l'
      else tx :: l
  end.
Definition order_by_timestamp (l : list NFTTransaction) : list NFTTransaction :=
  fold_right insert_by_timestamp [] l.

(** The dictionary [collections], in insertion order. *)
Fixpoint count_collection (c : string) (d : list (string * Z)) : list (string * Z) :=
  match d with
  | [] => [(c, 1%Z)]
  | (k, n) :: d' =>
      if String.eqb k c then (k, (n + 1)%Z) :: d' else (k, n) :: count_collection c d'
  end.
Definition count_collections (user_txs : list NFTTransaction) : list (string * Z) :=
  fold_left (fun d tx => count_collection (nft_contract tx) d) user_txs [].

(** [sorted(items, key=lambda x: x[1], reverse=True)]: stable, descending. *)
Fixpoint insert_by_count (x : string * Z) (l : list (string * Z)) : list (string * Z) :=
  match l with
  | [] => [x]
  | y :: l' =>
      if (snd x <? snd y)%Z then y :: insert_by_count x l' else x :: l
  end.
Definition sorted_by_count_desc (l : list (string * Z)) : list (string * Z) :=
  fold_right insert_by_count [] l.

(** Lines 171-184: the additive risk contributions, before the clamp. *)
Definition risk_contributions (frequency total_volume : float)
    (n_preferred total_count : Z) : float :=
  let risk_score := 0%float in
  let risk_score :=
    if float_gt_int frequency 10 then PrimFloat.add risk_score 0.3%float
    else risk_score in
  let risk_score :=
    if float_gt_int total_volume 100 then PrimFloat.add risk_score 0.2%float
    else risk_score in
  let risk_score :=
    if (n_preferred <=? 2)%Z && (total_count >? 10)%Z
    then PrimFloat.add risk_score 0.3%float
    else risk_score in
  risk_score.

(** The values lines 141-193 compute from the transactions of one address. *)
Record metrics := mk_metrics {
  m_avg_value : float;
  m_frequency : float;
  m_total_count : Z;
  m_total_volume : float;
  m_preferred : list string;
  m_risk_score : float;
  m_last_tx : option NFTTransaction
}.

Definition compute_metrics (user_txs : list NFTTransaction) : result metrics :=
  let total_volume := py_sum (map price_or_0 user_txs) in
  let total_count := len user_txs in
  match (if (total_count >? 0)%Z then float_div_int total_volume total_count
         else Some (float_of_Z 0)) with
  | None => Raise ZeroDivisionError
  | Some avg_value =>
      let first_tx := head (order_by_timestamp user_txs) in
      let last_tx := last (order_by_timestamp user_txs) in
      match (match first_tx, last_tx with
             | Some f, Some l =>
                 let days_active := (td_days (dt_diff (timestamp l) (timestamp f)) + 1)%Z in
                 if (days_active >? 0)%Z then int_truediv total_count days_active
                 else Some (float_of_Z 0)
             | _, _ => Some (float_of_Z 0)
             end) with
      | None => Raise ZeroDivisionError
      | Some frequency =>
          let collections := count_collections user_txs in
          let preferred_collections := firstn 5 (sorted_by_count_desc collections) in
          let risk_score :=
            risk_contributions frequency total_volume
                               (len preferred_collections) total_count in
          Ok (mk_metrics avg_value frequency total_count total_volume
                         (map fst preferred_collections)
                         (py_min risk_score 1%float) last_tx)
      end
  end.

(** [UserBehaviorProfile.objects.get_or_create(wallet_address=address,
    defaults={'first_seen': ..., 'last_activity': ...})]. The defaults of
    the other columns are not in the source; a new row starts from zeros. *)
Definition get_or_create (address : string) (first_seen0 last_activity0 : datetime)
  : M UserBehaviorProfile :=
  d <- get_db ;;
  match profiles d !! address with
  | Some profile => ret profile
  | None =>
      let profile :=
        mk_UserBehaviorProfile address 0%float 0%float 0%Z 0%float []
                               0%float first_seen0 last_activity0 in
      put_db (set_profiles d (<[address := profile]> (profiles d))) ;;;
      ret profile
  end.

(** [profile.save()]. *)
Definition save_profile (profile : UserBehaviorProfile) : M unit :=
  d <- get_db ;;
  put_db (set_profiles d (<[wallet_address profile := profile]> (profiles d))).

(** Lines 187-193: the assignments to the attributes of [profile]. *)
Definition assign_metrics (profile : UserBehaviorProfile) (m : metrics)
    (last_activity' : datetime) : UserBehaviorProfile :=
  mk_UserBehaviorProfile (wallet_address profile)
    (m_avg_value m) (m_frequency m) (m_total_count m) (m_total_volume m)
    (m_preferred m) (m_risk_score m) (first_seen profile) last_activity'.

(** The body of [for address in recent_addresses]. The argument of the
    filter of lines 136-138 is [models.Q(...) | models.Q(...)]: evaluating
    it loads the global [models] first, after [get_or_create] has run. *)
Definition update_profile (updated_profiles : Z) (address : string) : M Z :=
  first_seen0 <- timezone_now ;;
  last_activity0 <- timezone_now ;;
  profile <- get_or_create address first_seen0 last_activity0 ;;
  load_global "models" ;;;
  d <- get_db ;;
  let user_txs := List.filter (involves address) (transactions d) in
  match user_txs with
  | [] => ret updated_profiles
  | _ :: _ =>
      m <- of_result (compute_metrics user_txs) ;;
      last_activity' <- match m_last_tx m with
                        | Some last_tx => ret (timestamp last_tx)
                        | None => timezone_now
                        end ;;
      save_profile (assign_metrics profile m last_activity') ;;;
      ret (updated_profiles + 1)%Z
  end.

Definition update_user_behavior_profiles_task : M task_result :=
  try_except
    (end_time <- timezone_now ;;
     start_time <- of_option OverflowError (dt_sub end_time (timedelta_days 7)) ;;
     d <- get_db ;;
     let recent_txs :=
       List.filter (fun tx => dt_geb (timestamp tx) start_time) (transactions d) in
     let recent_addresses := collect_addresses recent_txs in
     updated_profiles <- for_each (elements recent_addresses) 0%Z update_profile ;;
     logger (log_info "Updated {} user behavior profiles." [arg_int updated_profiles]) ;;;
     ret (task_success [("profiles_updated", updated_profiles)]))
    (fun e =>
       logger (log_error "User behavior profile update task failed: {}" [arg_exn e]) ;;;
       ret (task_error e)).

(** *** [generate_scheduled_reports_task] *)

Definition is_due (now : datetime) (r : AutomatedReport) : bool :=
  is_active r && dt_leb (next_run r) now.

(** [report.save()]: the row with the report's primary key is rewritten,
    or the row is inserted when the key is no longer in the table. *)
Definition save_report (r : AutomatedReport) : M unit :=
  d <- get_db ;;
  put_db (set_reports d
            (if existsb (fun r0 => (report_id r0 =? report_id r)%Z) (reports d)
             then map (fun r0 => if (report_id r0 =? report_id r)%Z then r else r0)
                      (reports d)
             else reports d ++ [r])).

(** The body of [for report in due_reports], with its own [try]. *)
Definition generate_due_report (now : datetime) (generated_count : Z)
    (report : AutomatedReport) : M Z :=
  try_except
    (record_call (call_generate_report report) ;;;
     execution <- external (generate_report report) ;;
     report <- calculate_next_run (set_last_run report now) ;;
     save_report report ;;;
     logger (log_info "Generated report {}: {}"
                      [arg_int (report_id report);
                       arg_str (execution_status execution)]) ;;;
     ret (generated_count + 1)%Z)
    (fun e =>
       logger (log_error "Failed to generate report {}: {}"
                         [arg_int (report_id report); arg_exn e]) ;;;
       ret generated_count).

Definition generate_scheduled_reports_task : M task_result :=
  try_except
    (now <- timezone_now ;;
     d <- get_db ;;
     let due_reports := List.filter (is_due now) (reports d) in
     generated_count <- for_each due_reports 0%Z (generate_due_report now) ;;
     logger (log_info "Scheduled report generation completed. Generated {} reports."
                      [arg_int generated_count]) ;;;
     ret (task_success [("reports_generated", generated_count)]))
    (fun e =>
       logger (log_error "Scheduled report generation task failed: {}" [arg_exn e]) ;;;
       ret (task_error e)).

End Tasks.

(** ** Definitions used by the statements *)

(** Concrete inputs of the examples. *)

Definition epoch : datetime := mk_datetime 2025 6 15 12 0 0 0.
Definition frozen_clock (t : datetime) : nat -> datetime := fun _ => t.
Definition empty_db : Db := mk_Db [] [] [] ∅ [].
Definition empty_world : World := mk_World empty_db 0 [] [].
Definition world_of (d : Db) : World := mk_World d 0 [] [].

Definition jan31 : datetime := mk_datetime 2025 1 31 9 30 0 0.
Definition monthly_report : AutomatedReport :=
  mk_AutomatedReport 7 "sales" "monthly" (Some jan31) jan31 true.
Definition fresh_report : AutomatedReport :=
  mk_AutomatedReport 8 "sales" "weekly" None jan31 true.

(** The risk score in the words of the specification: the sum of the
    contributions that apply, clamped to 1.0. *)
Definition spec_risk_score (frequency total_volume : float)
    (n_preferred total_count : Z) : float :=
  let high_frequency :=
    if float_gt_int frequency 10 then 0.3%float else 0%float in
  let large_volume :=
    if float_gt_int total_volume 100 then 0.2%float else 0%float in
  let few_collections :=
    if (n_preferred <=? 2)%Z && (total_count >? 10)%Z then 0.3%float else 0%float in
  py_min (PrimFloat.add (PrimFloat.add high_frequency large_volume) few_collections)
         1%float.

Definition tick (w : World) : World :=
  mk_World (db w) (S (ticks w)) (logged w) (calls w).

(** Two pending anomalies detected within the last five minutes of
    [epoch], one pending anomaly of the day before and one processed
    anomaly. *)
Definition anomaly1 : AnomalyDetection :=
  mk_AnomalyDetection 1 (mk_datetime 2025 6 15 11 58 0 0) "pending" "volume spike".
Definition anomaly2 : AnomalyDetection :=
  mk_AnomalyDetection 2 (mk_datetime 2025 6 15 11 59 30 0) "pending" "wash trading".
Definition stale_anomaly : AnomalyDetection :=
  mk_AnomalyDetection 3 (mk_datetime 2025 6 14 8 0 0 0) "pending" "price drop".
Definition processed_anomaly : AnomalyDetection :=
  mk_AnomalyDetection 4 (mk_datetime 2025 6 15 11 59 0 0) "processed" "bot".
Definition anomaly_db : Db :=
  mk_Db [anomaly1; stale_anomaly; processed_anomaly; anomaly2] [] [] ∅ [].

(** A webhook service that delivers and returns, and one whose delivery
    of anomaly 1 raises. *)
Definition delivering_service (a : AnomalyDetection) (d : Db) : result unit * Db :=
  (Ok tt, d).
Definition failing_service (a : AnomalyDetection) (d : Db) : result unit * Db :=
  if (anomaly_id a =? 1)%Z then (Raise (ExternalError "connection refused"), d)
  else (Ok tt, d).

(** A webhook service that writes a row to the delivery log each time it
    is called, before it delivers, and whose delivery of anomaly 1
    raises. *)
Definition recording_service (a : AnomalyDetection) (d : Db) : result unit * Db :=
  let d' :=
    set_webhook_logs d
      (webhook_logs d
       ++ [mk_WebhookLog (len (webhook_logs d) + 1) (anomaly_id a) "sending" epoch]) in
  if (anomaly_id a =? 1)%Z then (Raise (ExternalError "connection refused"), d')
  else (Ok tt, d').

(** Two due reports, and a generator that fails on report 1. *)
Definition report1 : AutomatedReport :=
  mk_AutomatedReport 1 "sales" "daily" (Some jan31) jan31 true.
Definition report2 : AutomatedReport :=
  mk_AutomatedReport 2 "minting" "weekly" (Some jan31) jan31 true.
Definition report_db : Db := mk_Db [] [] [] ∅ [report1; report2].
Definition failing_generator (r : AutomatedReport) (d : Db)
  : result ReportExecution * Db :=
  if (report_id r =? 1)%Z then (Raise (ExternalError "render failed"), d)
  else (Ok (mk_ReportExecution 100 (report_id r) "completed"), d).
Definition working_generator (r : AutomatedReport) (d : Db)
  : result ReportExecution * Db :=
  (Ok (mk_ReportExecution 100 (report_id r) "completed"), d).

(** How many times [send_anomaly_alert] was called on the anomaly [id]. *)
Definition deliveries (id : Z) (cs : list call) : nat :=
  length (List.filter (fun c => match c with
                                | call_send_anomaly_alert a => (anomaly_id a =? id)%Z
                                | call_generate_report _ => false
                                end) cs).

(** The table of profiles is keyed by its unique column [wallet_address]. *)
Definition profiles_keyed (d : Db) : Prop :=
  forall (k : string) (p : UserBehaviorProfile),
    profiles d !! k = Some p -> wallet_address p = k.

(** The set [recent_addresses] when the clock of the task reads [now], in
    the order the loop goes through it. *)
Definition processed_addresses (now : datetime) (d : Db) : list string :=
  match dt_sub now (timedelta_days 7) with
  | Some start_time =>
      elements (collect_addresses
                  (List.filter (fun tx => dt_geb (timestamp tx) start_time)
                               (transactions d)))
  | None => []
  end.

(** The transactions of one address. *)
Definition transactions_of (address : string) (d : Db) : list NFTTransaction :=
  List.filter (involves address) (transactions d).

(** A wallet that bought twelve tokens of two collections within one day,
    at 10 each, and its counterparty. *)
Definition trade (i : Z) (contract : string) : NFTTransaction :=
  mk_NFTTransaction "0xhash" "0xA1" "0xB2" (Some 10%float)
                    (mk_datetime 2025 6 14 10 i 0 0) contract.
Definition trade_db : Db :=
  mk_Db [] []
        (map (fun i => trade i "0xC0FFEE") [0; 1; 2; 3; 4; 5]%Z
         ++ map (fun i => trade i "0xBEEF") [6; 7; 8; 9; 10; 11]%Z)
        ∅ [].

(** The profile an address was left with by an earlier computation, when
    it had one transaction of 5. *)
Definition stale_profile (address : string) : UserBehaviorProfile :=
  mk_UserBehaviorProfile address 5 1 1 5 ["0xOLD"] 0
                         (mk_datetime 2025 1 1 0 0 0 0) (mk_datetime 2025 1 2 0 0 0 0).
Definition stale_profiles : gmap string UserBehaviorProfile :=
  <["0xA1" := stale_profile "0xA1"]> (<["0xB2" := stale_profile "0xB2"]> ∅).

(** The twelve trades, both wallets having a profile already. *)
Definition profiled_trade_db : Db :=
  mk_Db [] [] (transactions trade_db) stale_profiles [].


(** The row [get_or_create] inserts for an address without a profile. *)
Definition default_profile (address : string) (first_seen0 last_activity0 : datetime)
  : UserBehaviorProfile :=
  mk_UserBehaviorProfile address 0%float 0%float 0%Z 0%float [] 0%float
                         first_seen0 last_activity0.

(** Reports for the schedule: the same monthly report last run on the 15th
    and on the 31st of January, and its daily and weekly siblings. *)
Definition jan15 : datetime := mk_datetime 2025 1 15 9 30 0 0.
Definition report_last_run (freq : string) (last : datetime) : AutomatedReport :=
  mk_AutomatedReport 7 "sales" freq (Some last) last true.

(** Tables for the sweep: one anomaly and one log beyond their retention
    window, one of each within it. *)
Definition old_anomaly : AnomalyDetection :=
  mk_AnomalyDetection 5 (mk_datetime 2025 1 10 8 0 0 0) "pending" "old spike".
Definition old_log : WebhookLog :=
  mk_WebhookLog 1 5 "failed" (mk_datetime 2025 4 1 8 0 0 0).
Definition new_log : WebhookLog :=
  mk_WebhookLog 2 1 "success" (mk_datetime 2025 6 15 11 58 5 0).
Definition sweep_db : Db :=
  mk_Db [old_anomaly; anomaly1] [old_log; new_log] [] ∅ [].


(** ** More of the calendar: valid dates and the order of datetimes *)

Module CalendarOrder.
Local Open Scope Z_scope.

(** The dates [datetime.date] accepts (its [_check_date_fields]). *)
Definition valid_date (y m d : Z) : Prop :=
  1 <= y <= 9999 /\ 1 <= m <= 12 /\ 1 <= d <= _days_in_month y m.

Definition valid_datetime (t : datetime) : Prop :=
  valid_date (year t) (month t) (day t) /\ valid_time t.

(** One ordinal of the first 400-year cycle: the date it converts to is a
    valid date of the cycle and converts back to the ordinal. *)
Definition ordinal_round_trip_ok (n : Z) : bool :=
  let '(y, m, d) := _ord2ymd n in
  (1 <=? y) && (y <=? 400) && (1 <=? m) && (m <=? 12)
  && (1 <=? d) && (d <=? _days_in_month y m)
  && (_ymd2ord y m d =? n).

(** [f] holds on the [n] integers from [start] on. *)
Fixpoint all_from (f : Z -> bool) (n : nat) (start : Z) : bool :=
  match n with
  | O => true
  | S n' => f start && all_from f n' (start + 1)
  end.

(** Microseconds since midnight. *)
Definition time_of_day (t : datetime) : Z :=
  seconds_of_day t * US_PER_SECOND + microsecond t.

End CalendarOrder.

Import CalendarOrder.

(** Concrete reports of the further examples. *)
Definition odd_report : AutomatedReport :=
  mk_AutomatedReport 9 "sales" "quarterly" (Some jan31) jan31 true.
Definition odd_report_db : Db := mk_Db [] [] [] ∅ [odd_report].

From Stdlib Require Import Sorted Permutation.

(** How many of the keys are [k]. *)
Definition key_count (k : string) (keys : list string) : Z :=
  len (List.filter (fun k0 => String.eqb k0 k) keys).

(** The dictionary built from the keys seen so far: its keys are distinct
    and it maps exactly the keys seen to the number of times they were
    seen. *)
Definition counts_of (d : list (string * Z)) (seen : list string) : Prop :=
  List.NoDup (map fst d)
  /\ forall k n, In (k, n) d <-> (n = key_count k seen /\ (1 <= n)%Z).

(** ** User sessions and behaviour metrics ([analytics/models.py]) *)

(** [analytics.models.UserSession]. *)
Record UserSession := mk_UserSession {
  session_id : Z;
  session_user : Z;
  login_at : datetime;
  logout_at : option datetime;
  session_duration : option timedelta;
  session_is_active : bool
}.

(** [analytics.models.WalletConnection]. *)
Record WalletConnection := mk_WalletConnection {
  connection_user : Z;
  wallet_provider : string;
  connection_status : string;
  attempted_at : datetime
}.

(** [analytics.models.UserBehaviorMetrics]. *)
Record UserBehaviorMetrics := mk_UserBehaviorMetrics {
  metrics_user : Z;
  first_login : datetime;
  last_login : datetime;
  total_sessions : Z;
  total_session_time : timedelta;
  average_session_duration : timedelta;
  days_since_first_login : Z;
  is_returning_user : bool;
  preferred_wallet : string;
  successful_wallet_connections : Z;
  failed_wallet_connections : Z;
  last_updated : datetime
}.

Record ActivityDb := mk_ActivityDb {
  user_sessions : list UserSession;
  wallet_connections : list WalletConnection;
  behavior_metrics : list UserBehaviorMetrics
}.

(** [UserSession.calculate_duration]; [now] is what [timezone.now()]
    returns when the session has no [logout_at]. The session after the
    call and the value returned. *)
Definition calculate_duration (now : datetime) (self : UserSession)
  : UserSession * timedelta :=
  let duration :=
    match logout_at self with
    | Some out => dt_diff out (login_at self)
    | None => dt_diff now (login_at self)
    end in
  (mk_UserSession (session_id self) (session_user self) (login_at self)
                  (logout_at self) (Some duration) (session_is_active self),
   duration).

(** [session.save()]: the row with the primary key is rewritten, or the
    row is inserted. *)
Definition save_session (s : UserSession) (d : ActivityDb) : ActivityDb :=
  mk_ActivityDb
    (if existsb (fun s0 => (session_id s0 =? session_id s)%Z) (user_sessions d)
     then map (fun s0 => if (session_id s0 =? session_id s)%Z then s else s0)
              (user_sessions d)
     else user_sessions d ++ [s])
    (wallet_connections d) (behavior_metrics d).

(** [UserSession.end_session]; [now] is the reading of the clock. *)
Definition end_session (now : datetime) (self : UserSession) (d : ActivityDb)
  : UserSession * ActivityDb :=
  let self := mk_UserSession (session_id self) (session_user self) (login_at self)
                             (Some now) (session_duration self) false in
  let self := fst (calculate_duration now self) in
  (self, save_session self d).

(** The range of [datetime.timedelta]: at most 999999999 days either way. *)
Definition timedelta_in_range (td : timedelta) : bool :=
  (-999999999 <=? td_days td)%Z && (td_days td <=? 999999999)%Z.

(** [a + b] on timedeltas; [None] is [OverflowError]. *)
Definition td_add (a b : timedelta) : option timedelta :=
  if timedelta_in_range (a + b)%Z then Some (a + b)%Z else None.

(** [sum(durations, timedelta(0))]. *)
Fixpoint td_sum_from (acc : timedelta) (l : list timedelta) : option timedelta :=
  match l with
  | [] => Some acc
  | x :: l' =>
      match td_add acc x with
      | Some acc' => td_sum_from acc' l'
      | None => None
      end
  end.

(** [_divide_and_round(a, b)] of [datetime.py]: the quotient rounded to
    the nearest integer, halves to the even one. *)
Definition _divide_and_round (a b : Z) : Z :=
  let q := (a / b)%Z in
  let r := (a mod b)%Z in
  let r := (r * 2)%Z in
  let greater_than_half := if (b >? 0)%Z then (r >? b)%Z else (r <? b)%Z in
  if greater_than_half || ((r =? b)%Z && (q mod 2 =? 1)%Z) then (q + 1)%Z else q.

(** [td / n] for an [int]; [None] is [ZeroDivisionError]. *)
Definition td_div_int (td : timedelta) (n : Z) : option timedelta :=
  if (n =? 0)%Z then None else Some (_divide_and_round td n).

(** [order_by("login_at")] and [order_by("-login_at")]: stable sorts. *)
Fixpoint insert_by_login (asc : bool) (s : UserSession) (l : list UserSession)
  : list UserSession :=
  match l with
  | [] => [s]
  | y :: l' =>
      if (if asc then dt_ltb (login_at y) (login_at s)
          else dt_ltb (login_at s) (login_at y))
      then y :: insert_by_login asc s l'
      else s :: l
  end.
Definition order_by_login (asc : bool) (l : list UserSession) : list UserSession :=
  fold_right (insert_by_login asc) [] l.

(** The default ordering [-attempted_at] of wallet connections. *)
Fixpoint insert_by_attempt (c : WalletConnection) (l : list WalletConnection)
  : list WalletConnection :=
  match l with
  | [] => [c]
  | y :: l' =>
      if dt_ltb (attempted_at c) (attempted_at y) then y :: insert_by_attempt c l'
      else c :: l
  end.
Definition order_by_attempt_desc (l : list WalletConnection) : list WalletConnection :=
  fold_right insert_by_attempt [] l.

(** [wallet_counts[provider] = wallet_counts.get(provider, 0) + 1] for
    every connection: the dictionary idiom of [collections] in [tasks.py],
    in insertion order. *)
Definition count_providers (cs : list WalletConnection) : list (string * Z) :=
  fold_left (fun d c => count_collection (wallet_provider c) d) cs [].

(** [max(d, key=d.get)]: the first key, in insertion order, whose value is
    the largest; [None] is the [ValueError] on an empty dictionary. *)
Fixpoint max_by_count_from (best : string * Z) (d : list (string * Z)) : string :=
  match d with
  | [] => fst best
  | x :: d' => max_by_count_from (if (snd best <? snd x)%Z then x else best) d'
  end.
Definition max_by_count (d : list (string * Z)) : option string :=
  match d with
  | [] => None
  | x :: d' => Some (max_by_count_from x d')
  end.

(** [last_updated] is declared [auto_now=True]: saving assigns it the
    reading of the clock, on the object and in the row. *)
Definition set_last_updated (m : UserBehaviorMetrics) (t : datetime)
  : UserBehaviorMetrics :=
  mk_UserBehaviorMetrics (metrics_user m) (first_login m) (last_login m)
    (total_sessions m) (total_session_time m) (average_session_duration m)
    (days_since_first_login m) (is_returning_user m) (preferred_wallet m)
    (successful_wallet_connections m) (failed_wallet_connections m) t.

(** The row of the user is rewritten, or inserted. *)
Definition save_metrics (m : UserBehaviorMetrics) (d : ActivityDb) : ActivityDb :=
  mk_ActivityDb (user_sessions d) (wallet_connections d)
    (if existsb (fun m0 => (metrics_user m0 =? metrics_user m)%Z) (behavior_metrics d)
     then map (fun m0 => if (metrics_user m0 =? metrics_user m)%Z then m else m0)
              (behavior_metrics d)
     else behavior_metrics d ++ [m]).

Definition is_completed (s : UserSession) : bool :=
  match logout_at s with Some _ => true | None => false end.

(** The wallet part of [update_metrics] (lines 204-218). The dictionary
    of counts is empty exactly when there is no successful connection,
    which is when [wallet_connections.exists()] is false. *)
Definition update_wallet_preferences (self : UserBehaviorMetrics) (d : ActivityDb)
  : UserBehaviorMetrics :=
  let of_user :=
    List.filter (fun c => (connection_user c =? metrics_user self)%Z)
                (order_by_attempt_desc (wallet_connections d)) in
  let successes :=
    List.filter (fun c => String.eqb (connection_status c) "success") of_user in
  match max_by_count (count_providers successes) with
  | Some provider =>
      mk_UserBehaviorMetrics (metrics_user self) (first_login self) (last_login self)
        (total_sessions self) (total_session_time self)
        (average_session_duration self) (days_since_first_login self)
        (is_returning_user self)
        provider (len successes)
        (len (List.filter (fun c => String.eqb (connection_status c) "failed")
                          of_user))
        (last_updated self)
  | None => self
  end.

(** [self.save()] of line 220, [saved_at] being the reading of the clock
    that [auto_now] takes. *)
Definition metrics_save (saved_at : datetime) (self : UserBehaviorMetrics)
    (d : ActivityDb) : UserBehaviorMetrics * ActivityDb :=
  let self := set_last_updated self saved_at in
  (self, save_metrics self d).

(** [UserBehaviorMetrics.update_metrics]; [now] is the reading of the
    clock taken when the user has sessions, [saved_at] the one taken by
    the final [save]. The object saved and the tables after the call. *)
Definition update_metrics (now saved_at : datetime) (self : UserBehaviorMetrics)
    (d : ActivityDb) : result (UserBehaviorMetrics * ActivityDb) :=
  let sessions :=
    List.filter (fun s => (session_user s =? metrics_user self)%Z)
                (order_by_login false (user_sessions d)) in
  match head (order_by_login true sessions), head (order_by_login false sessions) with
  | Some first, Some latest =>
      let completed_sessions := List.filter is_completed sessions in
      let totals :=
        match completed_sessions with
        | [] => Ok (total_session_time self, average_session_duration self)
        | _ :: _ =>
            match td_sum_from 0%Z
                    (map (fun s => snd (calculate_duration now s)) completed_sessions)
            with
            | Some total_time =>
                match td_div_int total_time (len completed_sessions) with
                | Some average => Ok (total_time, average)
                | None => Raise ZeroDivisionError
                end
            | None => Raise OverflowError
            end
        end in
      match totals with
      | Raise e => Raise e
      | Ok (total_time, average) =>
          let self :=
            mk_UserBehaviorMetrics (metrics_user self)
              (login_at first) (login_at latest) (len sessions)
              total_time average
              (toordinal now - toordinal (login_at first))%Z
              (len sessions >? 1)%Z
              (preferred_wallet self) (successful_wallet_connections self)
              (failed_wallet_connections self) (last_updated self) in
          let self := update_wallet_preferences self d in
          Ok (metrics_save saved_at self d)
      end
  | _, _ => Ok (metrics_save saved_at self d)
  end.

(** The sessions of a user, and counts of wallet connections, in terms of
    the tables. *)
Definition sessions_of (u : Z) (d : ActivityDb) : list UserSession :=
  List.filter (fun s => (session_user s =? u)%Z) (user_sessions d).

Definition connection_count (u : Z) (status : string) (d : ActivityDb) : Z :=
  len (List.filter (fun c => (connection_user c =? u)%Z
                             && String.eqb (connection_status c) status)
                   (wallet_connections d)).

Definition provider_count (u : Z) (provider : string) (d : ActivityDb) : Z :=
  len (List.filter (fun c => (connection_user c =? u)%Z
                             && String.eqb (connection_status c) "success"
                             && String.eqb (wallet_provider c) provider)
                   (wallet_connections d)).

(** The order [order_by_login asc] sorts by. *)
Definition login_order (asc : bool) (a b : UserSession) : Prop :=
  if asc then dt_leb (login_at a) (login_at b) = true
  else dt_leb (login_at b) (login_at a) = true.

(** The durations of the completed sessions of a user. *)
Definition completed_durations (u : Z) (d : ActivityDb) : list timedelta :=
  map (fun s => match logout_at s with
                | Some out => dt_diff out (login_at s)
                | None => 0%Z
                end)
      (List.filter is_completed
                   (List.filter (fun s => (session_user s =? u)%Z)
                                (order_by_login false (user_sessions d)))).

(** Concrete tables of the examples. *)
Definition session1 : UserSession :=
  mk_UserSession 1 7 (mk_datetime 2025 6 1 10 0 0 0)
                 (Some (mk_datetime 2025 6 1 10 30 0 1)) None false.
Definition session2 : UserSession :=
  mk_UserSession 2 7 (mk_datetime 2025 6 3 9 0 0 0)
                 (Some (mk_datetime 2025 6 3 9 0 1 0)) None false.
Definition session3 : UserSession :=
  mk_UserSession 3 7 (mk_datetime 2025 6 5 9 0 0 0) None None true.
Definition session4 : UserSession :=
  mk_UserSession 4 8 (mk_datetime 2025 1 5 9 0 0 0) None None true.
Definition connection (provider status : string) (m : Z) : WalletConnection :=
  mk_WalletConnection 7 provider status (mk_datetime 2025 6 2 9 m 0 0).
Definition activity_db : ActivityDb :=
  mk_ActivityDb [session1; session2; session3; session4]
                [connection "metamask" "success" 1; connection "phantom" "success" 2;
                 connection "metamask" "failed" 3; connection "phantom" "success" 4;
                 connection "metamask" "success" 5;
                 mk_WalletConnection 8 "trust" "failed" (mk_datetime 2025 6 2 9 6 0 0)]
                [].
Definition blank_metrics (u : Z) : UserBehaviorMetrics :=
  mk_UserBehaviorMetrics u epoch epoch 0 0%Z 0%Z 0 false "" 0 0
                         (mk_datetime 2025 1 1 0 0 0 0).

(** ** The report and file tasks of [analytics/tasks.py] *)

(** The exceptions [generate_single_report_task] tells apart:
    [AutomatedReport.DoesNotExist] has a handler of its own. *)
Inductive report_exn :=
  | AutomatedReport_DoesNotExist
  | other_exception (e : exn).

(** The ['message'] of an error result: [f"Report {report_id} not found"]
    or [str(e)]. *)
Inductive single_report_message :=
  | message_not_found (report_id : Z)
  | message_exception (e : exn).

(** The dictionary [generate_single_report_task] returns. *)
Inductive single_report_result :=
  | single_report_success (execution_id : Z) (execution_status : string)
  | single_report_error (message : single_report_message).

(** [AutomatedReport.objects.get(id=report_id)]; [None] is
    [AutomatedReport.DoesNotExist]. *)
Definition objects_get (report_id0 : Z) (d : Db) : option AutomatedReport :=
  List.find (fun r => (report_id r =? report_id0)%Z) (reports d).

(** The handler of [AutomatedReport.DoesNotExist]. *)
Definition report_not_found (report_id0 : Z) (w : World)
  : single_report_result * World :=
  (single_report_error (message_not_found report_id0),
   snd (logger (log_error "Report {} not found" [arg_int report_id0]) w)).

Section SingleReport.

(** [ReportGenerator.generate_report] is outside the source; it may read
    and write the tables, and it may raise either kind of exception. *)
Variable generate_report
  : AutomatedReport -> Db -> (report_exn + ReportExecution) * Db.

(** [generate_single_report_task]. *)
Definition generate_single_report_task (report_id0 : Z) (w : World)
  : single_report_result * World :=
  match objects_get report_id0 (db w) with
  | None => report_not_found report_id0 w
  | Some report =>
      let w := snd (record_call (call_generate_report report) w) in
      let run := generate_report report (db w) in
      let w := mk_World (snd run) (ticks w) (logged w) (calls w) in
      match fst run with
      | inr execution =>
          (single_report_success (execution_id execution)
                                 (execution_status execution),
           snd (logger
                  (log_info "Single report generation completed for report {}: {}"
                            [arg_int report_id0;
                             arg_str (execution_status execution)]) w))
      | inl AutomatedReport_DoesNotExist => report_not_found report_id0 w
      | inl (other_exception e) =>
          (single_report_error (message_exception e),
           snd (logger
                  (log_error "Single report generation failed for report {}: {}"
                             [arg_int report_id0; arg_exn e]) w))
      end
  end.

End SingleReport.

(** [os.path.basename]: what follows the last slash. *)
Fixpoint basename_from (acc p : string) : string :=
  match p with
  | EmptyString => acc
  | String c p' =>
      if String.eqb (String c EmptyString) "/" then basename_from EmptyString p'
      else basename_from (acc ++ String c EmptyString) p'
  end.
Definition basename (p : string) : string := basename_from EmptyString p.

(** [sub in s] on strings. *)
Fixpoint contains (sub s : string) : bool :=
  String.prefix sub s
  || match s with
     | EmptyString => false
     | String _ s' => contains sub s'
     end.

(** The records [cleanup_temp_files] writes to the logger. *)
Inductive temp_log_record :=
  | temp_warning (file_path : string) (e : exn)
  | temp_info (cleaned_count : Z).

(** The file system, the log and the calls made to [os.remove]. *)
Record TempWorld (Fs : Type) := mk_TempWorld {
  temp_fs : Fs;
  temp_logged : list temp_log_record;
  temp_removed : list string
}.
Arguments mk_TempWorld {Fs} _ _ _.
Arguments temp_fs {Fs} _.
Arguments temp_logged {Fs} _.
Arguments temp_removed {Fs} _.

Section TempFiles.

(** The file system is outside the source: [os.path.exists] would read it
    and [os.remove] change it or raise. *)
Context {Fs : Type}.
Variable path_exists : string -> Fs -> bool.
Variable os_remove : string -> Fs -> result unit * Fs.

(** The body of [for file_path in file_paths], with its own [try]. The
    test of line 323 starts by loading the global [os]; a [NameError]
    there is caught by the handler of the loop body like any other
    exception, which logs a warning. *)
Definition clean_temp_file (st : TempWorld Fs * Z) (file_path : string)
  : TempWorld Fs * Z :=
  if global_bound "os" then
    if path_exists file_path (temp_fs (fst st))
       && contains "temp_" (basename file_path)
    then
      let run := os_remove file_path (temp_fs (fst st)) in
      match fst run with
      | Ok _ =>
          (mk_TempWorld (snd run) (temp_logged (fst st))
                        (temp_removed (fst st) ++ [file_path]),
           (snd st + 1)%Z)
      | Raise e =>
          (mk_TempWorld (snd run)
                        (temp_logged (fst st) ++ [temp_warning file_path e])
                        (temp_removed (fst st) ++ [file_path]),
           snd st)
      end
    else st
  else
    (mk_TempWorld (temp_fs (fst st))
                  (temp_logged (fst st) ++ [temp_warning file_path (NameError "os")])
                  (temp_removed (fst st)),
     snd st).

(** [cleanup_temp_files]. *)
Definition cleanup_temp_files (file_paths : list string) (w : TempWorld Fs)
  : task_result * TempWorld Fs :=
  let st := fold_left clean_temp_file file_paths (w, 0%Z) in
  (task_success [("files_cleaned", snd st)],
   mk_TempWorld (temp_fs (fst st))
                (temp_logged (fst st) ++ [temp_info (snd st)])
                (temp_removed (fst st))).

End TempFiles.

(** A generator for the examples, and an inactive report. *)
Definition single_generator (r : AutomatedReport) (d : Db)
  : (report_exn + ReportExecution) * Db :=
  (inr (mk_ReportExecution 100 (report_id r) "completed"), d).
Definition inactive_report : AutomatedReport :=
  mk_AutomatedReport 5 "sales" "daily" None (mk_datetime 2030 1 1 0 0 0 0) false.
Definition inactive_db : Db := mk_Db [] [] [] ∅ [inactive_report].
(** ** Facts about the calendar *)

Module CalendarFacts.
Local Open Scope Z_scope.

Ltac div_lia := Z.to_euclidean_division_equations; lia.

Lemma is_leap_period (y k : Z) : _is_leap (y + 400 * k) = _is_leap y.
Proof.
  unfold _is_leap.
  replace ((y + 400 * k) mod 4) with (y mod 4) by div_lia.
  replace ((y + 400 * k) mod 100) with (y mod 100) by div_lia.
  replace ((y + 400 * k) mod 400) with (y mod 400) by div_lia.
  reflexivity.
Qed.

Lemma days_before_year_period (y k : Z) :
  _days_before_year (y + 400 * k) = _days_before_year y + _DI400Y * k.
Proof. unfold _days_before_year, _DI400Y. div_lia. Qed.

Lemma ymd2ord_period (y m d k : Z) :
  _ymd2ord (y + 400 * k) m d = _ymd2ord y m d + _DI400Y * k.
Proof.
  unfold _ymd2ord, _days_before_month.
  rewrite days_before_year_period, is_leap_period. lia.
Qed.

Lemma ord2ymd_in_cycle_shift (y c n : Z) :
  _ord2ymd_in_cycle (y + c) n = shift_year c (_ord2ymd_in_cycle y n).
Proof.
  unfold _ord2ymd_in_cycle, shift_year.
  repeat match goal with
         | |- context [if ?b then _ else _] => destruct b
         end; f_equal; try f_equal; lia.
Qed.

Lemma ord2ymd_period (n k : Z) :
  _ord2ymd (n + _DI400Y * k) = shift_year (400 * k) (_ord2ymd n).
Proof.
  unfold _ord2ymd.
  replace ((n + _DI400Y * k - 1) / _DI400Y) with ((n - 1) / _DI400Y + k)
    by (unfold _DI400Y; div_lia).
  replace ((n + _DI400Y * k - 1) mod _DI400Y) with ((n - 1) mod _DI400Y)
    by (unfold _DI400Y; div_lia).
  rewrite <- ord2ymd_in_cycle_shift. f_equal. lia.
Qed.

(** Every year is a year of the first 400-year cycle, shifted. *)
Lemma year_in_cycle (y : Z) :
  exists y0 k, y = y0 + 400 * k /\ 1 <= y0 <= 400.
Proof.
  exists ((y - 1) mod 400 + 1), ((y - 1) / 400). div_lia.
Qed.

Lemma monthly_steps_first_cycle :
  forallb (fun y => forallb (monthly_steps_ok y) (seqZ 1 12)) (seqZ 1 400) = true.
Proof. vm_compute. reflexivity. Qed.

Lemma monthly_steps_in_cycle (y m : Z) :
  1 <= y <= 400 -> 1 <= m <= 12 -> monthly_steps_ok y m = true.
Proof.
  intros Hy Hm.
  pose proof monthly_steps_first_cycle as H.
  rewrite forallb_forall in H.
  specialize (H y). rewrite forallb_forall in H.
  apply H; apply list_elem_of_In, elem_of_seqZ; lia.
Qed.

Lemma monthly_steps (y m : Z) :
  1 <= m <= 12 ->
  exists d',
    _ord2ymd (_ymd2ord y m 28 + 4) =
      (fst (fst (first_of_next_month y m)), snd (fst (first_of_next_month y m)), d')
    /\ 1 <= d' <= 4
    /\ _ord2ymd (_ymd2ord (fst (fst (first_of_next_month y m)))
                          (snd (fst (first_of_next_month y m))) d' - (d' - 1))
       = first_of_next_month y m.
Proof.
  intros Hm.
  destruct (year_in_cycle y) as (y0 & k & -> & Hy0).
  pose proof (monthly_steps_in_cycle y0 m Hy0 Hm) as H.
  unfold monthly_steps_ok in H.
  rewrite ymd2ord_period.
  replace (_ymd2ord y0 m 28 + _DI400Y * k + 4)
    with (_ymd2ord y0 m 28 + 4 + _DI400Y * k) by lia.
  rewrite ord2ymd_period.
  destruct (_ord2ymd (_ymd2ord y0 m 28 + 4)) as [[y' m'] d'].
  destruct (_ord2ymd (_ymd2ord y' m' d' - (d' - 1))) as [[y2 m2] d2] eqn:E2.
  assert (Hn : first_of_next_month (y0 + 400 * k) m
               = shift_year (400 * k) (first_of_next_month y0 m)).
  { unfold first_of_next_month. destruct (m =? 12); simpl; f_equal; f_equal; lia. }
  rewrite Hn.
  destruct (first_of_next_month y0 m) as [[ye me] de].
  repeat (apply andb_prop in H; destruct H as [H ?]).
  assert (y' = ye) by lia. assert (m' = me) by lia.
  assert (y2 = ye) by lia. assert (m2 = me) by lia. assert (d2 = de) by lia.
  subst. simpl.
  exists d'. split; [reflexivity|]. split; [lia|].
  rewrite ymd2ord_period.
  replace (_ymd2ord ye me d' + _DI400Y * k - (d' - 1))
    with (_ymd2ord ye me d' - (d' - 1) + _DI400Y * k) by lia.
  rewrite ord2ymd_period, E2. reflexivity.
Qed.

(** Adding whole days leaves the time of day alone. *)
Lemma dt_add_days (d : datetime) (k : Z) :
  valid_time d ->
  dt_add d (timedelta_days k) =
    if (0 <? toordinal d + k) && (toordinal d + k <=? _MAXORDINAL) then
      let '(y, m, dd) := _ord2ymd (toordinal d + k) in
      Some (mk_datetime y m dd (hour d) (minute d) (second d) (microsecond d))
    else None.
Proof.
  intros (Hh & Hm & Hs & Hu).
  unfold dt_add, as_timedelta, timedelta_days, seconds_of_day.
  unfold US_PER_DAY, US_PER_SECOND.
  set (o := toordinal d).
  set (t := (second d + minute d * 60 + hour d * 3600) * 1000000 + microsecond d).
  assert (Ht : 0 <= t < 86400 * 1000000) by (subst t; lia).
  replace (o * (86400 * 1000000)
           + (second d + minute d * 60 + hour d * 3600) * 1000000
           + microsecond d + k * (86400 * 1000000))
    with ((o + k) * (86400 * 1000000) + t) by (subst t; lia).
  assert (E1 : ((o + k) * (86400 * 1000000) + t) / (86400 * 1000000) = o + k)
    by (symmetry; apply (Z.div_unique _ _ _ t); lia).
  assert (E2 : ((o + k) * (86400 * 1000000) + t) mod (86400 * 1000000) = t)
    by (symmetry; apply (Z.mod_unique _ _ (o + k)); lia).
  rewrite E1, E2.
  assert (E3 : t / 1000000 = second d + minute d * 60 + hour d * 3600)
    by (symmetry; apply (Z.div_unique _ _ _ (microsecond d)); subst t; lia).
  assert (E4 : t mod 1000000 = microsecond d)
    by (symmetry;
        apply (Z.mod_unique _ _ (second d + minute d * 60 + hour d * 3600));
        subst t; lia).
  rewrite E3, E4.
  assert (E5 : (second d + minute d * 60 + hour d * 3600) / 3600 = hour d)
    by (symmetry; apply (Z.div_unique _ _ _ (second d + minute d * 60)); lia).
  assert (E6 : (second d + minute d * 60 + hour d * 3600) mod 3600
               = second d + minute d * 60)
    by (symmetry; apply (Z.mod_unique _ _ (hour d)); lia).
  rewrite E5, E6.
  assert (E7 : (second d + minute d * 60) / 60 = minute d)
    by (symmetry; apply (Z.div_unique _ _ _ (second d)); lia).
  assert (E8 : (second d + minute d * 60) mod 60 = second d)
    by (symmetry; apply (Z.mod_unique _ _ (minute d)); lia).
  rewrite E7, E8. reflexivity.
Qed.

Ltac month_cases m :=
  let H := fresh in
  assert (H : m = 1 \/ m = 2 \/ m = 3 \/ m = 4 \/ m = 5 \/ m = 6 \/ m = 7
              \/ m = 8 \/ m = 9 \/ m = 10 \/ m = 11 \/ m = 12) by lia;
  repeat (destruct H as [H | H]); subst m.

Lemma ymd2ord_range (y m d : Z) :
  1 <= y <= 9999 -> 1 <= m <= 12 -> 1 <= d <= 32 ->
  ~ (y = 9999 /\ m = 12 /\ d = 32) ->
  0 < _ymd2ord y m d <= _MAXORDINAL.
Proof.
  intros Hy Hm Hd Hne.
  unfold _ymd2ord, _days_before_month, _days_before_year, _is_leap, _MAXORDINAL.
  month_cases m;
    repeat match goal with
           | |- context [table ?t ?i] =>
               let v := eval vm_compute in (table t i) in
               change (table t i) with v
           | |- context [?a >? ?b] =>
               let v := eval vm_compute in (a >? b) in
               change (a >? b) with v
           end;
    repeat match goal with
           | |- context [?a =? ?b] => destruct (Z.eqb_spec a b)
           end; cbn [andb orb negb]; div_lia.
Qed.

Lemma ymd2ord_day (y m d e : Z) : _ymd2ord y m d + e = _ymd2ord y m (d + e).
Proof. unfold _ymd2ord. lia. Qed.

(** The monthly branch: the first day of the following month, at the time
    of day of [last]; [OverflowError] in December 9999. *)
Lemma monthly_next_run_spec (last : datetime) :
  valid_time last ->
  1 <= year last <= 9999 -> 1 <= month last <= 12 ->
  monthly_next_run last =
    if (year last =? 9999) && (month last =? 12) then None
    else Some (with_date (first_of_next_month (year last) (month last)) last).
Proof.
  intros Ht Hy Hm.
  unfold monthly_next_run.
  rewrite dt_add_days by exact Ht.
  unfold toordinal, replace_day; cbn [year month day hour minute second microsecond].
  destruct ((year last =? 9999) && (month last =? 12)) eqn:Emax.
  - apply andb_prop in Emax as [E1 E2].
    apply Z.eqb_eq in E1, E2. rewrite E1, E2. reflexivity.
  - assert (Hne : ~ (year last = 9999 /\ month last = 12)).
    { intros [E1 E2]. rewrite E1, E2 in Emax. discriminate. }
    rewrite ymd2ord_day.
    pose proof (ymd2ord_range (year last) (month last) (28 + 4) Hy Hm) as R1.
    destruct R1 as [R1a R1b]; [lia | lia |].
    rewrite <- ymd2ord_day.
    destruct (monthly_steps (year last) (month last) Hm) as (d' & S1 & Hd' & S2).
    replace (0 <? _ymd2ord (year last) (month last) 28 + 4) with true
      by (symmetry; apply Z.ltb_lt; rewrite ymd2ord_day; lia).
    replace (_ymd2ord (year last) (month last) 28 + 4 <=? _MAXORDINAL) with true
      by (symmetry; apply Z.leb_le; rewrite ymd2ord_day; lia).
    cbn [andb]. rewrite S1.
    unfold dt_sub.
    replace (- timedelta_days (day _ - 1))
      with (timedelta_days (- (d' - 1)))
      by (unfold timedelta_days; cbn [day]; lia).
    rewrite dt_add_days by exact Ht.
    unfold toordinal; cbn [year month day hour minute second microsecond].
    replace (_ymd2ord _ _ d' + - (d' - 1))
      with (_ymd2ord (fst (fst (first_of_next_month (year last) (month last))))
                     (snd (fst (first_of_next_month (year last) (month last))))
                     d' - (d' - 1)) by lia.
    rewrite S2.
    assert (R2 : 0 < _ymd2ord (fst (fst (first_of_next_month (year last) (month last))))
                     (snd (fst (first_of_next_month (year last) (month last))))
                     d' - (d' - 1) <= _MAXORDINAL).
    { replace (_ymd2ord _ _ d' - (d' - 1))
        with (_ymd2ord (fst (fst (first_of_next_month (year last) (month last))))
                     (snd (fst (first_of_next_month (year last) (month last)))) 1)
        by (unfold _ymd2ord; lia).
      unfold first_of_next_month.
      destruct (month last =? 12) eqn:E12; cbn [fst snd];
        apply ymd2ord_range; lia. }
    replace (0 <? _) with true by (symmetry; apply Z.ltb_lt; lia).
    replace (_ <=? _MAXORDINAL) with true by (symmetry; apply Z.leb_le; lia).
    cbn [andb].
    destruct (first_of_next_month (year last) (month last)) as [[ye me] de].
    reflexivity.
Qed.

End CalendarFacts.

Import CalendarFacts.

(** ** The embedding on concrete inputs *)

Example ord2ymd_after_ymd2ord :
  _ord2ymd (_ymd2ord 2024 2 29) = (2024, 2, 29)%Z
  /\ _ord2ymd (_ymd2ord 1900 3 1 - 1) = (1900, 2, 28)%Z
  /\ _ymd2ord 9999 12 31 = _MAXORDINAL
  /\ _ymd2ord 1 1 1 = 1%Z.
Proof. vm_compute. repeat split. Qed.

Example timedelta_arithmetic :
  dt_sub epoch (timedelta_days 90) = Some (mk_datetime 2025 3 17 12 0 0 0)
  /\ dt_sub epoch (timedelta_minutes 5) = Some (mk_datetime 2025 6 15 11 55 0 0)
  /\ dt_add (mk_datetime 2024 12 31 23 59 59 999999) (timedelta_weeks 1)
     = Some (mk_datetime 2025 1 7 23 59 59 999999)
  /\ dt_sub (mk_datetime 1 1 1 0 0 0 0) (timedelta_minutes 5) = None
  /\ td_days (dt_diff (mk_datetime 2025 6 15 9 0 0 0) (mk_datetime 2025 6 14 10 0 0 0))
     = 0%Z.
Proof. vm_compute. repeat split. Qed.

Example monthly_next_run_examples :
  monthly_next_run (mk_datetime 2024 1 31 23 59 59 999999)
  = Some (mk_datetime 2024 2 1 23 59 59 999999)
  /\ monthly_next_run (mk_datetime 2025 1 15 8 0 0 0)
     = Some (mk_datetime 2025 2 1 8 0 0 0)
  /\ monthly_next_run (mk_datetime 2024 2 29 1 2 3 4)
     = Some (mk_datetime 2024 3 1 1 2 3 4)
  /\ monthly_next_run (mk_datetime 2023 12 15 0 0 0 0)
     = Some (mk_datetime 2024 1 1 0 0 0 0)
  /\ monthly_next_run (mk_datetime 9999 12 15 0 0 0 0) = None.
Proof. vm_compute. repeat split. Qed.

Example sorted_is_stable_and_descending :
  sorted_by_count_desc [("a", 1); ("b", 3); ("c", 1); ("d", 3); ("e", 2)]%Z
  = [("b", 3); ("d", 3); ("e", 2); ("a", 1); ("c", 1)]%Z.
Proof. vm_compute. reflexivity. Qed.

Example retention_rate_examples :
  calculate_retention_rate (mk_RetentionCohort 0 0 7)
  = Ok (mk_RetentionCohort 0 0 0, 0%float)
  /\ calculate_retention_rate (mk_RetentionCohort (-3) 1 7)
     = Ok (mk_RetentionCohort (-3) 1 0, 0%float)
  /\ calculate_retention_rate (mk_RetentionCohort 4 1 7)
     = Ok (mk_RetentionCohort 4 1 25, 25%float).
Proof. vm_compute. repeat split. Qed.

Example unbound_names :
  global_bound "models" = false /\ global_bound "os" = false
  /\ global_bound "timezone" = true /\ global_bound "NFTTransaction" = true.
Proof. repeat split; reflexivity. Qed.

Example trade_profile :
  let run := update_user_behavior_profiles_task (frozen_clock epoch)
               (world_of trade_db) in
  processed_addresses epoch trade_db = ["0xA1"; "0xB2"]
  /\ fst run = Ok (task_error (NameError "models"))
  /\ profiles (db (snd run)) !! "0xA1" = Some (default_profile "0xA1" epoch epoch)
  /\ profiles (db (snd run)) !! "0xB2" = None
  /\ logged (snd run)
     = [log_error "User behavior profile update task failed: {}"
                  [arg_exn (NameError "models")]].
Proof. vm_compute. repeat split. Qed.

Example scheduled_reports_run :
  let run := generate_scheduled_reports_task (frozen_clock epoch)
               working_generator (world_of report_db) in
  fst run = Ok (task_success [("reports_generated", 2%Z)])
  /\ reports (db (snd run))
     = [mk_AutomatedReport 1 "sales" "daily" (Some epoch)
                           (mk_datetime 2025 6 16 12 0 0 0) true;
        mk_AutomatedReport 2 "minting" "weekly" (Some epoch)
                           (mk_datetime 2025 6 22 12 0 0 0) true].
Proof. vm_compute. split; reflexivity. Qed.

(** ** Retention cohorts *)

(** C5: [calculate_retention_rate] never raises; it sets and returns
    [(retained_users / total_users) * 100] when [total_users > 0] and
    [0.0] when [total_users = 0]; 50 retained users of 200 give 25.0. *)
Theorem calculate_retention_rate_spec :
  (forall self : RetentionCohort,
     exists r : float,
       calculate_retention_rate self = Ok (set_retention_rate self r, r)
       /\ ((total_users self > 0)%Z ->
           r = PrimFloat.mul
                 (PrimFloat.div (float_of_Z (retained_users self))
                                (float_of_Z (total_users self)))
                 (float_of_Z 100))
       /\ ((total_users self = 0)%Z -> r = 0%float))
  /\ (forall r0 : float,
        calculate_retention_rate (mk_RetentionCohort 200 50 r0)
        = Ok (mk_RetentionCohort 200 50 25%float, 25%float)).
Proof.
  split.
  - intros self. unfold calculate_retention_rate, int_truediv.
    destruct (total_users self >? 0)%Z eqn:Hpos.
    + assert (Hnz : (total_users self =? 0)%Z = false) by lia.
      rewrite Hnz. eexists. split; [reflexivity|]. split; [reflexivity | lia].
    + eexists. split; [reflexivity|]. split; [lia | reflexivity].
  - intros r0. reflexivity.
Qed.

Lemma calculate_retention_rate_spec_witness :
  exists r : float,
    calculate_retention_rate (mk_RetentionCohort 200 50 0)
    = Ok (mk_RetentionCohort 200 50 r, r)
    /\ r = 25%float.
Proof.
  destruct calculate_retention_rate_spec as [Hall _].
  destruct (Hall (mk_RetentionCohort 200 50 0)) as (r & Hrun & Hpos & _).
  exists r. split; [exact Hrun|].
  rewrite Hpos; [reflexivity | simpl; lia].
Defined.

(** ** The risk score *)

Lemma clamped_risk_is_spec_risk (frequency total_volume : float)
    (n_preferred total_count : Z) :
  py_min (risk_contributions frequency total_volume n_preferred total_count) 1%float
  = spec_risk_score frequency total_volume n_preferred total_count.
Proof.
  unfold risk_contributions, spec_risk_score.
  destruct (float_gt_int frequency 10), (float_gt_int total_volume 100),
    ((n_preferred <=? 2)%Z && (total_count >? 10)%Z); reflexivity.
Qed.

Lemma spec_risk_in_unit_interval (frequency total_volume : float)
    (n_preferred total_count : Z) :
  PrimFloat.leb 0 (spec_risk_score frequency total_volume n_preferred total_count) = true
  /\ PrimFloat.leb (spec_risk_score frequency total_volume n_preferred total_count) 1 = true.
Proof.
  unfold spec_risk_score.
  destruct (float_gt_int frequency 10), (float_gt_int total_volume 100),
    ((n_preferred <=? 2)%Z && (total_count >? 10)%Z); split; reflexivity.
Qed.

(** ** Scheduling of automated reports *)

Lemma cmp_fields_refl (l : list Z) : cmp_fields l l = Eq.
Proof. induction l as [|x l IH]; simpl; [|rewrite Z.compare_refl]; auto. Qed.

Lemma dt_leb_refl (t : datetime) : dt_leb t t = true.
Proof. unfold dt_leb, dt_cmp. now rewrite cmp_fields_refl. Qed.

(** What the ['monthly'] branch does for every valid [last_run]: the
    report gets as [next_run] the first day of the month after
    [last_run]'s month, at [last_run]'s time of day, whatever the day of
    [last_run]. *)
Lemma calculate_next_run_monthly (clock : nat -> datetime)
    (self : AutomatedReport) (last : datetime) (w : World) :
  frequency self = "monthly" ->
  last_run self = Some last ->
  valid_time last ->
  (1 <= year last <= 9999)%Z -> (1 <= month last <= 12)%Z ->
  ~ (year last = 9999 /\ month last = 12)%Z ->
  exists t : datetime,
    calculate_next_run clock self w = (Ok (set_next_run self t), w)
    /\ t = with_date (first_of_next_month (year last) (month last)) last
    /\ day t = 1%Z
    /\ (month last = 1%Z -> year t = year last /\ month t = 2%Z).
Proof.
  intros Hf Hl Ht Hy Hm Hmax.
  unfold calculate_next_run. rewrite Hl, Hf. cbn [String.eqb].
  change (String.eqb "monthly" "daily") with false.
  change (String.eqb "monthly" "weekly") with false.
  change (String.eqb "monthly" "monthly") with true. cbn iota.
  rewrite (monthly_next_run_spec last Ht Hy Hm).
  replace ((year last =? 9999)%Z && (month last =? 12)%Z) with false
    by (symmetry; apply andb_false_iff; lia).
  eexists. split; [reflexivity|]. split; [reflexivity|].
  unfold first_of_next_month, with_date.
  destruct (month last =? 12)%Z eqn:E; cbn [year month day];
    (split; [reflexivity | intros; lia]).
Qed.

(** C2 on a failing input: a monthly report last run on 15 January. The
    comment of the branch says [# Add one month], and the ['daily'] and
    ['weekly'] branches add their period to [last_run] (16 and 22
    January); the monthly branch gives 1 February, 17 days later, not 15
    February. Last run on 31 January it gives 1 February too, not the
    last day of February. *)
Theorem monthly_next_run_is_not_one_month_later :
  let next freq last :=
    fst (calculate_next_run (frozen_clock epoch) (report_last_run freq last)
                            empty_world) in
  next "daily" jan15
  = Ok (set_next_run (report_last_run "daily" jan15) (mk_datetime 2025 1 16 9 30 0 0))
  /\ next "weekly" jan15
     = Ok (set_next_run (report_last_run "weekly" jan15)
                        (mk_datetime 2025 1 22 9 30 0 0))
  /\ next "monthly" jan15
     = Ok (set_next_run (report_last_run "monthly" jan15)
                        (mk_datetime 2025 2 1 9 30 0 0))
  /\ next "monthly" jan15
     <> Ok (set_next_run (report_last_run "monthly" jan15)
                         (mk_datetime 2025 2 15 9 30 0 0))
  /\ dt_diff (mk_datetime 2025 2 1 9 30 0 0) jan15 = timedelta_days 17
  /\ next "monthly" jan31
     = Ok (set_next_run (report_last_run "monthly" jan31)
                        (mk_datetime 2025 2 1 9 30 0 0))
  /\ next "monthly" jan31
     <> Ok (set_next_run (report_last_run "monthly" jan31)
                         (mk_datetime 2025 2 28 9 30 0 0)).
Proof.
  cbv zeta. repeat split; try reflexivity; intros H; vm_compute in H; discriminate.
Qed.

(** C10: a report that never ran gets the current time as [next_run],
    whatever its frequency; it is then due at that time and at any later
    time as long as it is active, so the filter of
    [generate_scheduled_reports_task] selects it. *)
Theorem calculate_next_run_never_ran (clock : nat -> datetime)
    (self : AutomatedReport) (w : World) :
  last_run self = None ->
  let now := clock (ticks w) in
  let r' := set_next_run self now in
  calculate_next_run clock self w
  = (Ok r', mk_World (db w) (S (ticks w)) (logged w) (calls w))
  /\ next_run r' = now
  /\ dt_leb (next_run r') now = true
  /\ is_due now r' = is_active self
  /\ (forall (later : datetime) (table : list AutomatedReport),
        dt_leb now later = true -> is_active self = true -> In r' table ->
        In r' (List.filter (is_due later) table)).
Proof.
  intros Hl now r'.
  assert (Hrefl : dt_leb (next_run r') now = true) by apply dt_leb_refl.
  repeat split.
  - unfold calculate_next_run. rewrite Hl. reflexivity.
  - exact Hrefl.
  - unfold is_due. rewrite Hrefl. subst r'. simpl. now rewrite andb_true_r.
  - intros later table Hlater Hact Hin.
    apply filter_In. split; [exact Hin|].
    unfold is_due. subst r'. simpl. now rewrite Hact, Hlater.
Qed.

Lemma calculate_next_run_never_ran_witness :
  calculate_next_run (frozen_clock epoch) fresh_report empty_world
  = (Ok (set_next_run fresh_report epoch), mk_World empty_db 1 [] [])
  /\ is_due epoch (set_next_run fresh_report epoch) = true.
Proof.
  destruct (calculate_next_run_never_ran (frozen_clock epoch) fresh_report
              empty_world eq_refl) as (H1 & _ & _ & H2 & _).
  split; [exact H1 | exact H2].
Defined.

(** ** Order of datetimes and equations of the monad *)

Lemma cmp_fields_antisym (a b : list Z) :
  cmp_fields b a = CompOpp (cmp_fields a b).
Proof.
  revert b. induction a as [|x a IH]; intros [|y b]; simpl; auto.
  rewrite (Z.compare_antisym x y).
  destruct (x ?= y)%Z; simpl; auto.
Qed.

Lemma dt_geb_not_ltb (t cutoff : datetime) :
  dt_geb t cutoff = negb (dt_ltb t cutoff).
Proof.
  unfold dt_geb, dt_leb, dt_ltb, dt_cmp.
  rewrite (cmp_fields_antisym (dt_fields t) (dt_fields cutoff)).
  destruct (cmp_fields (dt_fields t) (dt_fields cutoff)); reflexivity.
Qed.

Lemma bind_ok {A B} (m : M A) (k : A -> M B) (w w' : World) (a : A) :
  m w = (Ok a, w') -> bind m k w = k a w'.
Proof. unfold bind. now intros ->. Qed.

Lemma bind_raise {A B} (m : M A) (k : A -> M B) (w w' : World) (e : exn) :
  m w = (Raise e, w') -> bind m k w = (Raise e, w').
Proof. unfold bind. now intros ->. Qed.

(** A loop without a [try] of its own stops at the first item that raises. *)
Lemma for_each_raise {A S} (body : S -> A -> M S) (x : A) (xs : list A)
    (acc : S) (w w' : World) (e : exn) :
  body acc x w = (Raise e, w') ->
  for_each (x :: xs) acc body w = (Raise e, w').
Proof. intros H. simpl. now apply bind_raise. Qed.

(** ** Cleanup *)

(** C8: the sweep deletes the anomalies detected before the cutoff of 90
    days and the webhook logs sent before the cutoff of 30 days, whatever
    their status or outcome, keeps every other row of the two tables, and
    touches no other table. *)
Theorem cleanup_old_data_task_deletes_exactly (clock : nat -> datetime)
    (w : World) (cutoff_date log_cutoff : datetime) :
  dt_sub (clock (ticks w)) (timedelta_days 90) = Some cutoff_date ->
  dt_sub (clock (S (ticks w))) (timedelta_days 30) = Some log_cutoff ->
  exists w' : World,
    cleanup_old_data_task clock w
    = (Ok (task_success
             [("deleted_anomalies",
               len (List.filter (is_old_anomaly cutoff_date) (anomalies (db w))));
              ("deleted_logs",
               len (List.filter (is_old_log log_cutoff) (webhook_logs (db w))))]),
       w')
    /\ (forall a : AnomalyDetection,
          In a (anomalies (db w')) <->
          In a (anomalies (db w)) /\ dt_ltb (detected_at a) cutoff_date = false)
    /\ (forall l : WebhookLog,
          In l (webhook_logs (db w')) <->
          In l (webhook_logs (db w)) /\ dt_ltb (sent_at l) log_cutoff = false)
    /\ anomalies (db w')
       = List.filter (fun a => negb (dt_ltb (detected_at a) cutoff_date))
                     (anomalies (db w))
    /\ webhook_logs (db w')
       = List.filter (fun l => negb (dt_ltb (sent_at l) log_cutoff))
                     (webhook_logs (db w))
    /\ transactions (db w') = transactions (db w)
    /\ profiles (db w') = profiles (db w)
    /\ reports (db w') = reports (db w).
Proof.
  intros H90 H30.
  unfold cleanup_old_data_task, try_except, bind, timezone_now, of_option,
    get_db, put_db, logger, ret; cbn [db ticks logged calls].
  rewrite H90; cbn [db ticks logged calls]. rewrite H30; cbn.
  eexists. split; [reflexivity|]. cbn.
  repeat split;
    try match goal with
        | H : In _ (List.filter _ _) |- _ =>
            apply filter_In in H; destruct H as [Hin Hk]
        end.
  - assumption.
  - unfold is_old_anomaly in Hk. now apply negb_true_iff in Hk.
  - intros [Hin Hk]. apply filter_In. split; [assumption|].
    unfold is_old_anomaly. now rewrite Hk.
  - assumption.
  - unfold is_old_log in Hk. now apply negb_true_iff in Hk.
  - intros [Hin Hk]. apply filter_In. split; [assumption|].
    unfold is_old_log. now rewrite Hk.
Qed.

Lemma cleanup_old_data_task_deletes_exactly_witness :
  exists w' : World,
    cleanup_old_data_task (frozen_clock epoch) (world_of sweep_db)
    = (Ok (task_success [("deleted_anomalies", 1%Z); ("deleted_logs", 1%Z)]), w')
    /\ anomalies (db w') = [anomaly1]
    /\ webhook_logs (db w') = [new_log].
Proof.
  destruct (cleanup_old_data_task_deletes_exactly
              (frozen_clock epoch) (world_of sweep_db)
              (mk_datetime 2025 3 17 12 0 0 0) (mk_datetime 2025 5 16 12 0 0 0)
              eq_refl eq_refl)
    as (w' & Hrun & _ & _ & Ha & Hl & _).
  exists w'. split; [exact Hrun|]. split; [exact Ha | exact Hl].
Defined.

(** ** The webhook notification pipeline *)

Lemma is_recent_pending_iff (cutoff : datetime) (a : AnomalyDetection) :
  is_recent_pending cutoff a = true
  <-> status a = "pending" /\ dt_ltb (detected_at a) cutoff = false.
Proof.
  unfold is_recent_pending. rewrite andb_true_iff, dt_geb_not_ltb, negb_true_iff.
  rewrite String.eqb_eq. tauto.
Qed.

Section Webhooks.

Variable clock : nat -> datetime.
Variable send_anomaly_alert : AnomalyDetection -> Db -> result unit * Db.

(** The loop calls the service on a prefix of the list, in order, and
    writes nothing to the log. *)
Lemma dispatch_loop_prefix (l : list AnomalyDetection) (w : World) :
  exists (k : nat) (r : result unit) (w' : World),
    for_each l tt (alert_anomaly send_anomaly_alert) w = (r, w')
    /\ calls w' = calls w ++ map call_send_anomaly_alert (firstn k l)
    /\ logged w' = logged w /\ ticks w' = ticks w.
Proof.
  revert w. induction l as [|x l IH]; intros w.
  - exists 0%nat, (Ok tt), w. simpl. now rewrite app_nil_r.
  - simpl. unfold bind at 1. unfold alert_anomaly at 1.
    unfold bind at 1, record_call, external. cbn [db ticks logged calls].
    destruct (send_anomaly_alert x (db w)) as [[[]|e] d].
    + destruct (IH (mk_World d (ticks w) (logged w)
                             (calls w ++ [call_send_anomaly_alert x])))
        as (k & r & w' & Hrun & Hcalls & Hlog & Htick).
      exists (S k), r, w'. split; [exact Hrun|].
      split; [|split; assumption].
      rewrite Hcalls. cbn [calls firstn map]. now rewrite <- app_assoc.
    + exists 1%nat, (Raise e), (mk_World d (ticks w) (logged w)
                                (calls w ++ [call_send_anomaly_alert x])).
      repeat split.
Qed.

(** When no delivery raises, the loop calls the service on every item. *)
Lemma dispatch_loop_all (l : list AnomalyDetection) (w : World) :
  (forall a d, fst (send_anomaly_alert a d) = Ok tt) ->
  exists w' : World,
    for_each l tt (alert_anomaly send_anomaly_alert) w = (Ok tt, w')
    /\ calls w' = calls w ++ map call_send_anomaly_alert l
    /\ logged w' = logged w /\ ticks w' = ticks w.
Proof.
  intros Hok. revert w. induction l as [|x l IH]; intros w.
  - exists w. simpl. now rewrite app_nil_r.
  - simpl. unfold bind at 1. unfold alert_anomaly at 1.
    unfold bind at 1, record_call, external. cbn [db ticks logged calls].
    specialize (Hok x (db w)).
    destruct (send_anomaly_alert x (db w)) as [[[]|e] d]; [|discriminate].
    destruct (IH (mk_World d (ticks w) (logged w)
                           (calls w ++ [call_send_anomaly_alert x])))
      as (w' & Hrun & Hcalls & Hlog & Htick).
    exists w'. split; [exact Hrun|]. split; [|split; assumption].
    rewrite Hcalls. cbn [calls map]. now rewrite <- app_assoc.
Qed.

Lemma select_recent_anomalies_run (w : World) (cutoff : datetime) :
  dt_sub (clock (ticks w)) (timedelta_minutes 5) = Some cutoff ->
  select_recent_anomalies clock w
  = (Ok (List.filter (is_recent_pending cutoff) (anomalies (db w))), tick w).
Proof.
  intros Hc. unfold select_recent_anomalies, bind, timezone_now, of_option, get_db, ret.
  cbn [db ticks logged calls]. now rewrite Hc.
Qed.

Lemma dispatch_anomalies_prefix (l : list AnomalyDetection) (w : World) :
  exists (k : nat) (r : result unit) (w' : World),
    dispatch_anomalies send_anomaly_alert l w = (r, w')
    /\ calls w' = calls w ++ map call_send_anomaly_alert (firstn k l).
Proof.
  destruct (dispatch_loop_prefix l w) as (k & r & w' & Hrun & Hcalls & _).
  unfold dispatch_anomalies, bind. rewrite Hrun.
  destruct r as [[]|e]; unfold logger; eauto 6.
Qed.

Lemma dispatch_anomalies_all (l : list AnomalyDetection) (w : World) :
  (forall a d, fst (send_anomaly_alert a d) = Ok tt) ->
  exists w' : World,
    dispatch_anomalies send_anomaly_alert l w = (Ok tt, w')
    /\ calls w' = calls w ++ map call_send_anomaly_alert l.
Proof.
  intros Hok.
  destruct (dispatch_loop_all l w Hok) as (w' & Hrun & Hcalls & _).
  unfold dispatch_anomalies, bind. rewrite Hrun.
  unfold logger. eauto.
Qed.

End Webhooks.

(** A run is its two phases, one after the other. *)
Lemma trigger_webhooks_task_two_phases (clock : nat -> datetime)
    (send : AnomalyDetection -> Db -> result unit * Db) (w : World) :
  trigger_webhooks_task clock send w
  = (observed <- webhook_run_observe clock ;; webhook_run_deliver send observed) w.
Proof.
  unfold trigger_webhooks_task, webhook_run_observe, webhook_run_deliver,
    try_except, bind, ret.
  destruct (select_recent_anomalies clock w) as [[l|e] w1]; [reflexivity|].
  unfold webhook_task_failed, logger. reflexivity.
Qed.

(** C6 on a failing input: four anomalies, of which two are pending and
    detected within the last five minutes, and a webhook service that
    writes a row to the delivery log whenever it is called and whose
    delivery of the first anomaly raises. Both anomalies are selected and
    no other row is; the service is called on the first one only: the log
    it writes has one row and the second selected anomaly is never
    alerted. With a service that delivers, both are alerted once. *)
Theorem recent_pending_anomaly_never_alerted :
  let run := trigger_webhooks_task (frozen_clock epoch) recording_service
               (world_of anomaly_db) in
  fst (select_recent_anomalies (frozen_clock epoch) (world_of anomaly_db))
  = Ok [anomaly1; anomaly2]
  /\ In anomaly2 (anomalies anomaly_db)
  /\ status anomaly2 = "pending"
  /\ (dt_diff epoch (detected_at anomaly2) <= timedelta_minutes 5)%Z
  /\ webhook_logs (db (snd run)) = [mk_WebhookLog 1 1 "sending" epoch]
  /\ calls (snd run) = [call_send_anomaly_alert anomaly1]
  /\ deliveries 2 (calls (snd run)) = 0%nat
  /\ logged (snd run)
     = [log_error "Webhook task failed: {}"
                  [arg_exn (ExternalError "connection refused")]]
  /\ calls (snd (trigger_webhooks_task (frozen_clock epoch) delivering_service
                    (world_of anomaly_db)))
     = [call_send_anomaly_alert anomaly1; call_send_anomaly_alert anomaly2].
Proof.
  cbv zeta. repeat split; try reflexivity.
  - right. right. right. left. reflexivity.
  - vm_compute. discriminate.
Qed.

(** C7, as the code has it: the task has no claim step. Fetching the
    pending set changes no row, and when two runs both fetch before either
    sends, each run calls [send_anomaly_alert] on everything it fetched:
    an anomaly both runs fetched is delivered once by each of them. *)
Theorem two_concurrent_webhook_runs_both_deliver
    (clock : nat -> datetime)
    (send : AnomalyDetection -> Db -> result unit * Db)
    (w : World) (cutoff1 cutoff2 : datetime) :
  dt_sub (clock (ticks w)) (timedelta_minutes 5) = Some cutoff1 ->
  dt_sub (clock (S (ticks w))) (timedelta_minutes 5) = Some cutoff2 ->
  (forall a d, fst (send a d) = Ok tt) ->
  db (snd (webhook_run_observe clock w)) = db w
  /\ calls (snd (two_concurrent_webhook_runs clock send w))
     = calls w
       ++ map call_send_anomaly_alert
              (List.filter (is_recent_pending cutoff1) (anomalies (db w)))
       ++ map call_send_anomaly_alert
              (List.filter (is_recent_pending cutoff2) (anomalies (db w))).
Proof.
  intros Hc1 Hc2 Hok.
  assert (Hobs1 : webhook_run_observe clock w
                  = (Ok (Some (List.filter (is_recent_pending cutoff1)
                                           (anomalies (db w)))), tick w)).
  { unfold webhook_run_observe, try_except, bind, ret.
    now rewrite (select_recent_anomalies_run clock w cutoff1 Hc1). }
  assert (Hobs2 : webhook_run_observe clock (tick w)
                  = (Ok (Some (List.filter (is_recent_pending cutoff2)
                                           (anomalies (db w)))), tick (tick w))).
  { unfold webhook_run_observe, try_except, bind, ret.
    now rewrite (select_recent_anomalies_run clock (tick w) cutoff2 Hc2). }
  split; [now rewrite Hobs1|].
  unfold two_concurrent_webhook_runs, bind. rewrite Hobs1, Hobs2.
  unfold webhook_run_deliver, try_except.
  destruct (dispatch_anomalies_all send
              (List.filter (is_recent_pending cutoff1) (anomalies (db w)))
              (tick (tick w)) Hok) as (w1 & Hd1 & Hcalls1).
  rewrite Hd1.
  destruct (dispatch_anomalies_all send
              (List.filter (is_recent_pending cutoff2) (anomalies (db w)))
              w1 Hok) as (w2 & Hd2 & Hcalls2).
  rewrite Hd2. cbn [snd]. rewrite Hcalls2, Hcalls1. cbn [calls tick].
  now rewrite <- app_assoc.
Qed.

Lemma two_concurrent_webhook_runs_both_deliver_witness :
  calls (snd (two_concurrent_webhook_runs (frozen_clock epoch) delivering_service
                                          (world_of anomaly_db)))
  = [call_send_anomaly_alert anomaly1; call_send_anomaly_alert anomaly2;
     call_send_anomaly_alert anomaly1; call_send_anomaly_alert anomaly2].
Proof.
  destruct (two_concurrent_webhook_runs_both_deliver
              (frozen_clock epoch) delivering_service (world_of anomaly_db)
              (mk_datetime 2025 6 15 11 55 0 0) (mk_datetime 2025 6 15 11 55 0 0)
              eq_refl eq_refl (fun _ _ => eq_refl)) as [_ H].
  exact H.
Defined.

(** C7, as the specification states it, fails: with two runs that observe
    the same pending set, anomaly 1 is delivered twice, and no status was
    changed before the deliveries. *)
Lemma concurrent_runs_deliver_anomaly_twice :
  let w' := snd (two_concurrent_webhook_runs (frozen_clock epoch)
                   delivering_service (world_of anomaly_db)) in
  deliveries 1 (calls w') = 2%nat
  /\ anomalies (db w') = anomalies anomaly_db
  /\ ~ (forall a : AnomalyDetection,
          In a (anomalies anomaly_db) ->
          (deliveries (anomaly_id a) (calls w') <= 1)%nat).
Proof.
  split; [reflexivity|]. split; [reflexivity|].
  intros H. specialize (H anomaly1 (or_introl eq_refl)).
  vm_compute in H. lia.
Qed.

(** ** Isolation of failures in the batch loops *)

Lemma calculate_next_run_calls (clock : nat -> datetime) (self : AutomatedReport)
    (w w' : World) (r : result AutomatedReport) :
  calculate_next_run clock self w = (r, w') -> calls w' = calls w.
Proof.
  unfold calculate_next_run. intros H.
  destruct (last_run self) as [last|].
  - destruct (String.eqb (frequency self) "daily");
      [|destruct (String.eqb (frequency self) "weekly");
        [|destruct (String.eqb (frequency self) "monthly")]];
      unfold bind, of_option, ret, raise in H;
      repeat match type of H with
             | context [dt_add ?a ?b] => destruct (dt_add a b)
             | context [monthly_next_run ?a] => destruct (monthly_next_run a)
             end;
      injection H as <- <-; reflexivity.
  - unfold bind, timezone_now, ret in H. injection H as <- <-. reflexivity.
Qed.

(** The body of the report loop never lets an exception out and makes
    exactly one call to the generator. *)
Lemma generate_due_report_isolated (clock : nat -> datetime)
    (gen : AutomatedReport -> Db -> result ReportExecution * Db)
    (now : datetime) (n : Z) (r : AutomatedReport) (w : World) :
  exists (n' : Z) (w' : World),
    generate_due_report clock gen now n r w = (Ok n', w')
    /\ calls w' = calls w ++ [call_generate_report r].
Proof.
  unfold generate_due_report, try_except.
  unfold bind at 1. unfold record_call at 1.
  unfold bind at 1. unfold external at 1. cbn [db ticks logged calls].
  destruct (gen r (db w)) as [[ex|e] d].
  - unfold bind at 1.
    destruct (calculate_next_run clock (set_last_run r now) _) as [[r'|e] w1] eqn:E;
      apply calculate_next_run_calls in E; cbn in E.
    + unfold bind, save_report, get_db, put_db, logger, ret. cbn. eauto.
    + unfold bind, logger, ret. cbn. eauto.
  - unfold bind, logger, ret. cbn. eauto.
Qed.

Lemma report_loop_attempts_all (clock : nat -> datetime)
    (gen : AutomatedReport -> Db -> result ReportExecution * Db)
    (now : datetime) (due : list AutomatedReport) (n : Z) (w : World) :
  exists (n' : Z) (w' : World),
    for_each due n (generate_due_report clock gen now) w = (Ok n', w')
    /\ calls w' = calls w ++ map call_generate_report due.
Proof.
  revert n w. induction due as [|r due IH]; intros n w.
  - exists n, w. simpl. now rewrite app_nil_r.
  - destruct (generate_due_report_isolated clock gen now n r w)
      as (n1 & w1 & Hr & Hc1).
    destruct (IH n1 w1) as (n' & w' & Hrest & Hc).
    exists n', w'. simpl. rewrite (bind_ok _ _ _ _ _ Hr). split; [exact Hrest|].
    rewrite Hc, Hc1. now rewrite <- app_assoc.
Qed.

(** The report loop, which has its own [try], attempts every due report
    whatever the generator does. *)
Lemma generate_scheduled_reports_task_attempts_all (clock : nat -> datetime)
    (gen : AutomatedReport -> Db -> result ReportExecution * Db) (w : World) :
  calls (snd (generate_scheduled_reports_task clock gen w))
  = calls w
    ++ map call_generate_report
           (List.filter (is_due (clock (ticks w))) (reports (db w))).
Proof.
  unfold generate_scheduled_reports_task, try_except.
  unfold bind at 1. unfold timezone_now at 1.
  unfold bind at 1. unfold get_db at 1. cbn [db ticks logged calls].
  destruct (report_loop_attempts_all clock gen (clock (ticks w))
              (List.filter (is_due (clock (ticks w))) (reports (db w))) 0%Z
              (mk_World (db w) (S (ticks w)) (logged w) (calls w)))
    as (n' & w' & Hloop & Hc).
  rewrite (bind_ok _ _ _ _ _ Hloop).
  unfold bind, logger, ret. cbn. exact Hc.
Qed.

(** C3 on a failing input: two pending anomalies of the last five
    minutes and a webhook service whose delivery of the first raises. The
    anomaly loop has no [try] of its own: the exception leaves the loop,
    the second anomaly is never attempted and the task-level handler logs
    the failure. The report loop on two due reports, with a generator that
    fails on the first, still attempts the second. *)
Theorem anomaly_loop_aborts_on_first_failure :
  let w' := snd (trigger_webhooks_task (frozen_clock epoch) failing_service
                                       (world_of anomaly_db)) in
  List.filter (is_recent_pending (mk_datetime 2025 6 15 11 55 0 0))
              (anomalies anomaly_db) = [anomaly1; anomaly2]
  /\ calls w' = [call_send_anomaly_alert anomaly1]
  /\ deliveries 2 (calls w') = 0%nat
  /\ logged w'
     = [log_error "Webhook task failed: {}"
                  [arg_exn (ExternalError "connection refused")]]
  /\ calls (snd (generate_scheduled_reports_task (frozen_clock epoch)
                   failing_generator (world_of report_db)))
     = [call_generate_report report1; call_generate_report report2].
Proof. repeat split; reflexivity. Qed.
(** ** The behaviour-profile engine *)

Lemma load_global_unbound (name : string) (w : World) :
  global_bound name = false -> load_global name w = (Raise (NameError name), w).
Proof. unfold load_global. now intros ->. Qed.

Section ProfileEngine.

Variable clock : nat -> datetime.

(** One iteration of the address loop: [get_or_create] reads the clock
    twice and inserts the row of the address when there is none; then the
    name [models] cannot be loaded and the iteration raises. *)
Lemma update_profile_aborts (n : Z) (a : string) (w : World) :
  update_profile clock n a w
  = (Raise (NameError "models"),
     mk_World
       (match profiles (db w) !! a with
        | Some _ => db w
        | None =>
            set_profiles (db w)
              (<[a := default_profile a (clock (ticks w)) (clock (S (ticks w)))]>
                 (profiles (db w)))
        end)
       (S (S (ticks w))) (logged w) (calls w)).
Proof.
  unfold update_profile.
  unfold bind at 1. unfold timezone_now at 1.
  unfold bind at 1. unfold timezone_now at 1.
  unfold bind at 1. unfold get_or_create, bind at 1, get_db at 1.
  cbn [db ticks logged calls].
  destruct (profiles (db w) !! a) as [p|]; reflexivity.
Qed.

(** The loop has no [try] of its own: it ends in its first iteration. *)
Lemma address_loop_aborts (a : string) (rest : list string) (n : Z) (w : World) :
  for_each (a :: rest) n (update_profile clock) w = update_profile clock n a w.
Proof.
  cbn [for_each]. unfold bind at 1. now rewrite update_profile_aborts.
Qed.

(** A run of the task when the start of the window can be computed. *)
Lemma update_task_run (w : World) (start_time : datetime) :
  dt_sub (clock (ticks w)) (timedelta_days 7) = Some start_time ->
  update_user_behavior_profiles_task clock w
  = match processed_addresses (clock (ticks w)) (db w) with
    | [] =>
        (Ok (task_success [("profiles_updated", 0%Z)]),
         mk_World (db w) (S (ticks w))
                  (logged w ++ [log_info "Updated {} user behavior profiles."
                                         [arg_int 0]])
                  (calls w))
    | a :: _ =>
        (Ok (task_error (NameError "models")),
         mk_World
           (match profiles (db w) !! a with
            | Some _ => db w
            | None =>
                set_profiles (db w)
                  (<[a := default_profile a (clock (S (ticks w)))
                                          (clock (S (S (ticks w))))]>
                     (profiles (db w)))
            end)
           (S (S (S (ticks w))))
           (logged w ++ [log_error "User behavior profile update task failed: {}"
                                   [arg_exn (NameError "models")]])
           (calls w))
    end.
Proof.
  intros Hstart.
  unfold update_user_behavior_profiles_task, try_except, processed_addresses.
  unfold bind at 1. unfold timezone_now at 1.
  unfold bind at 1. rewrite Hstart.
  unfold of_option, ret at 1. unfold bind at 1, get_db at 1.
  cbn [db ticks logged calls].
  destruct (elements _) as [|a rest].
  - reflexivity.
  - unfold bind at 1. rewrite address_loop_aborts, update_profile_aborts.
    cbn [db ticks logged calls]. reflexivity.
Qed.

End ProfileEngine.

(** C1 on a failing input: two wallets with twelve trades of 10 each
    within one day on two collections, both with a profile of an earlier
    computation whose risk score is 0. Lines 142-192 give for either
    wallet a frequency of 12, a volume of 120, two preferred collections,
    twelve transactions and the clamped sum 0.3 + 0.2 + 0.3 = 0.8; the
    task never gets there: loading [models] at line 137 raises
    [NameError] for the first address, the task returns the error and
    every table is as before, so the stored risk score of either wallet
    is still 0. *)
Theorem risk_score_never_stored :
  let run := update_user_behavior_profiles_task (frozen_clock epoch)
               (world_of profiled_trade_db) in
  processed_addresses epoch profiled_trade_db = ["0xA1"; "0xB2"]
  /\ fst run = Ok (task_error (NameError "models"))
  /\ db (snd run) = profiled_trade_db
  /\ spec_risk_score 12 120 2 12 = 0.8%float
  /\ forall a : string,
       In a (processed_addresses epoch profiled_trade_db) ->
       compute_metrics (transactions_of a profiled_trade_db)
       = Ok (mk_metrics 10 12 12 120 ["0xC0FFEE"; "0xBEEF"] 0.8
                        (Some (trade 11 "0xBEEF")))
       /\ (exists p : UserBehaviorProfile,
             profiles (db (snd run)) !! a = Some p
             /\ risk_score p = 0%float
             /\ PrimFloat.eqb (risk_score p) 0.8 = false).
Proof.
  cbv zeta. do 4 (split; [vm_compute; reflexivity|]).
  intros a Ha.
  assert (Hp : processed_addresses epoch profiled_trade_db = ["0xA1"; "0xB2"])
    by (vm_compute; reflexivity).
  rewrite Hp in Ha. cbn [In] in Ha. destruct Ha as [<-|[<-|[]]].
  - split; [vm_compute; reflexivity|]. exists (stale_profile "0xA1").
    split; [|split]; vm_compute; reflexivity.
  - split; [vm_compute; reflexivity|]. exists (stale_profile "0xB2").
    split; [|split]; vm_compute; reflexivity.
Qed.



(** ** The order of datetimes *)

Lemma cmp_fields_le_trans (a b c : list Z) :
  cmp_fields a b <> Gt -> cmp_fields b c <> Gt -> cmp_fields a c <> Gt.
Proof.
  revert b c. induction a as [|x a IH]; intros [|y b] [|z c]; simpl; try congruence.
  destruct (Z.compare_spec x y) as [->|Hxy|Hxy]; try congruence.
  - destruct (Z.compare_spec y z) as [->|Hyz|Hyz]; try congruence. apply IH.
  - destruct (Z.compare_spec y z) as [->|Hyz|Hyz]; try congruence.
    + intros _ _. destruct (Z.compare_spec x z); try congruence; lia.
    + intros _ _. destruct (Z.compare_spec x z); try congruence; lia.
Qed.

Lemma dt_leb_trans (a b c : datetime) :
  dt_leb a b = true -> dt_leb b c = true -> dt_leb a c = true.
Proof.
  unfold dt_leb, dt_cmp. intros Hab Hbc.
  pose proof (cmp_fields_le_trans (dt_fields a) (dt_fields b) (dt_fields c)) as H.
  destruct (cmp_fields (dt_fields a) (dt_fields b)); try discriminate;
    destruct (cmp_fields (dt_fields b) (dt_fields c)); try discriminate;
    destruct (cmp_fields (dt_fields a) (dt_fields c)); try reflexivity;
    exfalso; apply H; congruence.
Qed.

Lemma dt_leb_false_of_ltb (a b : datetime) :
  dt_ltb a b = true -> dt_leb b a = false.
Proof.
  intros H. change (dt_leb b a) with (dt_geb a b).
  rewrite dt_geb_not_ltb, H. reflexivity.
Qed.

Lemma dt_leb_of_ltb (a b : datetime) : dt_ltb a b = true -> dt_leb a b = true.
Proof. unfold dt_ltb, dt_leb. now destruct (dt_cmp a b). Qed.

Lemma dt_leb_of_not_ltb (a b : datetime) : dt_ltb a b = false -> dt_leb b a = true.
Proof.
  intros H. change (dt_leb b a) with (dt_geb a b).
  rewrite dt_geb_not_ltb, H. reflexivity.
Qed.

(** ** Dates and ordinals convert back and forth *)

Module CalendarOrderFacts.
Local Open Scope Z_scope.

Lemma all_from_spec (f : Z -> bool) (n : nat) (start : Z) :
  all_from f n start = true ->
  forall i : Z, start <= i < start + Z.of_nat n -> f i = true.
Proof.
  revert start. induction n as [|n IH]; intros start H i Hi; [lia|].
  simpl in H. apply andb_prop in H as [Hs Hrest].
  destruct (Z.eq_dec i start) as [->|Hne]; [exact Hs|].
  apply (IH (start + 1) Hrest). lia.
Qed.

Lemma ordinal_round_trip_first_cycle :
  all_from ordinal_round_trip_ok (Z.to_nat 146097) 1 = true.
Proof. vm_compute. reflexivity. Qed.

Lemma days_in_month_period (y m k : Z) :
  _days_in_month (y + 400 * k) m = _days_in_month y m.
Proof. unfold _days_in_month. now rewrite is_leap_period. Qed.

(** Every ordinal from 1 on is the ordinal of the date it converts to,
    and that date has a month and a day that exist. *)
Lemma ord2ymd_spec (n : Z) :
  1 <= n ->
  exists y m d : Z,
    _ord2ymd n = (y, m, d)
    /\ 1 <= y /\ 1 <= m <= 12 /\ 1 <= d <= _days_in_month y m
    /\ _ymd2ord y m d = n.
Proof.
  intros Hn.
  set (k := (n - 1) / 146097). set (n0 := (n - 1) mod 146097 + 1).
  assert (Hk : 0 <= k) by (subst k; div_lia).
  assert (Hn0 : 1 <= n0 <= 146097) by (subst n0; div_lia).
  assert (Hsplit : n = n0 + _DI400Y * k) by (subst n0 k; unfold _DI400Y; div_lia).
  pose proof (all_from_spec _ _ _ ordinal_round_trip_first_cycle n0) as Hok.
  rewrite Z2Nat.id in Hok by lia. specialize (Hok ltac:(lia)).
  unfold ordinal_round_trip_ok in Hok.
  rewrite Hsplit, ord2ymd_period.
  destruct (_ord2ymd n0) as [[y m] d]. cbn [shift_year].
  repeat (apply andb_prop in Hok; destruct Hok as [Hok ?]).
  exists (y + 400 * k), m, d.
  rewrite days_in_month_period, ymd2ord_period.
  repeat split; lia.
Qed.

Lemma days_before_year_succ (y : Z) :
  _days_before_year (y + 1)
  = _days_before_year y + 365 + (if _is_leap y then 1 else 0).
Proof.
  unfold _days_before_year, _is_leap.
  repeat match goal with
         | |- context [?a =? ?b] => destruct (Z.eqb_spec a b)
         end; cbn [andb orb negb]; div_lia.
Qed.

Lemma days_before_year_mono (y1 y2 : Z) :
  y1 <= y2 -> _days_before_year y1 <= _days_before_year y2.
Proof. unfold _days_before_year. intros H. div_lia. Qed.

(** The days of a year before the end of a month. *)
Lemma days_through_month (y m : Z) :
  1 <= m <= 12 ->
  0 <= _days_before_month y m
  /\ 28 <= _days_in_month y m <= 31
  /\ _days_before_month y m + _days_in_month y m
     = (if m =? 12 then 365 + (if _is_leap y then 1 else 0)
        else _days_before_month y (m + 1)).
Proof.
  intros Hm. unfold _days_before_month, _days_in_month.
  month_cases m; destruct (_is_leap y); vm_compute; repeat split; congruence.
Qed.

Lemma days_before_month_mono (y m1 m2 : Z) :
  1 <= m1 -> m1 < m2 -> m2 <= 12 ->
  _days_before_month y m1 + _days_in_month y m1 <= _days_before_month y m2.
Proof.
  intros H1 Hlt H2. unfold _days_before_month, _days_in_month.
  month_cases m1; month_cases m2; try lia;
    destruct (_is_leap y); vm_compute; congruence.
Qed.

Lemma days_within_year (y m : Z) :
  1 <= m <= 12 ->
  _days_before_month y m + _days_in_month y m
  <= 365 + (if _is_leap y then 1 else 0).
Proof.
  intros Hm. unfold _days_before_month, _days_in_month.
  month_cases m; destruct (_is_leap y); vm_compute; congruence.
Qed.

(** Ordinals order dates as the triples (year, month, day) do. *)
Lemma ymd2ord_compare (y1 m1 d1 y2 m2 d2 : Z) :
  1 <= m1 <= 12 -> 1 <= d1 <= _days_in_month y1 m1 ->
  1 <= m2 <= 12 -> 1 <= d2 <= _days_in_month y2 m2 ->
  (_ymd2ord y1 m1 d1 ?= _ymd2ord y2 m2 d2) = cmp_fields [y1; m1; d1] [y2; m2; d2].
Proof.
  intros Hm1 Hd1 Hm2 Hd2.
  destruct (days_through_month y1 m1 Hm1) as (Hb1 & _ & He1).
  destruct (days_through_month y2 m2 Hm2) as (Hb2 & _ & He2).
  pose proof (days_within_year y1 m1 Hm1) as Hyear1.
  pose proof (days_within_year y2 m2 Hm2) as Hyear2.
  unfold _ymd2ord. cbn [cmp_fields].
  destruct (Z.compare_spec y1 y2) as [->|Hy|Hy].
  - destruct (Z.compare_spec m1 m2) as [->|Hm|Hm].
    + destruct (Z.compare_spec d1 d2) as [->|Hd|Hd].
      * apply Z.compare_refl.
      * apply Z.compare_lt_iff. lia.
      * apply Z.compare_gt_iff. lia.
    + apply Z.compare_lt_iff.
      pose proof (days_before_month_mono y2 m1 m2 ltac:(lia) Hm ltac:(lia)). lia.
    + apply Z.compare_gt_iff.
      pose proof (days_before_month_mono y2 m2 m1 ltac:(lia) Hm ltac:(lia)). lia.
  - apply Z.compare_lt_iff.
    pose proof (days_before_year_succ y1).
    pose proof (days_before_year_mono (y1 + 1) y2 ltac:(lia)). lia.
  - apply Z.compare_gt_iff.
    pose proof (days_before_year_succ y2).
    pose proof (days_before_year_mono (y2 + 1) y1 ltac:(lia)). lia.
Qed.

End CalendarOrderFacts.

(** ** Datetimes are ordered and moved as points of a time line *)

Module DatetimeFacts.
Import CalendarOrderFacts.
Local Open Scope Z_scope.

Lemma as_timedelta_split (t : datetime) :
  as_timedelta t = toordinal t * US_PER_DAY + time_of_day t.
Proof. unfold as_timedelta, time_of_day. lia. Qed.

Lemma time_of_day_range (t : datetime) :
  valid_time t -> 0 <= time_of_day t < US_PER_DAY.
Proof.
  intros (Hh & Hm & Hs & Hu).
  unfold time_of_day, seconds_of_day, US_PER_DAY, US_PER_SECOND. lia.
Qed.

Lemma dt_diff_linear (a b : datetime) :
  dt_diff a b = as_timedelta a - as_timedelta b.
Proof. unfold dt_diff, as_timedelta. lia. Qed.

Lemma time_of_day_compare (a b : datetime) :
  valid_time a -> valid_time b ->
  (time_of_day a ?= time_of_day b)
  = cmp_fields [hour a; minute a; second a; microsecond a]
               [hour b; minute b; second b; microsecond b].
Proof.
  intros (Hh & Hm & Hs & Hu) (Hh' & Hm' & Hs' & Hu').
  unfold time_of_day, seconds_of_day, US_PER_SECOND. cbn [cmp_fields].
  destruct (Z.compare_spec (hour a) (hour b)) as [Eh|Lh|Lh];
    [destruct (Z.compare_spec (minute a) (minute b)) as [Em|Lm|Lm];
     [destruct (Z.compare_spec (second a) (second b)) as [Es|Ls|Ls];
      [destruct (Z.compare_spec (microsecond a) (microsecond b)) as [Eu|Lu|Lu]
      | | ] | | ] | | ];
    first [ apply Z.compare_eq_iff; lia
          | apply Z.compare_lt_iff; lia
          | apply Z.compare_gt_iff; lia ].
Qed.

Lemma compare_day_then_time (oa ob ta tb : Z) :
  0 <= ta < US_PER_DAY -> 0 <= tb < US_PER_DAY ->
  (oa * US_PER_DAY + ta ?= ob * US_PER_DAY + tb)
  = match oa ?= ob with Eq => ta ?= tb | c => c end.
Proof.
  unfold US_PER_DAY, US_PER_SECOND. intros Ha Hb.
  destruct (Z.compare_spec oa ob) as [->|Hlt|Hgt].
  - destruct (Z.compare_spec ta tb);
      first [ apply Z.compare_eq_iff; lia
            | apply Z.compare_lt_iff; lia
            | apply Z.compare_gt_iff; lia ].
  - apply Z.compare_lt_iff. lia.
  - apply Z.compare_gt_iff. lia.
Qed.

Lemma cmp_fields_date_time (y m d y' m' d' : Z) (ta tb : list Z) :
  cmp_fields (y :: m :: d :: ta) (y' :: m' :: d' :: tb)
  = match cmp_fields [y; m; d] [y'; m'; d'] with
    | Eq => cmp_fields ta tb
    | c => c
    end.
Proof.
  cbn [cmp_fields].
  destruct (y ?= y'); [|reflexivity..].
  destruct (m ?= m'); [|reflexivity..].
  destruct (d ?= d'); reflexivity.
Qed.

(** Comparing two datetimes field by field is comparing their positions
    on the time line. *)
Lemma dt_cmp_linear (a b : datetime) :
  valid_datetime a -> valid_datetime b ->
  dt_cmp a b = (as_timedelta a ?= as_timedelta b).
Proof.
  intros [(Hy & Hm & Hd) Ht] [(Hy' & Hm' & Hd') Ht'].
  rewrite !as_timedelta_split.
  rewrite (compare_day_then_time _ _ _ _ (time_of_day_range a Ht)
                                 (time_of_day_range b Ht')).
  unfold toordinal.
  rewrite (ymd2ord_compare _ _ _ _ _ _ Hm Hd Hm' Hd').
  rewrite (time_of_day_compare a b Ht Ht').
  unfold dt_cmp, dt_fields. apply cmp_fields_date_time.
Qed.

Lemma dt_ltb_linear (a b : datetime) :
  valid_datetime a -> valid_datetime b ->
  dt_ltb a b = (as_timedelta a <? as_timedelta b).
Proof.
  intros Ha Hb. unfold dt_ltb, Z.ltb. now rewrite (dt_cmp_linear a b Ha Hb).
Qed.

Lemma dt_leb_linear (a b : datetime) :
  valid_datetime a -> valid_datetime b ->
  dt_leb a b = (as_timedelta a <=? as_timedelta b).
Proof.
  intros Ha Hb. unfold dt_leb, Z.leb. now rewrite (dt_cmp_linear a b Ha Hb).
Qed.

Lemma year_of_ordinal_in_range (y m d : Z) :
  1 <= m <= 12 -> 1 <= d -> _ymd2ord y m d <= _MAXORDINAL -> y <= 9999.
Proof.
  intros Hm Hd Hmax.
  destruct (days_through_month y m Hm) as (Hb & _ & _).
  destruct (Z_le_gt_dec y 9999) as [Hle|Hgt]; [exact Hle|].
  pose proof (days_before_year_mono 10000 y ltac:(lia)) as Hmono.
  change (_days_before_year 10000) with 3652059 in Hmono.
  unfold _ymd2ord, _MAXORDINAL in Hmax. lia.
Qed.

(** [t + td] lands where the time line says, and exists exactly when that
    point lies within the years 1 to 9999. *)
Lemma dt_add_spec (t : datetime) (td : timedelta) :
  valid_time t ->
  (US_PER_DAY <= as_timedelta t + td < (_MAXORDINAL + 1) * US_PER_DAY ->
   exists t' : datetime,
     dt_add t td = Some t' /\ valid_datetime t'
     /\ as_timedelta t' = as_timedelta t + td)
  /\ (~ (US_PER_DAY <= as_timedelta t + td < (_MAXORDINAL + 1) * US_PER_DAY) ->
      dt_add t td = None).
Proof.
  intros Ht. unfold dt_add.
  set (delta := as_timedelta t + td).
  assert (Hdays : (0 <? delta / US_PER_DAY) && (delta / US_PER_DAY <=? _MAXORDINAL) = true
                  <-> US_PER_DAY <= delta < (_MAXORDINAL + 1) * US_PER_DAY).
  { rewrite andb_true_iff, Z.ltb_lt, Z.leb_le.
    unfold US_PER_DAY, US_PER_SECOND, _MAXORDINAL. div_lia. }
  split.
  - intros Hrange. apply Hdays in Hrange as Hb. rewrite Hb.
    apply andb_prop in Hb as [Hpos Hmax]. apply Z.ltb_lt in Hpos. apply Z.leb_le in Hmax.
    destruct (ord2ymd_spec (delta / US_PER_DAY) ltac:(lia))
      as (y & m & d & -> & Hy & Hm & Hd & Hord).
    eexists. split; [reflexivity|].
    assert (Hy' : y <= 9999)
      by (apply (year_of_ordinal_in_range y m d); lia).
    split; [split|].
    + cbn [year month day]. unfold valid_date. lia.
    + unfold valid_time. cbn [hour minute second microsecond].
      unfold US_PER_DAY, US_PER_SECOND. div_lia.
    + rewrite as_timedelta_split. unfold toordinal, time_of_day, seconds_of_day.
      cbn [year month day hour minute second microsecond]. rewrite Hord.
      unfold US_PER_DAY, US_PER_SECOND. div_lia.
  - intros Hout.
    assert (Hf : (0 <? delta / US_PER_DAY) && (delta / US_PER_DAY <=? _MAXORDINAL)
                 = false).
    { apply not_true_iff_false. intros Hb. apply Hout, Hdays, Hb. }
    now rewrite Hf.
Qed.

Lemma valid_datetime_ordinal (t : datetime) :
  valid_datetime t -> 1 <= toordinal t <= _MAXORDINAL.
Proof.
  intros [(Hy & Hm & Hd) _]. unfold toordinal.
  destruct (days_through_month (year t) (month t) Hm) as (_ & Hdim & _).
  pose proof (ymd2ord_range (year t) (month t) (day t) Hy Hm ltac:(lia) ltac:(lia)).
  lia.
Qed.

End DatetimeFacts.

(** ** More on the scheduling of automated reports *)

Import CalendarOrderFacts DatetimeFacts.

(** Adding whole days to a valid datetime. *)
Lemma dt_add_whole_days (last : datetime) (days : Z) :
  valid_datetime last -> (0 < days)%Z ->
  ((toordinal last + days <= _MAXORDINAL)%Z ->
   exists t : datetime,
     dt_add last (timedelta_days days) = Some t
     /\ valid_datetime t
     /\ dt_diff t last = timedelta_days days
     /\ dt_ltb last t = true)
  /\ ((toordinal last + days > _MAXORDINAL)%Z ->
      dt_add last (timedelta_days days) = None).
Proof.
  intros Hv Hdays.
  pose proof (valid_datetime_ordinal last Hv) as Hord.
  destruct Hv as [Hdate Htime].
  pose proof (time_of_day_range last Htime) as Htod.
  destruct (dt_add_spec last (timedelta_days days) Htime) as [Hin Hout].
  assert (Hpos : (as_timedelta last + timedelta_days days
                  = (toordinal last + days) * US_PER_DAY + time_of_day last)%Z)
    by (rewrite as_timedelta_split; unfold timedelta_days; lia).
  split.
  - intros Hmax.
    destruct Hin as (t & Hadd & Hvt & Hat).
    { rewrite Hpos. unfold US_PER_DAY, US_PER_SECOND in *. lia. }
    exists t. split; [exact Hadd|]. split; [exact Hvt|].
    split; [rewrite dt_diff_linear; lia|].
    rewrite (dt_ltb_linear last t (conj Hdate Htime) Hvt).
    apply Z.ltb_lt. rewrite Hat. unfold timedelta_days, US_PER_DAY, US_PER_SECOND. lia.
  - intros Hmax. apply Hout.
    rewrite Hpos. unfold US_PER_DAY, US_PER_SECOND in *. lia.
Qed.

(** X1: the ['daily'] and ['weekly'] branches move [next_run] exactly one
    day, respectively seven days, after [last_run]: the result is a valid
    datetime strictly later than [last_run]; when that point lies beyond
    31 December 9999 the method raises [OverflowError]. *)
Theorem calculate_next_run_fixed_interval (clock : nat -> datetime)
    (self : AutomatedReport) (last : datetime) (w : World) (days : Z) :
  last_run self = Some last ->
  valid_datetime last ->
  (frequency self = "daily" /\ days = 1%Z)
  \/ (frequency self = "weekly" /\ days = 7%Z) ->
  ((toordinal last + days <= _MAXORDINAL)%Z ->
   exists t : datetime,
     calculate_next_run clock self w = (Ok (set_next_run self t), w)
     /\ valid_datetime t
     /\ dt_diff t last = timedelta_days days
     /\ dt_ltb last t = true)
  /\ ((toordinal last + days > _MAXORDINAL)%Z ->
      calculate_next_run clock self w = (Raise OverflowError, w)).
Proof.
  intros Hl Hv Hfreq.
  assert (Hrun : calculate_next_run clock self w
                 = bind (of_option OverflowError (dt_add last (timedelta_days days)))
                        (fun t => ret (set_next_run self t)) w).
  { unfold calculate_next_run. rewrite Hl.
    destruct Hfreq as [[-> ->]|[-> ->]]; reflexivity. }
  assert (Hdays : (0 < days)%Z) by (destruct Hfreq as [[_ ->]|[_ ->]]; lia).
  destruct (dt_add_whole_days last days Hv Hdays) as [Hin Hout].
  split.
  - intros Hmax. destruct (Hin Hmax) as (t & Hadd & Hrest).
    exists t. rewrite Hrun. unfold bind, of_option. rewrite Hadd.
    split; [reflexivity | exact Hrest].
  - intros Hmax. rewrite Hrun. unfold bind, of_option. now rewrite (Hout Hmax).
Qed.

Lemma calculate_next_run_fixed_interval_witness :
  exists t : datetime,
    calculate_next_run (frozen_clock epoch) report1 empty_world
    = (Ok (set_next_run report1 t), empty_world)
    /\ dt_diff t jan31 = timedelta_days 1
    /\ dt_ltb jan31 t = true.
Proof.
  assert (Hv : valid_datetime jan31)
    by (unfold valid_datetime, valid_date, valid_time; vm_compute; intuition congruence).
  destruct (calculate_next_run_fixed_interval (frozen_clock epoch) report1 jan31
              empty_world 1 eq_refl Hv (or_introl (conj eq_refl eq_refl)))
    as [Hin _].
  destruct Hin as (t & Hrun & _ & Hdiff & Hlt); [vm_compute; congruence|].
  exists t. auto.
Defined.

Lemma first_of_next_month_gap (y m d : Z) :
  (1 <= m <= 12)%Z ->
  let '(y', m', d') := first_of_next_month y m in
  (_ymd2ord y' m' d' - _ymd2ord y m d = _days_in_month y m - d + 1)%Z.
Proof.
  intros Hm. unfold first_of_next_month.
  destruct (days_through_month y m Hm) as (_ & _ & He).
  destruct (m =? 12)%Z eqn:E12.
  - unfold _ymd2ord. rewrite days_before_year_succ.
    change (_days_before_month (y + 1) 1) with 0%Z. lia.
  - unfold _ymd2ord. lia.
Qed.

(** The monthly branch on a valid datetime before December 9999. *)
Lemma monthly_next_run_gap (last : datetime) :
  valid_datetime last ->
  ~ (year last = 9999 /\ month last = 12)%Z ->
  exists t : datetime,
    monthly_next_run last = Some t
    /\ valid_datetime t
    /\ dt_diff t last
       = timedelta_days (_days_in_month (year last) (month last) - day last + 1)
    /\ (1 <= td_days (dt_diff t last) <= 31)%Z
    /\ dt_ltb last t = true.
Proof.
  intros Hv Hmax.
  destruct Hv as [(Hy & Hm & Hd) Ht].
  assert (Hrun : monthly_next_run last
                 = Some (with_date (first_of_next_month (year last) (month last))
                                   last)).
  { rewrite (monthly_next_run_spec last Ht Hy Hm).
    replace ((year last =? 9999)%Z && (month last =? 12)%Z) with false
      by (symmetry; apply andb_false_iff; lia).
    reflexivity. }
  pose proof (first_of_next_month_gap (year last) (month last) (day last) Hm) as Hgap.
  destruct (days_through_month (year last) (month last) Hm) as (_ & Hdim & _).
  set (t := with_date (first_of_next_month (year last) (month last)) last) in *.
  assert (Hvt : valid_datetime t).
  { subst t. unfold first_of_next_month, with_date.
    destruct (month last =? 12)%Z eqn:E12; (split; [|exact Ht]);
      cbn [year month day]; unfold valid_date.
    - change (_days_in_month (year last + 1) 1) with 31%Z. lia.
    - destruct (days_through_month (year last) (month last + 1) ltac:(lia))
        as (_ & ? & _). lia. }
  assert (Hdiff : dt_diff t last
                  = timedelta_days (_days_in_month (year last) (month last)
                                    - day last + 1)).
  { subst t. unfold dt_diff, toordinal, seconds_of_day, timedelta_days.
    destruct (first_of_next_month (year last) (month last)) as [[y' m'] d'].
    cbn [with_date year month day hour minute second microsecond].
    rewrite Hgap. lia. }
  exists t. split; [exact Hrun|]. split; [exact Hvt|]. split; [exact Hdiff|].
  split.
  - rewrite Hdiff. unfold td_days, timedelta_days.
    rewrite Z.div_mul by (unfold US_PER_DAY, US_PER_SECOND; lia). lia.
  - rewrite (dt_ltb_linear last t (conj (conj Hy (conj Hm Hd)) Ht) Hvt).
    apply Z.ltb_lt. rewrite dt_diff_linear in Hdiff.
    unfold timedelta_days, US_PER_DAY, US_PER_SECOND in Hdiff. lia.
Qed.

(** X2: a monthly report's [next_run] is strictly later than [last_run],
    by the number of days left in [last_run]'s month plus one: between one
    day (when [last_run] falls on the last day of its month) and 31 days. *)
Theorem calculate_next_run_monthly_gap (clock : nat -> datetime)
    (self : AutomatedReport) (last : datetime) (w : World) :
  frequency self = "monthly" ->
  last_run self = Some last ->
  valid_datetime last ->
  ~ (year last = 9999 /\ month last = 12)%Z ->
  exists t : datetime,
    calculate_next_run clock self w = (Ok (set_next_run self t), w)
    /\ valid_datetime t
    /\ dt_diff t last
       = timedelta_days (_days_in_month (year last) (month last) - day last + 1)
    /\ (1 <= td_days (dt_diff t last) <= 31)%Z
    /\ dt_ltb last t = true.
Proof.
  intros Hf Hl Hv Hmax.
  destruct (monthly_next_run_gap last Hv Hmax) as (t & Hrun & Hrest).
  exists t. split; [|exact Hrest].
  unfold calculate_next_run. rewrite Hl, Hf.
  change (String.eqb "monthly" "daily") with false.
  change (String.eqb "monthly" "weekly") with false.
  change (String.eqb "monthly" "monthly") with true. cbn iota.
  unfold bind, of_option. now rewrite Hrun.
Qed.

Lemma calculate_next_run_monthly_gap_witness :
  exists t : datetime,
    calculate_next_run (frozen_clock epoch) monthly_report empty_world
    = (Ok (set_next_run monthly_report t), empty_world)
    /\ dt_diff t jan31 = timedelta_days 1.
Proof.
  assert (Hv : valid_datetime jan31)
    by (unfold valid_datetime, valid_date, valid_time; vm_compute; intuition congruence).
  destruct (calculate_next_run_monthly_gap (frozen_clock epoch) monthly_report jan31
              empty_world eq_refl eq_refl Hv)
    as (t & Hrun & _ & Hdiff & _); [vm_compute; intuition congruence|].
  exists t. split; [exact Hrun | exact Hdiff].
Defined.

Import CalendarOrderFacts DatetimeFacts.

(** After [report.save()] the saved report is a row of the table. *)
Lemma save_report_stores (r : AutomatedReport) (w : World) :
  exists w' : World,
    save_report r w = (Ok tt, w')
    /\ In r (reports (db w'))
    /\ calls w' = calls w /\ logged w' = logged w /\ ticks w' = ticks w.
Proof.
  unfold save_report, bind, get_db, put_db. cbn [db ticks logged calls].
  eexists. split; [reflexivity|]. cbn [db reports set_reports calls logged ticks].
  split; [|auto].
  destruct (existsb _ (reports (db w))) eqn:Hex.
  - apply existsb_exists in Hex. destruct Hex as (r0 & Hin & Hid).
    apply in_map_iff. exists r0. split; [now rewrite Hid | exact Hin].
  - apply in_or_app. right. now left.
Qed.

(** X3: a report whose frequency is none of ['daily'], ['weekly'] and
    ['monthly'] is generated and saved with its [next_run] unchanged: once
    due it stays due at every later time, so every later run of
    [generate_scheduled_reports_task] generates it again. *)
Theorem unknown_frequency_stays_due (clock : nat -> datetime)
    (gen : AutomatedReport -> Db -> result ReportExecution * Db)
    (now : datetime) (n : Z) (r : AutomatedReport) (w : World)
    (ex : ReportExecution) (d : Db) :
  frequency r <> "daily" -> frequency r <> "weekly" -> frequency r <> "monthly" ->
  is_due now r = true ->
  gen r (db w) = (Ok ex, d) ->
  exists w' : World,
    generate_due_report clock gen now n r w = (Ok (n + 1)%Z, w')
    /\ In (set_last_run r now) (reports (db w'))
    /\ next_run (set_last_run r now) = next_run r
    /\ (forall later : datetime,
          dt_leb now later = true ->
          In (set_last_run r now) (List.filter (is_due later) (reports (db w')))).
Proof.
  intros Hd Hw Hm Hdue Hgen.
  apply String.eqb_neq in Hd, Hw, Hm.
  unfold generate_due_report, try_except.
  unfold bind at 1. unfold record_call at 1.
  unfold bind at 1. unfold external at 1. cbn [db ticks logged calls].
  rewrite Hgen.
  unfold bind at 1.
  assert (Hcalc : forall w0, calculate_next_run clock (set_last_run r now) w0
                             = (Ok (set_last_run r now), w0)).
  { intros w0. unfold calculate_next_run. cbn [last_run set_last_run frequency].
    now rewrite Hd, Hw, Hm. }
  rewrite Hcalc.
  unfold bind at 1.
  destruct (save_report_stores (set_last_run r now)
              (mk_World d (ticks w) (logged w) (calls w ++ [call_generate_report r])))
    as (w1 & Hsave & Hin & _).
  rewrite Hsave.
  unfold bind, logger, ret. cbn [db ticks logged calls].
  eexists. split; [reflexivity|]. cbn [db].
  split; [exact Hin|]. split; [reflexivity|].
  intros later Hlater. apply filter_In. split; [exact Hin|].
  unfold is_due in *. cbn [is_active next_run set_last_run].
  apply andb_prop in Hdue as [Hact Hnext]. rewrite Hact. cbn [andb].
  exact (dt_leb_trans _ _ _ Hnext Hlater).
Qed.

Lemma unknown_frequency_stays_due_witness :
  exists w' : World,
    generate_due_report (frozen_clock epoch) working_generator epoch 0 odd_report
                        (world_of odd_report_db) = (Ok 1%Z, w')
    /\ In (set_last_run odd_report epoch)
          (List.filter (is_due epoch) (reports (db w'))).
Proof.
  destruct (unknown_frequency_stays_due (frozen_clock epoch) working_generator
              epoch 0 odd_report (world_of odd_report_db)
              (mk_ReportExecution 100 9 "completed") odd_report_db)
    as (w' & Hrun & _ & _ & Hlater); try (vm_compute; congruence); try reflexivity.
  exists w'. split; [exact Hrun|]. apply Hlater. reflexivity.
Defined.

(** X4: a due report with one of the three frequencies, generated at a
    valid time [now] before the year 9999, is saved with
    [last_run = now] and a [next_run] strictly later than [now]: it is no
    longer due at [now]. *)
Theorem generated_report_not_due_again (clock : nat -> datetime)
    (gen : AutomatedReport -> Db -> result ReportExecution * Db)
    (now : datetime) (n : Z) (r : AutomatedReport) (w : World)
    (ex : ReportExecution) (d : Db) :
  frequency r = "daily" \/ frequency r = "weekly" \/ frequency r = "monthly" ->
  valid_datetime now -> (year now < 9999)%Z ->
  gen r (db w) = (Ok ex, d) ->
  exists (w' : World) (r' : AutomatedReport),
    generate_due_report clock gen now n r w = (Ok (n + 1)%Z, w')
    /\ In r' (reports (db w'))
    /\ report_id r' = report_id r
    /\ last_run r' = Some now
    /\ dt_ltb now (next_run r') = true
    /\ is_due now r' = false.
Proof.
  intros Hfreq Hv Hyear Hgen.
  assert (Hcalc : exists t : datetime,
             (forall w0, calculate_next_run clock (set_last_run r now) w0
                         = (Ok (set_next_run (set_last_run r now) t), w0))
             /\ dt_ltb now t = true).
  { pose proof (valid_datetime_ordinal now Hv) as Hord.
    assert (Hroom : (toordinal now + 7 <= _MAXORDINAL)%Z).
    { destruct Hv as [(Hy & Hm & Hd) _].
      destruct (days_through_month (year now) (month now) Hm) as (_ & Hdim & _).
      pose proof (days_within_year (year now) (month now) Hm) as Hwithin.
      pose proof (days_before_year_succ (year now)) as Hsucc.
      pose proof (days_before_year_mono (year now + 1) 9999 ltac:(lia)) as Hmono.
      change (_days_before_year 9999) with 3651694%Z in Hmono.
      unfold toordinal, _ymd2ord, _MAXORDINAL.
      destruct (_is_leap (year now)); lia. }
    unfold calculate_next_run. cbn [last_run set_last_run frequency].
    destruct Hfreq as [Hf|[Hf|Hf]]; rewrite Hf.
    - destruct (dt_add_whole_days now 1 Hv ltac:(lia)) as [Hin _].
      destruct Hin as (t & Hadd & _ & _ & Hlt); [lia|].
      exists t. split; [|exact Hlt]. intros w0.
      change (String.eqb "daily" "daily") with true. cbn iota.
      unfold bind, of_option. now rewrite Hadd.
    - destruct (dt_add_whole_days now 7 Hv ltac:(lia)) as [Hin _].
      destruct Hin as (t & Hadd & _ & _ & Hlt); [lia|].
      exists t. split; [|exact Hlt]. intros w0.
      change (String.eqb "weekly" "daily") with false.
      change (String.eqb "weekly" "weekly") with true. cbn iota.
      unfold timedelta_weeks. change (7 * 1)%Z with 7%Z.
      unfold bind, of_option. now rewrite Hadd.
    - destruct (monthly_next_run_gap now Hv ltac:(lia)) as (t & Hrun & _ & _ & _ & Hlt).
      exists t. split; [|exact Hlt]. intros w0.
      change (String.eqb "monthly" "daily") with false.
      change (String.eqb "monthly" "weekly") with false.
      change (String.eqb "monthly" "monthly") with true. cbn iota.
      unfold bind, of_option. now rewrite Hrun. }
  destruct Hcalc as (t & Hcalc & Hlt).
  unfold generate_due_report, try_except.
  unfold bind at 1. unfold record_call at 1.
  unfold bind at 1. unfold external at 1. cbn [db ticks logged calls].
  rewrite Hgen.
  unfold bind at 1. rewrite Hcalc.
  unfold bind at 1.
  destruct (save_report_stores (set_next_run (set_last_run r now) t)
              (mk_World d (ticks w) (logged w) (calls w ++ [call_generate_report r])))
    as (w1 & Hsave & Hin & _).
  rewrite Hsave.
  unfold bind, logger, ret. cbn [db ticks logged calls].
  do 2 eexists. split; [reflexivity|]. cbn [db].
  split; [exact Hin|]. split; [reflexivity|]. split; [reflexivity|].
  cbn [next_run set_next_run]. split; [exact Hlt|].
  unfold is_due. cbn [next_run set_next_run].
  rewrite (dt_leb_false_of_ltb _ _ Hlt). apply andb_false_r.
Qed.

Lemma generated_report_not_due_again_witness :
  exists (w' : World) (r' : AutomatedReport),
    generate_due_report (frozen_clock epoch) working_generator epoch 0 report1
                        (world_of report_db) = (Ok 1%Z, w')
    /\ In r' (reports (db w'))
    /\ report_id r' = 1%Z
    /\ is_due epoch r' = false.
Proof.
  assert (Hv : valid_datetime epoch)
    by (unfold valid_datetime, valid_date, valid_time; vm_compute; intuition congruence).
  destruct (generated_report_not_due_again (frozen_clock epoch) working_generator
              epoch 0 report1 (world_of report_db)
              (mk_ReportExecution 100 1 "completed") report_db
              (or_introl eq_refl) Hv ltac:(vm_compute; reflexivity) eq_refl)
    as (w' & r' & Hrun & Hin & Hid & _ & _ & Hdue).
  exists w', r'. auto.
Defined.

(** ** The recency and retention windows as elapsed time *)

Import CalendarOrderFacts DatetimeFacts.

Lemma dt_sub_spec (t cutoff : datetime) (td : timedelta) :
  valid_time t ->
  dt_sub t td = Some cutoff ->
  valid_datetime cutoff /\ (as_timedelta cutoff = as_timedelta t - td)%Z.
Proof.
  intros Ht Hsub. unfold dt_sub in Hsub.
  destruct (dt_add_spec t (- td)%Z Ht) as [Hin Hout].
  destruct (Z_le_dec US_PER_DAY (as_timedelta t + - td)%Z) as [Hlo|Hlo];
    [destruct (Z_lt_dec (as_timedelta t + - td)%Z ((_MAXORDINAL + 1) * US_PER_DAY)%Z)
       as [Hhi|Hhi]|].
  - destruct (Hin (conj Hlo Hhi)) as (t' & Hadd & Hv & Hat).
    rewrite Hadd in Hsub. injection Hsub as <-. split; [exact Hv | lia].
  - rewrite Hout in Hsub by lia. discriminate.
  - rewrite Hout in Hsub by lia. discriminate.
Qed.

(** A row is at or after the cutoff [now - window] exactly when no more
    than [window] has elapsed since it. *)
Lemma not_before_cutoff_by_age (now cutoff t : datetime) (window : timedelta) :
  valid_datetime now -> valid_datetime t ->
  dt_sub now window = Some cutoff ->
  dt_ltb t cutoff = negb (dt_diff now t <=? window)%Z.
Proof.
  intros Hnow Ht Hsub.
  destruct (dt_sub_spec now cutoff window (proj2 Hnow) Hsub) as [Hc Hat].
  rewrite (dt_ltb_linear t cutoff Ht Hc), dt_diff_linear, Hat.
  destruct (Z.ltb_spec (as_timedelta t) (as_timedelta now - window)%Z);
    destruct (Z.leb_spec (as_timedelta now - as_timedelta t)%Z window);
    simpl; try reflexivity; lia.
Qed.

(** X5: with a valid clock reading [now], [trigger_webhooks_task] fetches
    exactly the pending anomalies detected no more than five minutes
    before [now] (an anomaly exactly five minutes old is fetched, and so is
    one dated after [now]). *)
Theorem recent_anomalies_by_age (clock : nat -> datetime) (w : World)
    (cutoff : datetime) :
  valid_datetime (clock (ticks w)) ->
  dt_sub (clock (ticks w)) (timedelta_minutes 5) = Some cutoff ->
  exists selected : list AnomalyDetection,
    select_recent_anomalies clock w = (Ok selected, tick w)
    /\ forall a : AnomalyDetection,
         valid_datetime (detected_at a) ->
         (In a selected <->
          In a (anomalies (db w)) /\ status a = "pending"
          /\ (dt_diff (clock (ticks w)) (detected_at a) <= timedelta_minutes 5)%Z).
Proof.
  intros Hnow Hsub. eexists. split.
  - apply (select_recent_anomalies_run clock w cutoff Hsub).
  - intros a Ha. rewrite filter_In, is_recent_pending_iff.
    rewrite (not_before_cutoff_by_age _ _ _ _ Hnow Ha Hsub).
    rewrite negb_false_iff, Z.leb_le. tauto.
Qed.

Lemma recent_anomalies_by_age_witness :
  exists selected : list AnomalyDetection,
    select_recent_anomalies (frozen_clock epoch) (world_of anomaly_db)
    = (Ok selected, tick (world_of anomaly_db))
    /\ (In anomaly1 selected <->
        In anomaly1 (anomalies anomaly_db) /\ status anomaly1 = "pending"
        /\ (dt_diff epoch (detected_at anomaly1) <= timedelta_minutes 5)%Z).
Proof.
  assert (Hv : forall y m d h mi s, valid_date y m d -> (0 <= h < 24)%Z ->
               (0 <= mi < 60)%Z -> (0 <= s < 60)%Z ->
               valid_datetime (mk_datetime y m d h mi s 0)).
  { intros. split; [assumption|]. unfold valid_time. simpl. lia. }
  assert (Hepoch : valid_datetime epoch)
    by (apply Hv; unfold valid_date; vm_compute; intuition congruence).
  destruct (recent_anomalies_by_age (frozen_clock epoch) (world_of anomaly_db)
              (mk_datetime 2025 6 15 11 55 0 0) Hepoch eq_refl)
    as (selected & Hrun & Hiff).
  exists selected. split; [exact Hrun|]. apply Hiff.
  apply Hv; unfold valid_date; vm_compute; intuition congruence.
Defined.

(** X6: with valid clock readings, [cleanup_old_data_task] keeps exactly
    the anomalies detected no more than 90 days before its first reading
    and the webhook logs sent no more than 30 days before its second
    reading; a row exactly 90 (or 30) days old is kept. *)
Theorem cleanup_keeps_by_age (clock : nat -> datetime) (w : World)
    (cutoff_date log_cutoff : datetime) :
  valid_datetime (clock (ticks w)) ->
  valid_datetime (clock (S (ticks w))) ->
  dt_sub (clock (ticks w)) (timedelta_days 90) = Some cutoff_date ->
  dt_sub (clock (S (ticks w))) (timedelta_days 30) = Some log_cutoff ->
  let w' := snd (cleanup_old_data_task clock w) in
  (forall a : AnomalyDetection,
     valid_datetime (detected_at a) ->
     (In a (anomalies (db w')) <->
      In a (anomalies (db w))
      /\ (dt_diff (clock (ticks w)) (detected_at a) <= timedelta_days 90)%Z))
  /\ (forall l : WebhookLog,
        valid_datetime (sent_at l) ->
        (In l (webhook_logs (db w')) <->
         In l (webhook_logs (db w))
         /\ (dt_diff (clock (S (ticks w))) (sent_at l) <= timedelta_days 30)%Z)).
Proof.
  intros Hnow1 Hnow2 H90 H30 w'. subst w'.
  unfold cleanup_old_data_task, try_except, bind, timezone_now, of_option,
    get_db, put_db, logger, ret; cbn [db ticks logged calls].
  rewrite H90; cbn [db ticks logged calls]. rewrite H30; cbn.
  split.
  - intros a Ha. rewrite filter_In. unfold is_old_anomaly.
    rewrite (not_before_cutoff_by_age _ _ _ _ Hnow1 Ha H90).
    rewrite negb_involutive, Z.leb_le. tauto.
  - intros l Hl. rewrite filter_In. unfold is_old_log.
    rewrite (not_before_cutoff_by_age _ _ _ _ Hnow2 Hl H30).
    rewrite negb_involutive, Z.leb_le. tauto.
Qed.

Lemma cleanup_keeps_by_age_witness :
  ~ In old_anomaly
       (anomalies (db (snd (cleanup_old_data_task (frozen_clock epoch)
                              (world_of sweep_db)))))
  /\ In new_log
        (webhook_logs (db (snd (cleanup_old_data_task (frozen_clock epoch)
                                  (world_of sweep_db))))).
Proof.
  assert (Hv : forall y m d h mi s, valid_date y m d -> (0 <= h < 24)%Z ->
               (0 <= mi < 60)%Z -> (0 <= s < 60)%Z ->
               valid_datetime (mk_datetime y m d h mi s 0)).
  { intros. split; [assumption|]. unfold valid_time. simpl. lia. }
  assert (Hepoch : valid_datetime epoch)
    by (apply Hv; unfold valid_date; vm_compute; intuition congruence).
  assert (Hold : valid_datetime (detected_at old_anomaly))
    by (apply Hv; unfold valid_date; vm_compute; intuition congruence).
  assert (Hnew : valid_datetime (sent_at new_log))
    by (apply Hv; unfold valid_date; vm_compute; intuition congruence).
  destruct (cleanup_keeps_by_age (frozen_clock epoch) (world_of sweep_db)
              (mk_datetime 2025 3 17 12 0 0 0) (mk_datetime 2025 5 16 12 0 0 0)
              Hepoch Hepoch eq_refl eq_refl) as [Hanomalies Hlogs].
  split.
  - intros Hin. destruct (proj1 (Hanomalies old_anomaly Hold) Hin) as [_ Hage].
    vm_compute in Hage. congruence.
  - refine (proj2 (Hlogs new_log Hnew) (conj _ _)).
    + right. left. reflexivity.
    + vm_compute. congruence.
Defined.

(** ** More on the behaviour-profile engine *)

Lemma collect_addresses_spec (txs : list NFTTransaction) (a : string) :
  a ∈ collect_addresses txs
  <-> a <> ""
      /\ exists tx, In tx txs /\ (buyer_address tx = a \/ seller_address tx = a).
Proof.
  unfold collect_addresses.
  assert (H : forall (s : gset string),
             a ∈ fold_left
                   (fun (s : gset string) tx =>
                      let s := if truthy (buyer_address tx)
                               then s ∪ {[buyer_address tx]} else s in
                      if truthy (seller_address tx)
                      then s ∪ {[seller_address tx]} else s) txs s
             <-> a ∈ s
                 \/ (a <> ""
                     /\ exists tx, In tx txs
                                   /\ (buyer_address tx = a \/ seller_address tx = a))).
  { induction txs as [|tx txs IH]; intros s.
    - simpl. split; [auto|]. intros [Hs|(_ & tx & [] & _)]. exact Hs.
    - simpl. rewrite IH. clear IH.
      assert (Hstep : a ∈ (if truthy (seller_address tx)
                           then (if truthy (buyer_address tx)
                                 then s ∪ {[buyer_address tx]} else s)
                                ∪ {[seller_address tx]}
                           else if truthy (buyer_address tx)
                                then s ∪ {[buyer_address tx]} else s)
                      <-> a ∈ s \/ (a <> "" /\ (buyer_address tx = a
                                                \/ seller_address tx = a))).
      { unfold truthy.
        destruct (String.eqb_spec (buyer_address tx) "") as [Hb|Hb];
          destruct (String.eqb_spec (seller_address tx) "") as [Hs|Hs];
          cbn [negb]; rewrite ?elem_of_union, ?elem_of_singleton;
          split; intros H; intuition (subst; try congruence; auto). }
      rewrite Hstep. split.
      + intros [[Hs|(Hne & Hor)]|(Hne & tx' & Hin & Hor)]; auto.
        * right. split; [exact Hne|]. exists tx. auto.
        * right. split; [exact Hne|]. exists tx'. auto.
      + intros [Hs|(Hne & tx' & [<-|Hin] & Hor)]; auto.
        right. split; [exact Hne|]. exists tx'. auto. }
  rewrite H. split.
  - intros [Hempty|Hex]; [now apply not_elem_of_empty in Hempty | exact Hex].
  - intros Hex. right. exact Hex.
Qed.

Lemma processed_addresses_elem (now start_time : datetime) (d : Db) (a : string) :
  dt_sub now (timedelta_days 7) = Some start_time ->
  (a ∈ processed_addresses now d
   <-> a <> ""
       /\ exists tx : NFTTransaction,
            In tx (transactions d)
            /\ dt_geb (timestamp tx) start_time = true
            /\ (buyer_address tx = a \/ seller_address tx = a)).
Proof.
  intros Hstart. unfold processed_addresses. rewrite Hstart.
  rewrite elem_of_elements, collect_addresses_spec.
  split; intros (Hne & tx & Hin & Hrest); (split; [exact Hne|]); exists tx.
  - apply filter_In in Hin. tauto.
  - split; [apply filter_In|]; tauto.
Qed.

Lemma processed_addresses_nonempty (now start_time : datetime) (d : Db) :
  dt_sub now (timedelta_days 7) = Some start_time ->
  (exists tx : NFTTransaction,
     In tx (transactions d) /\ dt_geb (timestamp tx) start_time = true
     /\ (buyer_address tx <> "" \/ seller_address tx <> "")) ->
  processed_addresses now d <> [].
Proof.
  intros Hstart (tx & Hin & Hrecent & Hnamed) Hnil.
  pose proof (fun a => processed_addresses_elem now start_time d a Hstart) as Helem.
  rewrite Hnil in Helem.
  destruct Hnamed as [Hb|Hs].
  - assert (Hmem : buyer_address tx ∈ @nil string).
    { apply Helem. split; [exact Hb|]. exists tx. auto. }
    inversion Hmem.
  - assert (Hmem : seller_address tx ∈ @nil string).
    { apply Helem. split; [exact Hs|]. exists tx. auto. }
    inversion Hmem.
Qed.

(** X7: when the start of the window can be computed, the task succeeds
    only when it has nothing to do: with no transaction of the seven-day
    window that names a buyer or a seller it returns success with
    [profiles_updated = 0], logs that and writes nothing; as soon as one
    such transaction exists it returns the error of the [NameError] on
    [models] and logs it. *)
Theorem update_task_succeeds_only_without_addresses (clock : nat -> datetime)
    (w : World) (start_time : datetime) :
  dt_sub (clock (ticks w)) (timedelta_days 7) = Some start_time ->
  let run := update_user_behavior_profiles_task clock w in
  ((forall tx : NFTTransaction,
      In tx (transactions (db w)) -> dt_geb (timestamp tx) start_time = true ->
      buyer_address tx = "" /\ seller_address tx = "") ->
   fst run = Ok (task_success [("profiles_updated", 0%Z)])
   /\ db (snd run) = db w
   /\ logged (snd run)
      = logged w ++ [log_info "Updated {} user behavior profiles." [arg_int 0]])
  /\ ((exists tx : NFTTransaction,
         In tx (transactions (db w)) /\ dt_geb (timestamp tx) start_time = true
         /\ (buyer_address tx <> "" \/ seller_address tx <> "")) ->
      fst run = Ok (task_error (NameError "models"))
      /\ logged (snd run)
         = logged w ++ [log_error "User behavior profile update task failed: {}"
                                  [arg_exn (NameError "models")]]).
Proof.
  intros Hstart run. subst run.
  rewrite (update_task_run clock w start_time Hstart).
  pose proof (fun a => processed_addresses_elem (clock (ticks w)) start_time (db w) a
                         Hstart) as Helem.
  pose proof (processed_addresses_nonempty (clock (ticks w)) start_time (db w)
                Hstart) as Hnonempty.
  destruct (processed_addresses (clock (ticks w)) (db w)) as [|a rest].
  - split; [intros _; repeat split|].
    intros Hnamed. now elim (Hnonempty Hnamed).
  - split; [|intros _; split; reflexivity].
    intros Hnone. exfalso.
    assert (Hmem : a ∈ a :: rest) by apply list_elem_of_here.
    apply Helem in Hmem. destruct Hmem as (Hne & tx & Hin & Hrecent & Hor).
    destruct (Hnone tx Hin Hrecent) as [Hb Hs].
    destruct Hor as [<-|<-]; contradiction.
Qed.

Lemma update_task_succeeds_only_without_addresses_witness :
  fst (update_user_behavior_profiles_task (frozen_clock epoch) (world_of trade_db))
  = Ok (task_error (NameError "models"))
  /\ fst (update_user_behavior_profiles_task (frozen_clock epoch) empty_world)
     = Ok (task_success [("profiles_updated", 0%Z)]).
Proof.
  split.
  - apply (update_task_succeeds_only_without_addresses (frozen_clock epoch)
             (world_of trade_db) (mk_datetime 2025 6 8 12 0 0 0) eq_refl).
    exists (trade 0 "0xC0FFEE"). split; [left; reflexivity|].
    split; [reflexivity|]. left. discriminate.
  - apply (update_task_succeeds_only_without_addresses (frozen_clock epoch)
             empty_world (mk_datetime 2025 6 8 12 0 0 0) eq_refl).
    intros tx [].
Defined.

(** X8: what a failing run of the task writes. With a transaction of the
    window that names an address, the run stops in its first iteration:
    for one such address it has read the clock twice and inserted the
    default row when the address had no profile; no existing profile is
    changed, no other table is written and no collaborator is called.
    When the clock is so early that [now - 7 days] does not exist, the
    task returns that error and writes nothing. *)
Theorem update_task_failure_writes (clock : nat -> datetime) (w : World) :
  let run := update_user_behavior_profiles_task clock w in
  (forall start_time : datetime,
     dt_sub (clock (ticks w)) (timedelta_days 7) = Some start_time ->
     (exists tx : NFTTransaction,
        In tx (transactions (db w)) /\ dt_geb (timestamp tx) start_time = true
        /\ (buyer_address tx <> "" \/ seller_address tx <> "")) ->
     exists a : string,
       a <> ""
       /\ (exists tx : NFTTransaction,
             In tx (transactions (db w)) /\ dt_geb (timestamp tx) start_time = true
             /\ (buyer_address tx = a \/ seller_address tx = a))
       /\ profiles (db (snd run))
          = match profiles (db w) !! a with
            | Some _ => profiles (db w)
            | None =>
                <[a := default_profile a (clock (S (ticks w)))
                                       (clock (S (S (ticks w))))]> (profiles (db w))
            end
       /\ (forall (b : string) (p : UserBehaviorProfile),
             profiles (db w) !! b = Some p -> profiles (db (snd run)) !! b = Some p)
       /\ db (snd run) = set_profiles (db w) (profiles (db (snd run)))
       /\ calls (snd run) = calls w)
  /\ (dt_sub (clock (ticks w)) (timedelta_days 7) = None ->
      fst run = Ok (task_error OverflowError)
      /\ db (snd run) = db w).
Proof.
  intros run. subst run. split.
  - intros start_time Hstart Hnamed.
    pose proof (processed_addresses_nonempty (clock (ticks w)) start_time (db w)
                  Hstart Hnamed) as Hnonempty.
    pose proof (fun a => processed_addresses_elem (clock (ticks w)) start_time (db w) a
                           Hstart) as Helem.
    rewrite (update_task_run clock w start_time Hstart) in *.
    destruct (processed_addresses (clock (ticks w)) (db w)) as [|a rest].
    + now elim Hnonempty.
    + exists a.
      assert (Hmem : a ∈ a :: rest) by apply list_elem_of_here.
      apply Helem in Hmem. destruct Hmem as [Hne Htx].
      split; [exact Hne|]. split; [exact Htx|].
      cbn [snd db calls].
      destruct (profiles (db w) !! a) as [p0|] eqn:Hrow.
      * repeat split; auto. now destruct (db w).
      * cbn [profiles set_profiles]. repeat split.
        intros b p Hb. rewrite lookup_insert_ne; [exact Hb|]. congruence.
  - intros Hnone.
    assert (Hrun : update_user_behavior_profiles_task clock w
                   = (Ok (task_error OverflowError),
                      mk_World (db w) (S (ticks w))
                        (logged w
                         ++ [log_error "User behavior profile update task failed: {}"
                                       [arg_exn OverflowError]])
                        (calls w))).
    { unfold update_user_behavior_profiles_task, try_except.
      unfold bind at 1. unfold timezone_now at 1.
      unfold bind at 1. rewrite Hnone. reflexivity. }
    rewrite Hrun. split; reflexivity.
Qed.

Lemma update_task_failure_writes_witness :
  exists a : string,
    a <> ""
    /\ profiles (db (snd (update_user_behavior_profiles_task (frozen_clock epoch)
                            (world_of trade_db))))
       = <[a := default_profile a epoch epoch]> (profiles trade_db).
Proof.
  destruct (update_task_failure_writes (frozen_clock epoch) (world_of trade_db))
    as [Hrun _].
  destruct (Hrun (mk_datetime 2025 6 8 12 0 0 0) eq_refl) as (a & Hne & _ & Hp & _).
  - exists (trade 0 "0xC0FFEE"). split; [left; reflexivity|].
    split; [reflexivity|]. left. discriminate.
  - exists a. split; [exact Hne|]. rewrite Hp.
    change (profiles (db (world_of trade_db)) !! a) with ((∅ : gmap string UserBehaviorProfile) !! a).
    rewrite lookup_empty. reflexivity.
Defined.

(** ** Dictionaries of counts *)

Lemma key_count_snoc (k : string) (seen : list string) (c : string) :
  key_count k (seen ++ [c])
  = (key_count k seen + (if String.eqb c k then 1 else 0))%Z.
Proof.
  unfold key_count, len. rewrite List.filter_app, List.length_app. simpl.
  destruct (String.eqb c k); simpl; lia.
Qed.

Lemma key_count_nonneg (k : string) (keys : list string) : (0 <= key_count k keys)%Z.
Proof. unfold key_count, len. lia. Qed.

Lemma count_collection_keys (c : string) (d : list (string * Z)) :
  map fst (count_collection c d)
  = if existsb (String.eqb c) (map fst d) then map fst d else map fst d ++ [c].
Proof.
  induction d as [|[k n] d IH]; [reflexivity|].
  simpl. rewrite (String.eqb_sym c k).
  destruct (String.eqb k c) eqn:E; simpl; [reflexivity|].
  rewrite IH. now destruct (existsb (String.eqb c) (map fst d)).
Qed.

Lemma count_collection_In (c : string) (d : list (string * Z)) (k : string) (n : Z) :
  List.NoDup (map fst d) ->
  (In (k, n) (count_collection c d)
   <-> (k <> c /\ In (k, n) d)
       \/ (k = c /\ ((exists n0, In (c, n0) d /\ n = (n0 + 1)%Z)
                    \/ (~ In c (map fst d) /\ n = 1%Z)))).
Proof.
  induction d as [|[k0 n0] d IH]; intros Hnd.
  - simpl. split.
    + intros [[= <- <-]|[]]. right. split; [reflexivity|]. right. auto.
    + intros [[_ []]|[-> [(n0 & [] & _)|[_ ->]]]]. now left.
  - inversion Hnd as [|? ? Hnotin Hnd']; subst. simpl.
    destruct (String.eqb_spec k0 c) as [->|Hne].
    + simpl. split.
      * intros [[= <- <-]|Hin].
        -- right. split; [reflexivity|]. left. exists n0. auto.
        -- destruct (String.eqb_spec k c) as [->|Hkc].
           ++ exfalso. apply Hnotin. apply in_map_iff. exists (c, n). auto.
           ++ left. auto.
      * intros [[Hkc [[= -> ->]|Hin]]|[-> [(n1 & [[= ->]|Hin] & ->)|[Hnot _]]]].
        -- congruence.
        -- now right.
        -- now left.
        -- exfalso. apply Hnotin. apply in_map_iff. exists (c, n1). auto.
        -- exfalso. apply Hnot. now left.
    + simpl. rewrite (IH Hnd'). split.
      * intros [[= <- <-]|[[Hkc Hin]|[-> [(n1 & Hin & ->)|[Hnot ->]]]]].
        -- left. auto.
        -- left. auto.
        -- right. split; [reflexivity|]. left. exists n1. auto.
        -- right. split; [reflexivity|]. right. split; [|reflexivity].
           intros [Heq|Hin]; [congruence | contradiction].
      * intros [[Hkc [[= -> ->]|Hin]]|[-> [(n1 & [[= -> ->]|Hin] & ->)|[Hnot ->]]]].
        -- now left.
        -- right. left. auto.
        -- congruence.
        -- right. right. split; [reflexivity|]. left. exists n1. auto.
        -- right. right. split; [reflexivity|]. right. split; [|reflexivity].
           intros Hin. apply Hnot. now right.
Qed.

Lemma nodup_snoc {A} (l : list A) (c : A) :
  List.NoDup l -> ~ In c l -> List.NoDup (l ++ [c]).
Proof.
  induction l as [|x l IH]; intros Hnd Hc; simpl.
  - repeat constructor. intros [].
  - inversion Hnd as [|? ? Hx Hnd']; subst. constructor.
    + intros Hin. apply in_app_or in Hin. destruct Hin as [Hin|[<-|[]]]; [auto|].
      apply Hc. now left.
    + apply IH; [exact Hnd'|]. intros Hin. apply Hc. now right.
Qed.

Lemma counts_of_step (d : list (string * Z)) (seen : list string) (c : string) :
  counts_of d seen -> counts_of (count_collection c d) (seen ++ [c]).
Proof.
  intros [Hnd Hd]. split.
  - rewrite count_collection_keys.
    destruct (existsb (String.eqb c) (map fst d)) eqn:Hex; [exact Hnd|].
    apply nodup_snoc; [exact Hnd|]. intros Hk.
    assert (Htrue : existsb (String.eqb c) (map fst d) = true)
      by (apply existsb_exists; exists c; split;
          [exact Hk | apply String.eqb_refl]).
    congruence.
  - intros k n. rewrite (count_collection_In _ _ _ _ Hnd), key_count_snoc.
    pose proof (key_count_nonneg k seen) as Hnn.
    split.
    + intros [[Hne Hin]|[-> [(n0 & Hin & ->)|[Hnot ->]]]].
      * apply Hd in Hin. destruct Hin as [-> Hpos].
        apply String.eqb_neq in Hne. rewrite String.eqb_sym in Hne. rewrite Hne.
        split; lia.
      * apply Hd in Hin. destruct Hin as [-> Hpos].
        rewrite String.eqb_refl. split; lia.
      * rewrite String.eqb_refl.
        assert (Hzero : key_count c seen = 0%Z).
        { destruct (Z.eq_dec (key_count c seen) 0%Z) as [H0|H0]; [exact H0|].
          exfalso. apply Hnot. apply in_map_iff.
          exists (c, key_count c seen).
          split; [reflexivity|]. apply Hd. split; [reflexivity | lia]. }
        split; lia.
    + intros [-> Hpos].
      destruct (String.eqb_spec c k) as [<-|Hne].
      * right. split; [reflexivity|].
        destruct (Z.eq_dec (key_count c seen) 0%Z) as [H0|H0].
        -- right. split; [|lia]. intros Hin. apply in_map_iff in Hin.
           destruct Hin as ([k' n'] & Hk' & Hin). simpl in Hk'. subst k'.
           apply Hd in Hin. lia.
        -- left. exists (key_count c seen).
           split; [|reflexivity]. apply Hd. split; [reflexivity | lia].
      * left. split; [congruence|]. apply Hd. split; lia.
Qed.

(** Counting the keys of a list one after the other. *)
Lemma count_keys_spec (keys : list string) :
  counts_of (fold_left (fun d k => count_collection k d) keys []) keys.
Proof.
  assert (H : forall seen d, counts_of d seen ->
                counts_of (fold_left (fun d k => count_collection k d) keys d)
                          (seen ++ keys)).
  { induction keys as [|c keys IH]; intros seen d Hd.
    - now rewrite app_nil_r.
    - simpl. replace (seen ++ c :: keys) with ((seen ++ [c]) ++ keys)
        by (now rewrite <- app_assoc).
      apply IH, counts_of_step, Hd. }
  apply (H [] []). split; [constructor|].
  intros k n. split; [intros []|].
  intros [-> Hpos]. unfold key_count, len in Hpos. simpl in Hpos. lia.
Qed.

Lemma fold_left_count_map {A} (f : A -> string) (l : list A) (d : list (string * Z)) :
  fold_left (fun d x => count_collection (f x) d) l d
  = fold_left (fun d k => count_collection k d) (map f l) d.
Proof. revert d. induction l as [|x l IH]; intros d; simpl; auto. Qed.

(** ** User sessions *)

Import CalendarOrderFacts DatetimeFacts.

(** X11: [end_session] stores the session closed at the clock reading,
    inactive, with the time from login to that reading as its duration;
    the other sessions and tables are untouched; and the duration of the
    closed session no longer depends on the clock. With valid datetimes
    and a login not after the reading the duration is not negative. *)
Theorem end_session_closes (now : datetime) (self : UserSession) (d : ActivityDb) :
  let closed := fst (end_session now self d) in
  let d' := snd (end_session now self d) in
  closed = mk_UserSession (session_id self) (session_user self) (login_at self)
                          (Some now) (Some (dt_diff now (login_at self))) false
  /\ In closed (user_sessions d')
  /\ (forall s0, In s0 (user_sessions d) -> session_id s0 <> session_id self ->
                 In s0 (user_sessions d'))
  /\ wallet_connections d' = wallet_connections d
  /\ behavior_metrics d' = behavior_metrics d
  /\ (forall later : datetime,
        calculate_duration later closed = (closed, dt_diff now (login_at self)))
  /\ (valid_datetime now -> valid_datetime (login_at self) ->
      dt_leb (login_at self) now = true ->
      (0 <= dt_diff now (login_at self))%Z).
Proof.
  intros closed d'. subst closed d'.
  unfold end_session, calculate_duration.
  cbn [fst snd logout_at login_at session_id session_user session_is_active
       session_duration].
  split; [reflexivity|]. split; [|split; [|split; [|split; [|split]]]].
  - unfold save_session. cbn [user_sessions session_id].
    destruct (existsb _ (user_sessions d)) eqn:Hex.
    + apply existsb_exists in Hex. destruct Hex as (s0 & Hin & Hid).
      apply in_map_iff. exists s0. split; [|exact Hin].
      cbn [session_id] in Hid |- *. now rewrite Hid.
    + apply in_or_app. right. now left.
  - intros s0 Hin Hid. unfold save_session. cbn [user_sessions session_id].
    destruct (existsb _ (user_sessions d)).
    + apply in_map_iff. exists s0. split; [|exact Hin].
      destruct (Z.eqb_spec (session_id s0) (session_id self)); [contradiction|reflexivity].
    + apply in_or_app. now left.
  - reflexivity.
  - reflexivity.
  - intros later. reflexivity.
  - intros Hnow Hlogin Hle.
    rewrite (dt_leb_linear _ _ Hlogin Hnow) in Hle. apply Z.leb_le in Hle.
    rewrite dt_diff_linear. lia.
Qed.

Lemma end_session_closes_witness :
  (0 <= dt_diff epoch (login_at session3))%Z.
Proof.
  assert (Hv : forall y m d h mi s, valid_date y m d -> (0 <= h < 24)%Z ->
               (0 <= mi < 60)%Z -> (0 <= s < 60)%Z ->
               valid_datetime (mk_datetime y m d h mi s 0)).
  { intros. split; [assumption|]. unfold valid_time. simpl. lia. }
  destruct (end_session_closes epoch session3 activity_db)
    as (_ & _ & _ & _ & _ & _ & Hnn).
  apply Hnn.
  - apply Hv; unfold valid_date; vm_compute; intuition congruence.
  - apply Hv; unfold valid_date; vm_compute; intuition congruence.
  - reflexivity.
Defined.

(** ** Behaviour metrics *)

Lemma perm_filter {A} (f : A -> bool) (l l' : list A) :
  Permutation l l' -> Permutation (List.filter f l) (List.filter f l').
Proof.
  induction 1 as [|x l l' _ IH|x y l|l l' l'' _ IH1 _ IH2]; simpl.
  - constructor.
  - destruct (f x); [now constructor|exact IH].
  - destruct (f x), (f y); try apply Permutation_refl. constructor.
  - now transitivity (List.filter f l').
Qed.

Lemma perm_filter_len {A} (f : A -> bool) (l l' : list A) :
  Permutation l l' -> len (List.filter f l) = len (List.filter f l').
Proof.
  intros H. unfold len. f_equal. apply Permutation_length. now apply perm_filter.
Qed.

Lemma filter_filter_and {A} (f g : A -> bool) (l : list A) :
  List.filter f (List.filter g l) = List.filter (fun x => g x && f x) l.
Proof.
  induction l as [|x l IH]; simpl; [reflexivity|].
  destruct (g x); simpl; [destruct (f x)|]; now rewrite IH.
Qed.

Lemma filter_map_comm {A B} (p : B -> bool) (f : A -> B) (l : list A) :
  List.filter p (map f l) = map f (List.filter (fun x => p (f x)) l).
Proof.
  induction l as [|x l IH]; simpl; [reflexivity|].
  destruct (p (f x)); simpl; now rewrite IH.
Qed.

Lemma len_nil_iff {A} (l : list A) : len l = 0%Z <-> l = [].
Proof. unfold len. destruct l; simpl; split; intros; try reflexivity; try discriminate; lia. Qed.

Lemma insert_by_login_perm (asc : bool) (s : UserSession) (l : list UserSession) :
  Permutation (insert_by_login asc s l) (s :: l).
Proof.
  induction l as [|y l IH]; simpl; [apply Permutation_refl|].
  destruct (if asc then _ else _); [|apply Permutation_refl].
  transitivity (y :: s :: l); [now constructor|constructor].
Qed.

Lemma order_by_login_perm (asc : bool) (l : list UserSession) :
  Permutation (order_by_login asc l) l.
Proof.
  induction l as [|x l IH]; simpl; [constructor|].
  transitivity (x :: order_by_login asc l);
    [apply insert_by_login_perm|now constructor].
Qed.

Lemma login_order_trans (asc : bool) (a b c : UserSession) :
  login_order asc a b -> login_order asc b c -> login_order asc a c.
Proof.
  unfold login_order. destruct asc; intros Hab Hbc.
  - exact (dt_leb_trans _ _ _ Hab Hbc).
  - exact (dt_leb_trans _ _ _ Hbc Hab).
Qed.

Lemma insert_by_login_sorted (asc : bool) (s : UserSession) (l : list UserSession) :
  StronglySorted (login_order asc) l ->
  StronglySorted (login_order asc) (insert_by_login asc s l).
Proof.
  induction 1 as [|y l Hs IH Hall]; simpl.
  - constructor; constructor.
  - destruct (if asc then dt_ltb (login_at y) (login_at s)
              else dt_ltb (login_at s) (login_at y)) eqn:Hc.
    + constructor; [exact IH|].
      assert (Hys : login_order asc y s).
      { unfold login_order. destruct asc; now apply dt_leb_of_ltb. }
      apply List.Forall_forall. intros z Hz.
      apply (Permutation_in _ (insert_by_login_perm asc s l)) in Hz.
      destruct Hz as [<-|Hz]; [exact Hys|].
      exact (proj1 (List.Forall_forall _ _) Hall z Hz).
    + assert (Hsy : login_order asc s y).
      { unfold login_order. destruct asc; now apply dt_leb_of_not_ltb. }
      constructor; [now constructor|].
      constructor; [exact Hsy|].
      apply List.Forall_forall. intros z Hz.
      apply (login_order_trans asc s y z Hsy).
      exact (proj1 (List.Forall_forall _ _) Hall z Hz).
Qed.

Lemma order_by_login_sorted (asc : bool) (l : list UserSession) :
  StronglySorted (login_order asc) (order_by_login asc l).
Proof.
  induction l as [|x l IH]; simpl; [constructor|].
  now apply insert_by_login_sorted.
Qed.

(** The first row of a sorted, non-empty selection is one of its rows and
    comes before all of them. *)
Lemma order_by_login_first (asc : bool) (l : list UserSession) :
  l <> [] ->
  exists s0, head (order_by_login asc l) = Some s0
             /\ In s0 l
             /\ forall s, In s l -> login_order asc s0 s.
Proof.
  intros Hne.
  pose proof (order_by_login_perm asc l) as Hp.
  pose proof (order_by_login_sorted asc l) as Hs.
  destruct (order_by_login asc l) as [|s0 rest].
  - apply Permutation_nil in Hp. contradiction.
  - exists s0. split; [reflexivity|]. split.
    + apply (Permutation_in _ Hp). now left.
    + intros s Hin. apply (Permutation_in _ (Permutation_sym Hp)) in Hin.
      inversion Hs as [|? ? _ Hall]; subst.
      destruct Hin as [<-|Hin].
      * unfold login_order. destruct asc; apply dt_leb_refl.
      * exact (proj1 (List.Forall_forall _ _) Hall s Hin).
Qed.

Lemma selected_sessions_perm (u : Z) (d : ActivityDb) :
  Permutation
    (List.filter (fun s => (session_user s =? u)%Z)
                 (order_by_login false (user_sessions d)))
    (sessions_of u d).
Proof. apply perm_filter, order_by_login_perm. Qed.

Lemma insert_by_attempt_perm (c : WalletConnection) (l : list WalletConnection) :
  Permutation (insert_by_attempt c l) (c :: l).
Proof.
  induction l as [|y l IH]; simpl; [apply Permutation_refl|].
  destruct (dt_ltb _ _); [|apply Permutation_refl].
  transitivity (y :: c :: l); [now constructor|constructor].
Qed.

Lemma order_by_attempt_desc_perm (l : list WalletConnection) :
  Permutation (order_by_attempt_desc l) l.
Proof.
  induction l as [|x l IH]; simpl; [constructor|].
  transitivity (x :: order_by_attempt_desc l);
    [apply insert_by_attempt_perm|now constructor].
Qed.

(** [max] returns a key of the dictionary whose count no other exceeds. *)
Lemma max_by_count_from_spec (d : list (string * Z)) (best : string * Z) :
  exists n : Z,
    In (max_by_count_from best d, n) (best :: d)
    /\ forall x, In x (best :: d) -> (snd x <= n)%Z.
Proof.
  revert best. induction d as [|x d IH]; intros best; simpl.
  - exists (snd best). split; [left; now destruct best|].
    intros y [<-|[]]. lia.
  - destruct (IH (if (snd best <? snd x)%Z then x else best)) as (n & Hin & Hmax).
    exists n. split.
    + destruct Hin as [Heq|Hin]; [|now right; right].
      destruct (snd best <? snd x)%Z; [right; now left|now left].
    + intros y Hy.
      assert (Hb : (snd (if (snd best <? snd x)%Z then x else best) <= n)%Z)
        by (apply Hmax; now left).
      destruct Hy as [<-|[<-|Hy]].
      * destruct (Z.ltb_spec (snd best) (snd x)); lia.
      * destruct (Z.ltb_spec (snd best) (snd x)); lia.
      * apply Hmax. now right.
Qed.

Lemma max_by_count_spec (d : list (string * Z)) :
  match max_by_count d with
  | None => d = []
  | Some p => exists n : Z, In (p, n) d /\ forall x, In x d -> (snd x <= n)%Z
  end.
Proof.
  destruct d as [|x d]; simpl; [reflexivity|].
  apply max_by_count_from_spec.
Qed.

(** The counts of the successful connections of a user, whatever the
    order the rows are read in. *)
Lemma successes_len (u : Z) (d : ActivityDb) (status : string) :
  len (List.filter (fun c => String.eqb (connection_status c) status)
         (List.filter (fun c => (connection_user c =? u)%Z)
                      (order_by_attempt_desc (wallet_connections d))))
  = connection_count u status d.
Proof.
  rewrite filter_filter_and. unfold connection_count.
  apply perm_filter_len, order_by_attempt_desc_perm.
Qed.

Lemma successes_provider_count (u : Z) (d : ActivityDb) (q : string) :
  key_count q
    (map wallet_provider
       (List.filter (fun c => String.eqb (connection_status c) "success")
          (List.filter (fun c => (connection_user c =? u)%Z)
                       (order_by_attempt_desc (wallet_connections d)))))
  = provider_count u q d.
Proof.
  unfold key_count. rewrite filter_map_comm. unfold len. rewrite length_map.
  rewrite !filter_filter_and. unfold provider_count.
  rewrite (List.filter_ext _ _ (fun c => andb_assoc _ _ _)).
  apply perm_filter_len, order_by_attempt_desc_perm.
Qed.

Lemma update_wallet_preferences_spec (self : UserBehaviorMetrics) (d : ActivityDb) :
  let u := metrics_user self in
  let m := update_wallet_preferences self d in
  (connection_count u "success" d = 0%Z -> m = self)
  /\ ((0 < connection_count u "success" d)%Z ->
      successful_wallet_connections m = connection_count u "success" d
      /\ failed_wallet_connections m = connection_count u "failed" d
      /\ (1 <= provider_count u (preferred_wallet m) d)%Z
      /\ (forall q, (provider_count u q d <= provider_count u (preferred_wallet m) d)%Z))
  /\ metrics_user m = u /\ first_login m = first_login self
  /\ last_login m = last_login self /\ total_sessions m = total_sessions self
  /\ total_session_time m = total_session_time self
  /\ average_session_duration m = average_session_duration self
  /\ days_since_first_login m = days_since_first_login self
  /\ is_returning_user m = is_returning_user self.
Proof.
  intros u m. subst m. unfold update_wallet_preferences. fold u.
  set (L := List.filter (fun c => String.eqb (connection_status c) "success")
              (List.filter (fun c => (connection_user c =? u)%Z)
                           (order_by_attempt_desc (wallet_connections d)))).
  pose proof (successes_len u d "success") as Hlen. fold L in Hlen.
  pose proof (fun q => successes_provider_count u d q) as Hcount. fold L in Hcount.
  pose proof (count_keys_spec (map wallet_provider L)) as [_ Hspec].
  rewrite <- fold_left_count_map in Hspec. fold (count_providers L) in Hspec.
  pose proof (max_by_count_spec (count_providers L)) as Hmax.
  destruct (max_by_count (count_providers L)) as [p|].
  - cbn [successful_wallet_connections failed_wallet_connections preferred_wallet
         metrics_user first_login last_login total_sessions total_session_time
         average_session_duration days_since_first_login is_returning_user].
    destruct Hmax as (n & Hin & Hmax).
    apply Hspec in Hin. destruct Hin as [Hn Hpos]. rewrite Hcount in Hn.
    split; [|split; [|repeat split; reflexivity]].
    + intros H0. exfalso. rewrite <- Hlen in H0. apply len_nil_iff in H0.
      rewrite <- Hcount, H0 in Hn. unfold key_count, len in Hn. simpl in Hn. lia.
    + intros _. split; [exact Hlen|]. split; [apply successes_len|].
      split; [lia|]. intros q.
      destruct (Z_lt_le_dec (provider_count u q d) 1) as [Hlt|Hge]; [lia|].
      assert (Hq : In (q, provider_count u q d) (count_providers L)).
      { apply Hspec. rewrite Hcount. split; [reflexivity|exact Hge]. }
      apply Hmax in Hq. simpl in Hq. lia.
  - split; [reflexivity|]. split; [|repeat split; reflexivity].
    intros Hpos. exfalso. rewrite <- Hlen in Hpos.
    destruct L as [|c L'] eqn:HL; [unfold len in Hpos; simpl in Hpos; lia|].
    assert (Hc : In (wallet_provider c,
                     key_count (wallet_provider c) (map wallet_provider (c :: L')))
                    (count_providers (c :: L'))).
    { apply Hspec. split; [reflexivity|].
      unfold key_count. simpl. rewrite String.eqb_refl.
      unfold len. simpl length. lia. }
    rewrite Hmax in Hc. exact Hc.
Qed.

(** Rounding of [_divide_and_round] for a positive divisor: the result is
    within half a unit of the quotient, and even when exactly half way. *)
Lemma divide_and_round_nearest (a b : Z) :
  (0 < b)%Z ->
  (2 * Z.abs (_divide_and_round a b * b - a) <= b)%Z
  /\ ((2 * (a mod b) = b)%Z -> Z.even (_divide_and_round a b) = true).
Proof.
  intros Hb. unfold _divide_and_round.
  pose proof (Z.div_mod a b ltac:(lia)) as Hdm.
  pose proof (Z.mod_pos_bound a b Hb) as Hr.
  destruct (Z.gtb_spec b 0) as [_|]; [|lia].
  pose proof (Z.mod_pos_bound (a / b) 2 ltac:(lia)) as Hq2.
  destruct (Z.gtb_spec (a mod b * 2) b) as [Hgt|Hle]; simpl.
  - split; [|lia]. nia.
  - destruct (Z.eqb_spec (a mod b * 2) b) as [Heq|Hne]; simpl.
    + destruct (Z.eqb_spec ((a / b) mod 2) 1) as [Hodd|Heven].
      * split; [nia|]. intros _. rewrite Z.even_add. 
        rewrite <- Z.negb_odd. rewrite Zodd_mod. 
        apply Z.eqb_eq in Hodd. rewrite Hodd. reflexivity.
      * split; [nia|]. intros _. rewrite Zeven_mod. apply Z.eqb_eq. lia.
    + split; [nia|]. lia.
Qed.

Lemma completed_durations_run (now : datetime) (l : list UserSession) :
  map (fun s => snd (calculate_duration now s)) (List.filter is_completed l)
  = map (fun s => match logout_at s with
                  | Some out => dt_diff out (login_at s)
                  | None => 0%Z
                  end) (List.filter is_completed l).
Proof.
  apply map_ext_in. intros s Hs. apply filter_In in Hs. destruct Hs as [_ Hc].
  unfold is_completed in Hc. unfold calculate_duration. simpl.
  destruct (logout_at s); [reflexivity|discriminate].
Qed.

(** [update_metrics] for a user with sessions, its branches spelled out. *)
Lemma update_metrics_equation (now saved_at : datetime)
    (self : UserBehaviorMetrics) (d : ActivityDb) :
  let u := metrics_user self in
  sessions_of u d <> [] ->
  exists first latest : UserSession,
    In first (sessions_of u d) /\ In latest (sessions_of u d)
    /\ (forall s, In s (sessions_of u d) ->
                  dt_leb (login_at first) (login_at s) = true
                  /\ dt_leb (login_at s) (login_at latest) = true)
    /\ update_metrics now saved_at self d
       = match
           match completed_durations u d with
           | [] => Ok (total_session_time self, average_session_duration self)
           | _ :: _ =>
               match td_sum_from 0%Z (completed_durations u d) with
               | Some total =>
                   Ok (total, _divide_and_round total (len (completed_durations u d)))
               | None => Raise OverflowError
               end
           end
         with
         | Raise e => Raise e
         | Ok (total, average) =>
             let m :=
               update_wallet_preferences
                 (mk_UserBehaviorMetrics u (login_at first) (login_at latest)
                    (len (sessions_of u d)) total average
                    (toordinal now - toordinal (login_at first))%Z
                    (len (sessions_of u d) >? 1)%Z
                    (preferred_wallet self) (successful_wallet_connections self)
                    (failed_wallet_connections self) (last_updated self)) d in
             Ok (metrics_save saved_at m d)
         end.
Proof.
  intros u Hne. unfold update_metrics. fold u.
  pose proof (selected_sessions_perm u d) as Hp.
  unfold completed_durations.
  set (S := List.filter (fun s => (session_user s =? u)%Z)
              (order_by_login false (user_sessions d))) in *.
  assert (HS : S <> []).
  { intros H0. rewrite H0 in Hp. apply Permutation_nil in Hp. contradiction. }
  destruct (order_by_login_first true S HS) as (first & Hf & Hfin & Hfmin).
  destruct (order_by_login_first false S HS) as (latest & Hl & Hlin & Hlmax).
  exists first, latest. rewrite Hf, Hl.
  split; [exact (Permutation_in _ Hp Hfin)|].
  split; [exact (Permutation_in _ Hp Hlin)|].
  split.
  { intros s Hs. apply (Permutation_in _ (Permutation_sym Hp)) in Hs.
    split; [exact (Hfmin s Hs)|exact (Hlmax s Hs)]. }
  assert (Hlen : len S = len (sessions_of u d)).
  { unfold len. f_equal. now apply Permutation_length. }
  rewrite Hlen. rewrite completed_durations_run.
  generalize (List.filter is_completed S). intros [|c cs]; [reflexivity|].
  remember (map (fun s => match logout_at s with
                          | Some out => dt_diff out (login_at s)
                          | None => 0%Z
                          end) (c :: cs)) as D eqn:HD.
  assert (HDlen : len (c :: cs) = len D)
    by (subst D; unfold len; now rewrite length_map).
  destruct D as [|x xs]; [discriminate|]. cbv iota.
  destruct (td_sum_from 0%Z (x :: xs)) as [total|]; [|reflexivity].
  unfold td_div_int. rewrite HDlen.
  assert (Hnz : (len (x :: xs) =? 0)%Z = false).
  { apply Z.eqb_neq. unfold len. simpl length. lia. }
  rewrite Hnz. reflexivity.
Qed.

Lemma save_metrics_stores (m : UserBehaviorMetrics) (d : ActivityDb) :
  In m (behavior_metrics (save_metrics m d))
  /\ user_sessions (save_metrics m d) = user_sessions d
  /\ wallet_connections (save_metrics m d) = wallet_connections d
  /\ forall m0, In m0 (behavior_metrics d) -> metrics_user m0 <> metrics_user m ->
                In m0 (behavior_metrics (save_metrics m d)).
Proof.
  unfold save_metrics. cbn [behavior_metrics user_sessions wallet_connections].
  split; [|split; [reflexivity|split; [reflexivity|]]].
  - destruct (existsb _ (behavior_metrics d)) eqn:Hex.
    + apply existsb_exists in Hex. destruct Hex as (m0 & Hin & Hid).
      apply in_map_iff. exists m0. split; [|exact Hin]. now rewrite Hid.
    + apply in_or_app. right. now left.
  - intros m0 Hin Hne. destruct (existsb _ (behavior_metrics d)).
    + apply in_map_iff. exists m0. split; [|exact Hin].
      destruct (Z.eqb_spec (metrics_user m0) (metrics_user m));
        [contradiction|reflexivity].
    + apply in_or_app. now left.
Qed.

Lemma td_sum_from_total (l : list timedelta) (acc total : timedelta) :
  td_sum_from acc l = Some total -> total = (acc + fold_right Z.add 0 l)%Z.
Proof.
  revert acc. induction l as [|x l IH]; intros acc; simpl.
  - intros [= <-]. lia.
  - unfold td_add. destruct (timedelta_in_range (acc + x)%Z); [|discriminate].
    intros H. apply IH in H. lia.
Qed.

(** What a successful [update_metrics] returned, for a user with sessions. *)
Lemma set_last_updated_fields (m : UserBehaviorMetrics) (t : datetime) :
  metrics_user (set_last_updated m t) = metrics_user m
  /\ first_login (set_last_updated m t) = first_login m
  /\ last_login (set_last_updated m t) = last_login m
  /\ total_sessions (set_last_updated m t) = total_sessions m
  /\ total_session_time (set_last_updated m t) = total_session_time m
  /\ average_session_duration (set_last_updated m t) = average_session_duration m
  /\ days_since_first_login (set_last_updated m t) = days_since_first_login m
  /\ is_returning_user (set_last_updated m t) = is_returning_user m
  /\ preferred_wallet (set_last_updated m t) = preferred_wallet m
  /\ successful_wallet_connections (set_last_updated m t)
     = successful_wallet_connections m
  /\ failed_wallet_connections (set_last_updated m t) = failed_wallet_connections m
  /\ last_updated (set_last_updated m t) = t.
Proof. repeat split. Qed.

Lemma update_metrics_ok (now saved_at : datetime) (self : UserBehaviorMetrics)
    (d : ActivityDb) (r : UserBehaviorMetrics * ActivityDb) :
  let u := metrics_user self in
  sessions_of u d <> [] ->
  update_metrics now saved_at self d = Ok r ->
  exists (first latest : UserSession) (total average : timedelta),
    In first (sessions_of u d) /\ In latest (sessions_of u d)
    /\ (forall s, In s (sessions_of u d) ->
                  dt_leb (login_at first) (login_at s) = true
                  /\ dt_leb (login_at s) (login_at latest) = true)
    /\ fst r
       = set_last_updated
           (update_wallet_preferences
              (mk_UserBehaviorMetrics u (login_at first) (login_at latest)
                 (len (sessions_of u d)) total average
                 (toordinal now - toordinal (login_at first))%Z
                 (len (sessions_of u d) >? 1)%Z
                 (preferred_wallet self) (successful_wallet_connections self)
                 (failed_wallet_connections self) (last_updated self)) d)
           saved_at
    /\ snd r = save_metrics (fst r) d.
Proof.
  intros u Hne Hrun.
  destruct (update_metrics_equation now saved_at self d Hne)
    as (first & latest & Hf & Hl & Hbounds & Heq).
  fold u in Heq. rewrite Heq in Hrun. clear Heq.
  exists first, latest.
  destruct (match completed_durations u d with
            | [] => Ok (total_session_time self, average_session_duration self)
            | _ :: _ => _
            end) as [[total average]|e]; [|discriminate].
  exists total, average. cbv zeta in Hrun. injection Hrun as <-.
  repeat split; try assumption; apply Hbounds; assumption.
Qed.

Lemma update_metrics_no_sessions (now saved_at : datetime)
    (self : UserBehaviorMetrics) (d : ActivityDb) :
  sessions_of (metrics_user self) d = [] ->
  update_metrics now saved_at self d = Ok (metrics_save saved_at self d).
Proof.
  intros Hnone. unfold update_metrics.
  pose proof (selected_sessions_perm (metrics_user self) d) as Hp.
  rewrite Hnone in Hp. apply Permutation_sym, Permutation_nil in Hp.
  rewrite Hp. reflexivity.
Qed.

(** X12: for a user without sessions [update_metrics] recomputes nothing:
    the object is saved with every field as it was but [last_updated],
    which the save sets to its clock reading; so the wallet figures are
    not refreshed either, whatever connections the user has; the
    sessions, the connections and the rows of other users are
    untouched. *)
Theorem update_metrics_without_sessions (now saved_at : datetime)
    (self : UserBehaviorMetrics) (d : ActivityDb) :
  sessions_of (metrics_user self) d = [] ->
  let saved := set_last_updated self saved_at in
  update_metrics now saved_at self d = Ok (saved, save_metrics saved d)
  /\ saved
     = mk_UserBehaviorMetrics (metrics_user self) (first_login self) (last_login self)
         (total_sessions self) (total_session_time self)
         (average_session_duration self) (days_since_first_login self)
         (is_returning_user self) (preferred_wallet self)
         (successful_wallet_connections self) (failed_wallet_connections self)
         saved_at
  /\ In saved (behavior_metrics (save_metrics saved d))
  /\ user_sessions (save_metrics saved d) = user_sessions d
  /\ wallet_connections (save_metrics saved d) = wallet_connections d
  /\ forall m0, In m0 (behavior_metrics d) -> metrics_user m0 <> metrics_user self ->
                In m0 (behavior_metrics (save_metrics saved d)).
Proof.
  intros Hnone saved.
  split; [now apply update_metrics_no_sessions|].
  split; [reflexivity|].
  exact (save_metrics_stores saved d).
Qed.

Lemma update_metrics_without_sessions_witness :
  update_metrics epoch epoch (blank_metrics 9) activity_db
  = Ok (set_last_updated (blank_metrics 9) epoch,
        save_metrics (set_last_updated (blank_metrics 9) epoch) activity_db).
Proof.
  apply (update_metrics_without_sessions epoch epoch (blank_metrics 9) activity_db).
  reflexivity.
Defined.

(** X13: for a user with sessions a successful [update_metrics] sets
    [total_sessions] to the number of sessions of the user,
    [is_returning_user] exactly when there is more than one, [first_login]
    and [last_login] to the earliest and the latest login among them, and
    [days_since_first_login] to the number of calendar days from the first
    login to the clock reading; it saves the row it returns. *)
Theorem update_metrics_session_fields (now saved_at : datetime)
    (self : UserBehaviorMetrics) (d : ActivityDb)
    (r : UserBehaviorMetrics * ActivityDb) :
  let u := metrics_user self in
  sessions_of u d <> [] ->
  update_metrics now saved_at self d = Ok r ->
  metrics_user (fst r) = u
  /\ total_sessions (fst r) = len (sessions_of u d)
  /\ (is_returning_user (fst r) = true <-> (1 < len (sessions_of u d))%Z)
  /\ (exists s, In s (sessions_of u d) /\ first_login (fst r) = login_at s)
  /\ (exists s, In s (sessions_of u d) /\ last_login (fst r) = login_at s)
  /\ (forall s, In s (sessions_of u d) ->
                dt_leb (first_login (fst r)) (login_at s) = true
                /\ dt_leb (login_at s) (last_login (fst r)) = true)
  /\ days_since_first_login (fst r)
     = (toordinal now - toordinal (first_login (fst r)))%Z
  /\ snd r = save_metrics (fst r) d
  /\ In (fst r) (behavior_metrics (snd r)).
Proof.
  intros u Hne Hrun.
  destruct (update_metrics_ok now saved_at self d r Hne Hrun)
    as (first & latest & total & average & Hf & Hl & Hbounds & Hm & Hd).
  fold u in Hm.
  destruct (update_wallet_preferences_spec
              (mk_UserBehaviorMetrics u (login_at first) (login_at latest)
                 (len (sessions_of u d)) total average
                 (toordinal now - toordinal (login_at first))%Z
                 (len (sessions_of u d) >? 1)%Z
                 (preferred_wallet self) (successful_wallet_connections self)
                 (failed_wallet_connections self) (last_updated self)) d)
    as (_ & _ & Hu & Hfl & Hll & Hts & _ & _ & Hdays & Hret).
  cbn [metrics_user first_login last_login total_sessions days_since_first_login
       is_returning_user] in Hu, Hfl, Hll, Hts, Hdays, Hret.
  assert (Hfields :
            metrics_user (fst r) = u
            /\ first_login (fst r) = login_at first
            /\ last_login (fst r) = login_at latest
            /\ total_sessions (fst r) = len (sessions_of u d)
            /\ days_since_first_login (fst r)
               = (toordinal now - toordinal (login_at first))%Z
            /\ is_returning_user (fst r) = (len (sessions_of u d) >? 1)%Z).
  { rewrite Hm.
    cbn [set_last_updated metrics_user first_login last_login total_sessions
         days_since_first_login is_returning_user].
    repeat split; assumption. }
  destruct Hfields as (Hu' & Hfl' & Hll' & Hts' & Hdays' & Hret').
  rewrite Hu', Hfl', Hll', Hts', Hdays', Hret'.
  split; [reflexivity|]. split; [reflexivity|].
  split; [rewrite Z.gtb_ltb; apply Z.ltb_lt|].
  split; [exists first; auto|]. split; [exists latest; auto|].
  split; [exact Hbounds|]. split; [reflexivity|]. split; [exact Hd|].
  rewrite Hd. exact (proj1 (save_metrics_stores _ _)).
Qed.

Lemma update_metrics_session_fields_witness :
  exists r : UserBehaviorMetrics * ActivityDb,
    update_metrics (mk_datetime 2025 6 10 0 0 0 0) epoch (blank_metrics 7) activity_db
    = Ok r
    /\ total_sessions (fst r) = len (sessions_of 7 activity_db)
    /\ (is_returning_user (fst r) = true <-> (1 < len (sessions_of 7 activity_db))%Z).
Proof.
  destruct (update_metrics (mk_datetime 2025 6 10 0 0 0 0) epoch (blank_metrics 7)
              activity_db) as [r|e] eqn:Hr; [|vm_compute in Hr; discriminate].
  exists r. split; [reflexivity|].
  destruct (update_metrics_session_fields (mk_datetime 2025 6 10 0 0 0 0) epoch
              (blank_metrics 7) activity_db r)
    as (_ & Hts & Hret & _).
  - vm_compute. discriminate.
  - exact Hr.
  - split; [exact Hts | exact Hret].
Defined.

(** X14: the session times of [update_metrics] for a user with sessions.
    Without a completed session the call succeeds and keeps both times.
    Otherwise it raises [OverflowError] exactly when the running sum of
    the durations (logout minus login, in the order the rows are read)
    leaves the range of [timedelta], and never [ZeroDivisionError];
    when it succeeds the total is the sum of the durations and the average
    is the total divided by their number, rounded to the nearest
    microsecond, a half to the even one. *)
Theorem update_metrics_session_times (now saved_at : datetime)
    (self : UserBehaviorMetrics) (d : ActivityDb) :
  let u := metrics_user self in
  let durations := completed_durations u d in
  sessions_of u d <> [] ->
  (durations = [] ->
   exists m, update_metrics now saved_at self d = Ok (m, save_metrics m d)
             /\ total_session_time m = total_session_time self
             /\ average_session_duration m = average_session_duration self)
  /\ (durations <> [] ->
      match td_sum_from 0%Z durations with
      | None => update_metrics now saved_at self d = Raise OverflowError
      | Some total =>
          exists m, update_metrics now saved_at self d = Ok (m, save_metrics m d)
                    /\ total = fold_right Z.add 0%Z durations
                    /\ total_session_time m = total
                    /\ average_session_duration m
                       = _divide_and_round total (len durations)
                    /\ (2 * Z.abs (average_session_duration m * len durations - total)
                        <= len durations)%Z
                    /\ ((2 * (total mod len durations) = len durations)%Z ->
                        Z.even (average_session_duration m) = true)
      end).
Proof.
  intros u durations Hne.
  destruct (update_metrics_equation now saved_at self d Hne)
    as (first & latest & _ & _ & _ & Heq).
  fold u in Heq. fold durations in Heq. rewrite Heq. clear Heq.
  split.
  - intros Hnil. rewrite Hnil. cbv zeta. unfold metrics_save.
    eexists. split; [reflexivity|].
    cbn [set_last_updated total_session_time average_session_duration].
    match goal with
    | |- context [update_wallet_preferences ?m0 d] =>
        destruct (update_wallet_preferences_spec m0 d)
          as (_ & _ & _ & _ & _ & _ & Ht & Ha & _)
    end.
    rewrite Ht, Ha. split; reflexivity.
  - intros Hsome.
    destruct durations as [|x xs] eqn:Hd; [contradiction|]. rewrite <- Hd.
    destruct (td_sum_from 0%Z durations) as [total|] eqn:Hsum; [|reflexivity].
    cbv zeta. unfold metrics_save. eexists. split; [reflexivity|].
    cbn [set_last_updated total_session_time average_session_duration].
    match goal with
    | |- context [update_wallet_preferences ?m0 d] =>
        destruct (update_wallet_preferences_spec m0 d)
          as (_ & _ & _ & _ & _ & _ & Ht & Ha & _)
    end.
    rewrite Ht, Ha.
    cbn [total_session_time average_session_duration].
    assert (Hpos : (0 < len durations)%Z).
    { rewrite Hd. unfold len. simpl length. lia. }
    destruct (divide_and_round_nearest total (len durations) Hpos) as [Hnear Heven].
    split; [apply td_sum_from_total in Hsum; lia|].
    split; [reflexivity|]. split; [reflexivity|]. split; assumption.
Qed.

Lemma update_metrics_session_times_witness :
  exists m : UserBehaviorMetrics,
    update_metrics epoch epoch (blank_metrics 7) activity_db
    = Ok (m, save_metrics m activity_db)
    /\ total_session_time m = 1801000001%Z
    /\ average_session_duration m = 900500000%Z.
Proof.
  destruct (update_metrics_session_times epoch epoch (blank_metrics 7) activity_db)
    as [_ Hsome].
  - vm_compute. discriminate.
  - assert (Hsum : td_sum_from 0%Z (completed_durations 7 activity_db)
                   = Some 1801000001%Z) by (vm_compute; reflexivity).
    cbv zeta in Hsome. change (metrics_user (blank_metrics 7)) with 7%Z in Hsome.
    rewrite Hsum in Hsome.
    destruct Hsome as (m & Hrun & _ & Ht & Ha & _).
    + vm_compute. discriminate.
    + exists m. split; [exact Hrun|]. split; [exact Ht|].
      rewrite Ha. vm_compute. reflexivity.
Defined.

(** X15: for a user with sessions and at least one successful wallet
    connection a successful [update_metrics] counts the successful and the
    failed connections of the user, and the preferred wallet is a provider
    with the most successful connections (and at least one). *)
Theorem update_metrics_preferred_wallet (now saved_at : datetime)
    (self : UserBehaviorMetrics) (d : ActivityDb)
    (r : UserBehaviorMetrics * ActivityDb) :
  let u := metrics_user self in
  sessions_of u d <> [] ->
  (0 < connection_count u "success" d)%Z ->
  update_metrics now saved_at self d = Ok r ->
  successful_wallet_connections (fst r) = connection_count u "success" d
  /\ failed_wallet_connections (fst r) = connection_count u "failed" d
  /\ (1 <= provider_count u (preferred_wallet (fst r)) d)%Z
  /\ forall q : string,
       (provider_count u q d <= provider_count u (preferred_wallet (fst r)) d)%Z.
Proof.
  intros u Hne Hpos Hrun.
  destruct (update_metrics_ok now saved_at self d r Hne Hrun)
    as (first & latest & total & average & _ & _ & _ & Hm & _).
  fold u in Hm. rewrite Hm.
  cbn [set_last_updated successful_wallet_connections failed_wallet_connections
       preferred_wallet].
  match goal with
  | |- context [update_wallet_preferences ?m0 d] =>
      destruct (update_wallet_preferences_spec m0 d) as (_ & Hw & _)
  end.
  exact (Hw Hpos).
Qed.

Lemma update_metrics_preferred_wallet_witness :
  exists r : UserBehaviorMetrics * ActivityDb,
    update_metrics epoch epoch (blank_metrics 7) activity_db = Ok r
    /\ successful_wallet_connections (fst r) = connection_count 7 "success" activity_db
    /\ failed_wallet_connections (fst r) = connection_count 7 "failed" activity_db.
Proof.
  destruct (update_metrics epoch epoch (blank_metrics 7) activity_db) as [r|e] eqn:Hr;
    [|vm_compute in Hr; discriminate].
  exists r. split; [reflexivity|].
  destruct (update_metrics_preferred_wallet epoch epoch (blank_metrics 7)
              activity_db r)
    as (Hs & Hf & _).
  - vm_compute. discriminate.
  - vm_compute. reflexivity.
  - exact Hr.
  - split; [exact Hs | exact Hf].
Defined.

(** X16: without a successful wallet connection of the user
    [update_metrics] leaves all three wallet figures as they were: the
    count of failed connections is not refreshed, however many failed
    connections the user has. *)
Theorem update_metrics_wallet_stale (now saved_at : datetime)
    (self : UserBehaviorMetrics) (d : ActivityDb)
    (r : UserBehaviorMetrics * ActivityDb) :
  connection_count (metrics_user self) "success" d = 0%Z ->
  update_metrics now saved_at self d = Ok r ->
  preferred_wallet (fst r) = preferred_wallet self
  /\ successful_wallet_connections (fst r) = successful_wallet_connections self
  /\ failed_wallet_connections (fst r) = failed_wallet_connections self.
Proof.
  intros Hzero Hrun.
  destruct (sessions_of (metrics_user self) d) as [|s0 ss] eqn:Hs.
  - rewrite (update_metrics_no_sessions now saved_at self d Hs) in Hrun.
    injection Hrun as <-. repeat split; reflexivity.
  - assert (Hne : sessions_of (metrics_user self) d <> []) by (rewrite Hs; discriminate).
    destruct (update_metrics_ok now saved_at self d r Hne Hrun)
      as (first & latest & total & average & _ & _ & _ & Hm & _).
    rewrite Hm.
    match goal with
    | |- context [update_wallet_preferences ?m0 d] =>
        destruct (update_wallet_preferences_spec m0 d) as (Hw & _)
    end.
    rewrite (Hw Hzero). repeat split; reflexivity.
Qed.

Lemma update_metrics_wallet_stale_witness :
  exists r : UserBehaviorMetrics * ActivityDb,
    update_metrics epoch epoch (blank_metrics 8) activity_db = Ok r
    /\ failed_wallet_connections (fst r) = 0%Z
    /\ connection_count 8 "failed" activity_db = 1%Z.
Proof.
  destruct (update_metrics epoch epoch (blank_metrics 8) activity_db) as [r|e] eqn:Hr;
    [|vm_compute in Hr; discriminate].
  exists r. split; [reflexivity|].
  destruct (update_metrics_wallet_stale epoch epoch (blank_metrics 8) activity_db r)
    as (_ & _ & Hf).
  - reflexivity.
  - exact Hr.
  - split; [exact Hf | reflexivity].
Defined.

(** ** On-demand reports *)

Lemma objects_get_none (report_id0 : Z) (d : Db) :
  (forall r, In r (reports d) -> report_id r <> report_id0) ->
  objects_get report_id0 d = None.
Proof.
  intros Hnone. unfold objects_get.
  destruct (List.find _ (reports d)) as [r|] eqn:Hfind; [|reflexivity].
  apply find_some in Hfind. destruct Hfind as [Hin Hid].
  apply Z.eqb_eq in Hid. elim (Hnone r Hin Hid).
Qed.

Lemma unique_by_key {A} (f : A -> Z) (l : list A) (a b : A) :
  List.NoDup (map f l) -> In a l -> In b l -> f a = f b -> a = b.
Proof.
  induction l as [|x l IH]; simpl; [contradiction|].
  intros Hnd Ha Hb Hab. inversion Hnd as [|? ? Hx Hnd']; subst.
  destruct Ha as [->|Ha], Hb as [->|Hb]; auto.
  - elim Hx. rewrite Hab. now apply in_map.
  - elim Hx. rewrite <- Hab. now apply in_map.
Qed.

Lemma objects_get_some (r : AutomatedReport) (d : Db) :
  List.NoDup (map report_id (reports d)) -> In r (reports d) ->
  objects_get (report_id r) d = Some r.
Proof.
  intros Hnd Hin. unfold objects_get.
  destruct (List.find _ (reports d)) as [r0|] eqn:Hfind.
  - apply find_some in Hfind. destruct Hfind as [Hin0 Hid]. apply Z.eqb_eq in Hid.
    f_equal. exact (unique_by_key report_id _ r0 r Hnd Hin0 Hin Hid).
  - pose proof (find_none _ _ Hfind r Hin) as Hne.
    cbv beta in Hne. rewrite Z.eqb_refl in Hne. discriminate.
Qed.

(** X17: when no report has the given id, [generate_single_report_task]
    returns the error [Report <id> not found], logs that one error, and
    neither calls the generator nor touches the tables. *)
Theorem generate_single_report_task_missing
    (generate_report : AutomatedReport -> Db -> (report_exn + ReportExecution) * Db)
    (report_id0 : Z) (w : World) :
  (forall r, In r (reports (db w)) -> report_id r <> report_id0) ->
  let run := generate_single_report_task generate_report report_id0 w in
  fst run = single_report_error (message_not_found report_id0)
  /\ db (snd run) = db w
  /\ calls (snd run) = calls w
  /\ logged (snd run)
     = logged w ++ [log_error "Report {} not found" [arg_int report_id0]].
Proof.
  intros Hnone run. subst run. unfold generate_single_report_task.
  rewrite (objects_get_none _ _ Hnone). repeat split; reflexivity.
Qed.

Lemma generate_single_report_task_missing_witness :
  fst (generate_single_report_task single_generator 6 (world_of inactive_db))
  = single_report_error (message_not_found 6).
Proof.
  apply (generate_single_report_task_missing single_generator 6 (world_of inactive_db)).
  intros r [<-|[]]. vm_compute. discriminate.
Defined.

(** X18: for a report of the table (ids being unique)
    [generate_single_report_task] calls the generator exactly once, on that
    report, whether or not the report is active or due; the tables after
    the task are those the generator left, so the task itself reschedules
    nothing; one record is logged; and the result is the execution the
    generator returned, or the error it raised, where a [DoesNotExist]
    raised by the generator is reported as [Report <id> not found]. *)
Theorem generate_single_report_task_existing
    (generate_report : AutomatedReport -> Db -> (report_exn + ReportExecution) * Db)
    (r : AutomatedReport) (w : World) :
  List.NoDup (map report_id (reports (db w))) ->
  In r (reports (db w)) ->
  let run := generate_single_report_task generate_report (report_id r) w in
  calls (snd run) = calls w ++ [call_generate_report r]
  /\ db (snd run) = snd (generate_report r (db w))
  /\ ticks (snd run) = ticks w
  /\ (exists record, logged (snd run) = logged w ++ [record])
  /\ fst run
     = match fst (generate_report r (db w)) with
       | inr execution =>
           single_report_success (execution_id execution) (execution_status execution)
       | inl AutomatedReport_DoesNotExist =>
           single_report_error (message_not_found (report_id r))
       | inl (other_exception e) => single_report_error (message_exception e)
       end.
Proof.
  intros Hnd Hin run. subst run. unfold generate_single_report_task.
  rewrite (objects_get_some r (db w) Hnd Hin).
  cbn [record_call snd db calls ticks logged].
  destruct (generate_report r (db w)) as [[[|e]|execution] d']; cbn;
    repeat split; try reflexivity; eexists; reflexivity.
Qed.

Lemma generate_single_report_task_existing_witness :
  is_active inactive_report = false
  /\ calls (snd (generate_single_report_task single_generator 5
                   (world_of inactive_db)))
     = [call_generate_report inactive_report].
Proof.
  split; [reflexivity|].
  apply (generate_single_report_task_existing single_generator inactive_report
           (world_of inactive_db)).
  - vm_compute. repeat constructor. intros [].
  - left. reflexivity.
Defined.

(** ** Temporary files *)

(** The loop of [cleanup_temp_files]: every iteration ends in the handler
    of its [try]. *)
Lemma clean_temp_files_loop {Fs} (path_exists : string -> Fs -> bool)
    (os_remove : string -> Fs -> result unit * Fs)
    (file_paths : list string) (w : TempWorld Fs) (cleaned_count : Z) :
  fold_left (clean_temp_file path_exists os_remove) file_paths (w, cleaned_count)
  = (mk_TempWorld (temp_fs w)
       (temp_logged w ++ map (fun p => temp_warning p (NameError "os")) file_paths)
       (temp_removed w),
     cleaned_count).
Proof.
  revert w. induction file_paths as [|p file_paths IH]; intros w; cbn [fold_left map].
  - rewrite app_nil_r. now destruct w.
  - unfold clean_temp_file at 2. change (global_bound "os") with false.
    cbn [fst snd]. rewrite IH. cbn [temp_fs temp_logged temp_removed].
    now rewrite <- app_assoc.
Qed.

(** X19: [cleanup_temp_files] removes nothing. The module does not bind
    [os], so for every path of the list the test of line 323 raises
    [NameError] inside the [try] of the loop body: one warning per path,
    in order; [os.remove] is never called, the file system is untouched,
    and the task logs and returns success with [files_cleaned = 0],
    whatever the paths are and whatever files exist. *)
Theorem cleanup_temp_files_outcome {Fs} (path_exists : string -> Fs -> bool)
    (os_remove : string -> Fs -> result unit * Fs)
    (file_paths : list string) (w : TempWorld Fs) :
  cleanup_temp_files path_exists os_remove file_paths w
  = (task_success [("files_cleaned", 0%Z)],
     mk_TempWorld (temp_fs w)
       (temp_logged w
        ++ map (fun p => temp_warning p (NameError "os")) file_paths
        ++ [temp_info 0])
       (temp_removed w)).
Proof.
  unfold cleanup_temp_files. rewrite clean_temp_files_loop.
  cbn [fst snd temp_fs temp_logged temp_removed]. now rewrite <- app_assoc.
Qed.
